(** * travelplanner: the chat client's query lifecycle (static/app.js)

    A shallow embedding of [static/app.js]: the module-level variables
    ([activeQueryId], [websocket], [serverLimitedMode]), the DOM nodes the
    script touches, and every function of the script as a state
    transformer.  Asynchronous functions are cut at their [await]s: the
    part of a call that is still to run is a first-order value
    ([suspended]) kept in the state until the event loop settles the
    promise it waits for. *)

From Stdlib Require Import ZArith List String Ascii Bool Lia SpecFloat DecimalString.
Import ListNotations.
Open Scope string_scope.
Open Scope Z_scope.

(** ** JavaScript values and strings *)

Module JS.

(** Binary64, the only number type of the language. *)
Definition prec : Z := 53.
Definition emax : Z := 1024.
Definition number := spec_float.

(** The values JSON.parse can put in a property the script reads, plus
    [undefined] (a missing property).  [VObject] stands for a plain
    object: it is truthy, and two objects that come from two different
    parses are never [===]. *)
Inductive value :=
| VUndefined
| VNull
| VBool (b : bool)
| VNum (x : number)
| VStr (s : string)
| VObject.

(** ToBoolean. *)
Definition truthy (v : value) : bool :=
  match v with
  | VUndefined | VNull => false
  | VBool b => b
  | VNum (S754_zero _) | VNum S754_nan => false
  | VNum _ => true
  | VStr s => negb (String.eqb s "")
  | VObject => true
  end.

(** [a === b]. *)
Definition strict_eq (a b : value) : bool :=
  match a, b with
  | VUndefined, VUndefined => true
  | VNull, VNull => true
  | VBool x, VBool y => Bool.eqb x y
  | VNum x, VNum y => SFeqb x y
  | VStr x, VStr y => String.eqb x y
  | _, _ => false
  end.

(** [a || b]. *)
Definition or_else (a b : value) : value := if truthy a then a else b.

(** Strings are held as their UTF-8 bytes.  [codes] and [of_codes] move
    between a string and the list of its byte values. *)
Definition codes (s : string) : list nat :=
  map nat_of_ascii (list_ascii_of_string s).

Definition of_codes (l : list nat) : string :=
  string_of_list_ascii (map ascii_of_nat l).

(** WhiteSpace and LineTerminator code points, by the length of their
    UTF-8 encoding: TAB LF VT FF CR SP; U+00A0; U+1680, U+2000..U+200A,
    U+2028, U+2029, U+202F, U+205F, U+3000, U+FEFF. *)
Definition ws1 (a : nat) : bool :=
  ((9 <=? a) && (a <=? 13))%nat || (a =? 32)%nat.

Definition ws2 (a b : nat) : bool := ((a =? 194) && (b =? 160))%nat.

Definition ws3 (a b c : nat) : bool :=
  ((a =? 225) && (b =? 154) && (c =? 128))%nat
  || ((a =? 226) && (b =? 128)
      && (((128 <=? c) && (c <=? 138)) || (c =? 168) || (c =? 169) || (c =? 175)))%nat
  || ((a =? 226) && (b =? 129) && (c =? 159))%nat
  || ((a =? 227) && (b =? 128) && (c =? 128))%nat
  || ((a =? 239) && (b =? 187) && (c =? 191))%nat.

(** Drop the white space at the front of a byte list. *)
Fixpoint dropStart (l : list nat) : list nat :=
  match l with
  | [] => []
  | a :: r1 =>
    if ws1 a then dropStart r1
    else match r1 with
         | [] => l
         | b :: r2 =>
           if ws2 a b then dropStart r2
           else match r2 with
                | [] => l
                | c :: r3 => if ws3 a b c then dropStart r3 else l
                end
         end
  end.

(** The same on a reversed byte list: the white space at the end. *)
Fixpoint dropEndRev (l : list nat) : list nat :=
  match l with
  | [] => []
  | a :: r1 =>
    if ws1 a then dropEndRev r1
    else match r1 with
         | [] => l
         | b :: r2 =>
           if ws2 b a then dropEndRev r2
           else match r2 with
                | [] => l
                | c :: r3 => if ws3 c b a then dropEndRev r3 else l
                end
         end
  end.

(** [String.prototype.trim]. *)
Definition trim (s : string) : string :=
  of_codes (rev (dropEndRev (rev (dropStart (codes s))))).

(** What a promise settles with. *)
Inductive outcome (A : Type) :=
| Fulfilled (a : A)
| Rejected.
Arguments Fulfilled {A} a.
Arguments Rejected {A}.

(** A [Response]: [ok] is true for the statuses 200 to 299. *)
Record response := { status : Z }.

Definition ok (r : response) : bool := (200 <=? status r) && (status r <=? 299).

End JS.
Import JS.

(** ** Data the backend sends *)

(** [memory.current_locations[name]], [memory.current_pois[i]] and
    [memory.current_plans[route]].  The route service reports metres and
    seconds as decimal strings. *)
Record location_info := { address : value }.
Record poi := { poi_name : value; poi_address : value }.
Record plan := { distance : string; duration : string }.

(** The [memory] object of GET /memory; the two objects are kept as the
    list of their entries, in [Object.entries] order. *)
Record memory := {
  query_count : value;
  current_locations : list (string * location_info);
  current_pois : list poi;
  current_plans : list (string * plan)
}.

(** A parsed response body, by the properties the script reads from it; a
    property the body does not have is [VUndefined] ([None] for
    [memory]). *)
Record body := {
  query_id : value;
  detail : value;
  query : value;
  final_answer : value;
  body_memory : option memory
}.

(** A parsed WebSocket message, by the properties [onmessage] reads. *)
Record wsdata := {
  ws_error : value;
  ws_query_id : value;
  ws_status : value;
  ws_result : value
}.

(** [event.data]: [Unparsable] is text on which [JSON.parse] throws (or
    that parses to [null], on which the first property read throws). *)
Inductive payload :=
| Unparsable
| Parsed (data : wsdata).

(** ** The page *)

(** HTTP requests, by method and path under [API_BASE_URL]. *)
Inductive path :=
| Health
| Memory
| MemoryReset
| Query
| QueryStatus (queryId : value)
| QueryResult (queryId : value).

Inductive request :=
| GET (p : path)
| POST (p : path) (json : option string).

(** The argument of [showError]: the literals of the script, and the
    template literals that carry a value of the backend. *)
Inductive error_message :=
| ErrText (s : string)
| ErrQueryFailed (detail_or_unknown : value)
| ErrResultFailed (detail : value)
| ErrResetFailed (detail : value)
| ErrFromChannel (error : value).

(** The messages of [chatContainer], oldest first, by the [addMessage]
    call that made them. *)
Inductive message :=
| UserMessage (content : string)
| AssistantMessage (content : value)
| SystemError (m : error_message)
| SystemWarning (m : string)
| SystemText (s : string).

Inductive role := user | assistant | system.

Definition role_of (m : message) : role :=
  match m with
  | UserMessage _ => user
  | AssistantMessage _ => assistant
  | _ => system
  end.

(** What the content div of a message holds once [marked.parse] has
    rendered the content and the browser has read it as HTML (line 330).
    The library lets HTML through, so a content can bring elements of
    its own.  [textContent] is the text of the content div;
    [message_contents] are the texts of the elements of class
    [message-content] inside the content div, in document order;
    [user_message_contents] are the texts of those among them that stand
    inside an element of class [user-message] of the content. *)
Record rendering := {
  textContent : string;
  message_contents : list string;
  user_message_contents : list string
}.

(** What [toFixed] and a template literal print for a number: the text
    itself, or [ToString(x)] left as it is where the shortest digits of
    [x] would have to be searched for. *)
Inductive numeral :=
| Digits (s : string)
| ToStringOf (x : number).

(** The children [updateMemoryPanel] appends to [memoryPanel]. *)
Inductive memory_item :=
| LocationItem (name : string) (address : value)
| PoiItem (name address : value)
| PlanItem (route : string) (km minutes : numeral).

Inductive memory_group :=
| Locations (items : list memory_item)
| Pois (items : list memory_item)
| Plans (items : list memory_item)
| QueryCount (n : value).

Inductive memory_panel :=
| PanelInitial
| PanelCleared
| PanelEmpty
| PanelReset
| PanelUnavailable
| PanelGroups (groups : list memory_group).

(** [statusPanel]: as the page has it, with the processing indicator
    ([processingStatus], and [processingText] in it) among its children;
    or emptied by line 471 and holding the warning of line 472 only. *)
Inductive status_panel :=
| StatusInitial
| StatusWarning (m : string).

(** The DOM nodes of the script's constants. *)
Record dom := {
  messageInput : string;
  chatContainer : list message;
  processingHidden : bool;
  processingText : string;
  statusPanel : status_panel;
  memoryPanel : memory_panel;
  resetMemoryBtn_disabled : bool;
  viewMemoryBtn_disabled : bool;
  memoryContent : option (option memory);
  memoryModal_shown : bool;
  listeners : bool
}.

(** The processing indicator is a child of [statusPanel] in the page:
    it is in the document as long as the panel has not been emptied, and
    it is seen when it is in the document without the class [d-none]. *)
Definition processingStatus_in_document (d : dom) : bool :=
  match statusPanel d with
  | StatusInitial => true
  | StatusWarning _ => false
  end.

Definition processingStatus_seen (d : dom) : bool :=
  processingStatus_in_document d && negb (processingHidden d).

(** A WebSocket with the closure [connectWebSocket] built around it. *)
Inductive readyState := CONNECTING | OPEN | CLOSING | CLOSED.

Inductive timer := Pending | Cleared | Fired.

Record connection := {
  queryId : value;
  ready : readyState;
  onclose : bool;
  close_calls : nat;
  connectionTimeout : timer
}.


(** The [await]s of the script, by the line they stand on. *)
Inductive fetch_point :=
| Startup_health
| Startup_memory
| Send_query
| Result_status (queryId : value)
| Result_result
| Memory_get
| Reset_post
| View_get.

Inductive json_point :=
| Startup_memory_json
| Send_json
| Send_error_json
| Result_status_json (queryId : value)
| Result_json
| Result_error_json
| Memory_json
| Reset_error_json
| View_json.

Inductive suspended :=
| AwaitFetch (p : fetch_point)
| AwaitJson (p : json_point).

(** The script's variables, what it has built, and what it has written. *)
Record state := {
  activeQueryId : value;
  websocket : option nat;
  serverLimitedMode : bool;
  connections : list connection;
  suspensions : list suspended;
  requests : list request;
  console : list string;
  page : dom
}.

(** ** Assignments *)

Definition action := state -> state.

(** What is left of a call of an asynchronous function when it hands
    control back: nothing, or the [await] it stopped at. *)
Definition async := state -> option suspended * state.

Definition seq {A : Type} (f : action) (g : state -> A) : state -> A :=
  fun s => g (f s).
Infix ";;" := seq (at level 61, right associativity).

Definition skip : action := fun s => s.

Definition set_activeQueryId (v : value) : action := fun s =>
  {| activeQueryId := v; websocket := websocket s;
     serverLimitedMode := serverLimitedMode s; connections := connections s;
     suspensions := suspensions s; requests := requests s;
     console := console s; page := page s |}.

Definition set_websocket (w : option nat) : action := fun s =>
  {| activeQueryId := activeQueryId s; websocket := w;
     serverLimitedMode := serverLimitedMode s; connections := connections s;
     suspensions := suspensions s; requests := requests s;
     console := console s; page := page s |}.

Definition set_serverLimitedMode (b : bool) : action := fun s =>
  {| activeQueryId := activeQueryId s; websocket := websocket s;
     serverLimitedMode := b; connections := connections s;
     suspensions := suspensions s; requests := requests s;
     console := console s; page := page s |}.

Definition set_connections (l : list connection) : action := fun s =>
  {| activeQueryId := activeQueryId s; websocket := websocket s;
     serverLimitedMode := serverLimitedMode s; connections := l;
     suspensions := suspensions s; requests := requests s;
     console := console s; page := page s |}.

Definition set_suspensions (l : list suspended) : action := fun s =>
  {| activeQueryId := activeQueryId s; websocket := websocket s;
     serverLimitedMode := serverLimitedMode s; connections := connections s;
     suspensions := l; requests := requests s;
     console := console s; page := page s |}.

Definition set_requests (l : list request) : action := fun s =>
  {| activeQueryId := activeQueryId s; websocket := websocket s;
     serverLimitedMode := serverLimitedMode s; connections := connections s;
     suspensions := suspensions s; requests := l;
     console := console s; page := page s |}.

Definition set_console (l : list string) : action := fun s =>
  {| activeQueryId := activeQueryId s; websocket := websocket s;
     serverLimitedMode := serverLimitedMode s; connections := connections s;
     suspensions := suspensions s; requests := requests s;
     console := l; page := page s |}.

Definition set_page (d : dom) : action := fun s =>
  {| activeQueryId := activeQueryId s; websocket := websocket s;
     serverLimitedMode := serverLimitedMode s; connections := connections s;
     suspensions := suspensions s; requests := requests s;
     console := console s; page := d |}.

Definition set_messageInput (v : string) : action := fun s =>
  let d := page s in
  set_page {| messageInput := v; chatContainer := chatContainer d;
     processingHidden := processingHidden d; processingText := processingText d;
     statusPanel := statusPanel d; memoryPanel := memoryPanel d;
     resetMemoryBtn_disabled := resetMemoryBtn_disabled d;
     viewMemoryBtn_disabled := viewMemoryBtn_disabled d;
     memoryContent := memoryContent d; memoryModal_shown := memoryModal_shown d;
     listeners := listeners d |} s.

Definition set_chatContainer (l : list message) : action := fun s =>
  let d := page s in
  set_page {| messageInput := messageInput d; chatContainer := l;
     processingHidden := processingHidden d; processingText := processingText d;
     statusPanel := statusPanel d; memoryPanel := memoryPanel d;
     resetMemoryBtn_disabled := resetMemoryBtn_disabled d;
     viewMemoryBtn_disabled := viewMemoryBtn_disabled d;
     memoryContent := memoryContent d; memoryModal_shown := memoryModal_shown d;
     listeners := listeners d |} s.

Definition set_processingHidden (b : bool) : action := fun s =>
  let d := page s in
  set_page {| messageInput := messageInput d; chatContainer := chatContainer d;
     processingHidden := b; processingText := processingText d;
     statusPanel := statusPanel d; memoryPanel := memoryPanel d;
     resetMemoryBtn_disabled := resetMemoryBtn_disabled d;
     viewMemoryBtn_disabled := viewMemoryBtn_disabled d;
     memoryContent := memoryContent d; memoryModal_shown := memoryModal_shown d;
     listeners := listeners d |} s.

Definition set_processingText (t : string) : action := fun s =>
  let d := page s in
  set_page {| messageInput := messageInput d; chatContainer := chatContainer d;
     processingHidden := processingHidden d; processingText := t;
     statusPanel := statusPanel d; memoryPanel := memoryPanel d;
     resetMemoryBtn_disabled := resetMemoryBtn_disabled d;
     viewMemoryBtn_disabled := viewMemoryBtn_disabled d;
     memoryContent := memoryContent d; memoryModal_shown := memoryModal_shown d;
     listeners := listeners d |} s.

Definition set_statusPanel (p : status_panel) : action := fun s =>
  let d := page s in
  set_page {| messageInput := messageInput d; chatContainer := chatContainer d;
     processingHidden := processingHidden d; processingText := processingText d;
     statusPanel := p; memoryPanel := memoryPanel d;
     resetMemoryBtn_disabled := resetMemoryBtn_disabled d;
     viewMemoryBtn_disabled := viewMemoryBtn_disabled d;
     memoryContent := memoryContent d; memoryModal_shown := memoryModal_shown d;
     listeners := listeners d |} s.

Definition set_memoryPanel (p : memory_panel) : action := fun s =>
  let d := page s in
  set_page {| messageInput := messageInput d; chatContainer := chatContainer d;
     processingHidden := processingHidden d; processingText := processingText d;
     statusPanel := statusPanel d; memoryPanel := p;
     resetMemoryBtn_disabled := resetMemoryBtn_disabled d;
     viewMemoryBtn_disabled := viewMemoryBtn_disabled d;
     memoryContent := memoryContent d; memoryModal_shown := memoryModal_shown d;
     listeners := listeners d |} s.

Definition set_buttons_disabled (b : bool) : action := fun s =>
  let d := page s in
  set_page {| messageInput := messageInput d; chatContainer := chatContainer d;
     processingHidden := processingHidden d; processingText := processingText d;
     statusPanel := statusPanel d; memoryPanel := memoryPanel d;
     resetMemoryBtn_disabled := b; viewMemoryBtn_disabled := b;
     memoryContent := memoryContent d; memoryModal_shown := memoryModal_shown d;
     listeners := listeners d |} s.

Definition show_memoryModal (c : option memory) : action := fun s =>
  let d := page s in
  set_page {| messageInput := messageInput d; chatContainer := chatContainer d;
     processingHidden := processingHidden d; processingText := processingText d;
     statusPanel := statusPanel d; memoryPanel := memoryPanel d;
     resetMemoryBtn_disabled := resetMemoryBtn_disabled d;
     viewMemoryBtn_disabled := viewMemoryBtn_disabled d;
     memoryContent := Some c; memoryModal_shown := true;
     listeners := listeners d |} s.

(** Lines 53 to 62: the four [addEventListener] calls. *)
Definition addEventListeners : action := fun s =>
  let d := page s in
  set_page {| messageInput := messageInput d; chatContainer := chatContainer d;
     processingHidden := processingHidden d; processingText := processingText d;
     statusPanel := statusPanel d; memoryPanel := memoryPanel d;
     resetMemoryBtn_disabled := resetMemoryBtn_disabled d;
     viewMemoryBtn_disabled := viewMemoryBtn_disabled d;
     memoryContent := memoryContent d; memoryModal_shown := memoryModal_shown d;
     listeners := true |} s.

Definition console_log (m : string) : action := fun s =>
  set_console (console s ++ [m])%list s.

(** [fetch(...)]: the request leaves. *)
Definition send (r : request) : action := fun s =>
  set_requests (requests s ++ [r])%list s.

(** ** The synchronous functions of the script *)

(** [addMessage(role, content)]. *)
Definition addMessage (m : message) : action := fun s =>
  set_chatContainer (chatContainer (page s) ++ [m])%list s.

Definition showError (m : error_message) : action :=
  addMessage (SystemError m).

(** [showProcessingStatus(show)]: the class [d-none] goes or comes. *)
Definition showProcessingStatus (show : bool) : action :=
  set_processingHidden (negb show).

Definition updateProcessingText (status : value) : action :=
  set_processingText
    (if strict_eq status (VStr "queued") then "查询已排队，等待处理..."
     else if strict_eq status (VStr "processing") then "正在分析并处理您的问题..."
     else if strict_eq status (VStr "completed") then "处理完成，获取结果..."
     else if strict_eq status (VStr "failed") then "处理失败"
     else "正在处理您的问题...").

(** Lines 461 to 481.  Line 471 empties [statusPanel]: the processing
    indicator, one of its children, leaves the document with it;
    [processingStatus] and [processingText] still name the two nodes,
    and what is written to them later is seen by nobody. *)
Definition handleLimitedMode (m : string) : action :=
  set_serverLimitedMode true ;;
  set_statusPanel (StatusWarning m) ;;
  addMessage (SystemWarning m) ;;
  set_buttons_disabled true ;;
  set_memoryPanel PanelUnavailable.

(** ** Numbers: [parseFloat], [parseInt], [Math.floor], [toFixed(1)] *)

Module Num.

(** The Number for a mathematical integer, rounded to nearest, ties to
    even. *)
Definition of_Z (z : Z) : number := binary_normalize prec emax z 0 false.

Definition is_digit (c : nat) : bool := ((48 <=? c) && (c <=? 57))%nat.

(** The decimal digits a byte list starts with, and what follows them. *)
Fixpoint span_digits (l : list nat) : list nat * list nat :=
  match l with
  | c :: r =>
    if is_digit c then let (ds, rest) := span_digits r in (c :: ds, rest)
    else ([], l)
  | [] => ([], [])
  end.

Definition digits_value (ds : list nat) : Z :=
  fold_left (fun acc c => 10 * acc + (Z.of_nat c - 48)) ds 0.

(** The value of the ExponentPart a byte list starts with; 0 when there
    is none ([e], [e+] and [e-] with no digit after are no exponent). *)
Definition signed_digits (l : list nat) : Z :=
  match l with
  | c :: r =>
    if (c =? 43)%nat then digits_value (fst (span_digits r))
    else if (c =? 45)%nat then - digits_value (fst (span_digits r))
    else digits_value (fst (span_digits l))
  | [] => 0
  end.

Definition exponent_part (l : list nat) : Z :=
  match l with
  | c :: r => if (c =? 101)%nat || (c =? 69)%nat then signed_digits r else 0
  | [] => 0
  end.

(** What follows a decimal point at the head of a byte list. *)
Definition after_point (l : list nat) : option (list nat) :=
  match l with
  | c :: r => if (c =? 46)%nat then Some r else None
  | [] => None
  end.

(** StrUnsignedDecimalLiteral without [Infinity]: the longest prefix that
    is one, as the integer [M] and the power of ten [E] with value
    [M * 10 ^ E]; [None] when no prefix is one. *)
Definition unsigned_decimal (l : list nat) : option (Z * Z) :=
  let (ip, r) := span_digits l in
  match after_point r with
  | Some r' =>
    let (fp, r'') := span_digits r' in
    match ip, fp with
    | [], [] => None
    | _, _ => Some (digits_value (ip ++ fp)%list,
                    exponent_part r'' - Z.of_nat (List.length fp))
    end
  | None =>
    match ip with
    | [] => None
    | _ => Some (digits_value ip, exponent_part r)
    end
  end.

(** The Number nearest to [M * 10 ^ E], with the sign [neg]. *)
Definition of_decimal (neg : bool) (M E : Z) : number :=
  match M with
  | Zpos m =>
    if 0 <=? E then binary_round prec emax neg (Z.to_pos (M * 10 ^ E)) 0
    else SFdiv prec emax (S754_finite neg m 0)
                         (S754_finite false (Z.to_pos (10 ^ (- E))) 0)
  | _ => S754_zero neg
  end.

Fixpoint starts_with (p l : list nat) : bool :=
  match p, l with
  | [], _ => true
  | a :: p', b :: l' => (a =? b)%nat && starts_with p' l'
  | _ :: _, [] => false
  end.

Definition unsigned_literal (neg : bool) (l : list nat) : number :=
  if starts_with (codes "Infinity") l then S754_infinity neg
  else match unsigned_decimal l with
       | Some (M, E) => of_decimal neg M E
       | None => S754_nan
       end.

(** An optional sign at the head of a byte list: whether it is a minus,
    and what follows it. *)
Definition sign_of (l : list nat) : bool * list nat :=
  match l with
  | c :: r =>
    if (c =? 43)%nat then (false, r)
    else if (c =? 45)%nat then (true, r)
    else (false, l)
  | [] => (false, [])
  end.

(** [parseFloat(s)] for a string [s]. *)
Definition parseFloat (s : string) : number :=
  let (neg, l) := sign_of (dropStart (codes s)) in unsigned_literal neg l.

Definition hex_digit (c : nat) : option Z :=
  if is_digit c then Some (Z.of_nat c - 48)
  else if ((97 <=? c) && (c <=? 102))%nat then Some (Z.of_nat c - 87)
  else if ((65 <=? c) && (c <=? 70))%nat then Some (Z.of_nat c - 55)
  else None.

(** The value of the hexadecimal digits a byte list starts with; [None]
    when it starts with none. *)
Fixpoint hex_value (acc : option Z) (l : list nat) : option Z :=
  match l with
  | c :: r =>
    match hex_digit c with
    | Some d =>
      hex_value (Some (16 * match acc with Some a => a | None => 0 end + d)) r
    | None => acc
    end
  | [] => acc
  end.

Definition signed (neg : bool) (z : Z) : number :=
  match z with
  | Z0 => S754_zero neg
  | _ => binary_normalize prec emax (if neg then - z else z) 0 false
  end.

(** What follows [0x] or [0X] at the head of a byte list. *)
Definition after_0x (l : list nat) : option (list nat) :=
  match l with
  | a :: b :: r =>
    if (a =? 48)%nat && ((b =? 120)%nat || (b =? 88)%nat) then Some r else None
  | _ => None
  end.

Definition unsigned_integer (neg : bool) (l : list nat) : number :=
  match after_0x l with
  | Some r =>
    match hex_value None r with
    | Some z => signed neg z
    | None => S754_nan
    end
  | None =>
    match fst (span_digits l) with
    | [] => S754_nan
    | ds => signed neg (digits_value ds)
    end
  end.

(** [parseInt(s)] for a string [s], no radix given. *)
Definition parseInt (s : string) : number :=
  let (neg, l) := sign_of (dropStart (codes s)) in unsigned_integer neg l.

(** [x / y]. *)
Definition div (x y : number) : number := SFdiv prec emax x y.

(** [Math.floor(x)]. *)
Definition floor (x : number) : number :=
  match x with
  | S754_finite s m e =>
    if 0 <=? e then x
    else
      let q := Z.pos m / 2 ^ (- e) in
      let r := Z.pos m mod 2 ^ (- e) in
      if s then of_Z (- (if r =? 0 then q else q + 1))
      else of_Z q
  | _ => x
  end.

(** The decimal digits of a natural number. *)
Definition decimal (n : Z) : string :=
  DecimalString.NilZero.string_of_uint (N.to_uint (Z.to_N n)).

(** [x.toFixed(1)]: the integer [n] with [n / 10] nearest to [x], the
    larger one of two; from 10^21 on, [ToString(x)]. *)
Definition toFixed1 (x : number) : numeral :=
  match x with
  | S754_nan => Digits "NaN"
  | S754_infinity false => Digits "Infinity"
  | S754_infinity true => Digits "-Infinity"
  | S754_zero _ => Digits "0.0"
  | S754_finite s m e =>
    if (if 0 <=? e then 10 ^ 21 <=? Z.pos m * 2 ^ e
        else 10 ^ 21 * 2 ^ (- e) <=? Z.pos m)
    then ToStringOf x
    else
      let n := if 0 <=? e then 10 * Z.pos m * 2 ^ e
               else (20 * Z.pos m + 2 ^ (- e)) / 2 ^ (1 - e) in
      Digits ((if s then "-" else "") ++ decimal (n / 10) ++ "." ++ decimal (n mod 10))
  end.

(** [`${x}`] for a Number [x]: the digits of an integer below 2^53, and
    the names of the values that are not finite. *)
Definition to_text (x : number) : numeral :=
  match x with
  | S754_nan => Digits "NaN"
  | S754_infinity false => Digits "Infinity"
  | S754_infinity true => Digits "-Infinity"
  | S754_zero _ => Digits "0"
  | S754_finite s m e =>
    if (e <=? 0) && (Z.pos m mod 2 ^ (- e) =? 0)
    then Digits ((if s then "-" else "") ++ decimal (Z.pos m / 2 ^ (- e)))
    else ToStringOf x
  end.

End Num.

(** ** The memory panel *)

(** Lines 441 to 447: one route of [memory.current_plans]. *)
Definition plan_item (route : string) (info : plan) : memory_item :=
  let distanceKm := Num.div (Num.parseFloat (distance info)) (Num.of_Z 1000) in
  let durationMin := Num.floor (Num.div (Num.parseInt (duration info)) (Num.of_Z 60)) in
  PlanItem route (Num.toFixed1 distanceKm) (Num.to_text durationMin).

Definition location_group (m : memory) : list memory_group :=
  match current_locations m with
  | [] => []
  | l => [Locations (map (fun e => LocationItem (fst e) (address (snd e))) l)]
  end.

Definition poi_group (m : memory) : list memory_group :=
  match current_pois m with
  | [] => []
  | l => [Pois (map (fun p => PoiItem (poi_name p) (poi_address p)) (firstn 3 l))]
  end.

Definition plan_group (m : memory) : list memory_group :=
  match current_plans m with
  | [] => []
  | l => [Plans (map (fun e => plan_item (fst e) (snd e)) l)]
  end.

(** What [updateMemoryPanel(memory)] leaves in [memoryPanel] for a
    [memory] that is an object. *)
Definition memory_view (m : memory) : memory_panel :=
  if strict_eq (query_count m) (VNum (S754_zero false)) then PanelEmpty
  else PanelGroups (location_group m ++ poi_group m ++ plan_group m
                    ++ [QueryCount (query_count m)])%list.

(** [updateMemoryPanel(memory)]; the boolean tells that it threw: on
    [undefined] the panel is emptied and the read of [query_count]
    throws. *)
Definition updateMemoryPanel (m : option memory) (s : state) : bool * state :=
  match m with
  | Some m => (false, set_memoryPanel (memory_view m) s)
  | None => (true, set_memoryPanel PanelCleared s)
  end.

(** ** WebSockets *)

Definition update_connection (k : nat) (f : connection -> connection) : action :=
  fun s =>
  match nth_error (connections s) k with
  | Some c =>
    set_connections (firstn k (connections s) ++ f c :: skipn (S k) (connections s))%list s
  | None => s
  end.

Definition ready_of (s : state) (k : nat) : option readyState :=
  option_map ready (nth_error (connections s) k).

Definition set_ready (r : readyState) (c : connection) : connection :=
  {| queryId := queryId c; ready := r; onclose := onclose c;
     close_calls := close_calls c; connectionTimeout := connectionTimeout c |}.

Definition set_onclose (b : bool) (c : connection) : connection :=
  {| queryId := queryId c; ready := ready c; onclose := b;
     close_calls := close_calls c; connectionTimeout := connectionTimeout c |}.

Definition set_timer (t : timer) (c : connection) : connection :=
  {| queryId := queryId c; ready := ready c; onclose := onclose c;
     close_calls := close_calls c; connectionTimeout := t |}.

(** [ws.close()]: a socket that is connecting or open starts closing. *)
Definition close (c : connection) : connection :=
  {| queryId := queryId c;
     ready := match ready c with
              | CONNECTING | OPEN => CLOSING
              | r => r
              end;
     onclose := onclose c;
     close_calls := S (close_calls c);
     connectionTimeout := connectionTimeout c |}.

(** [clearTimeout(t)]. *)
Definition clearTimeout (c : connection) : connection :=
  match connectionTimeout c with
  | Pending => set_timer Cleared c
  | _ => c
  end.

(** Lines 114 to 127. *)
Definition closeWebSocketConnection : action := fun s =>
  let s1 :=
    match websocket s with
    | Some k =>
      (console_log "关闭现有WebSocket连接" ;;
       update_connection k (set_onclose false) ;;
       update_connection k close ;;
       set_websocket None) s
    | None => s
    end in
  if truthy (activeQueryId s1)
  then (console_log "重置活动查询ID:" ;; set_activeQueryId VNull) s1
  else s1.

(** The URL of line 143 ends in the text of [queryId].  A [#] in it
    starts a fragment; the texts of the values that are no strings hold
    none. *)
Definition has_fragment (q : value) : bool :=
  match q with
  | VStr s => existsb (Nat.eqb 35) (codes s)
  | _ => false
  end.

(** Lines 146 to 203: [new WebSocket(wsUrl)] with its timer and its four
    handlers.  The boolean tells that the constructor threw: it throws a
    [SyntaxError] on a URL with a fragment, and then [websocket] is not
    assigned and no timer is set. *)
Definition new_WebSocket (q : value) (s : state) : bool * state :=
  if has_fragment q then (true, s)
  else
    (false,
     (set_connections
        (connections s ++ [{| queryId := q; ready := CONNECTING; onclose := true;
                              close_calls := 0; connectionTimeout := Pending |}])%list ;;
      set_websocket (Some (List.length (connections s)))) s).

(** Lines 130 to 204; the boolean tells that it threw. *)
Definition connectWebSocket (q : value) : state -> bool * state :=
  closeWebSocketConnection ;;
  console_log "正在建立到查询 ${queryId} 的WebSocket连接" ;;
  set_activeQueryId q ;;
  console_log "WebSocket URL:" ;;
  new_WebSocket q.

(** Lines 149 to 158: the function given to [setTimeout]. *)
Definition connectionTimeout_callback : action := fun s =>
  match websocket s with
  | Some k =>
    match ready_of s k with
    | Some OPEN => s
    | _ =>
      (console_log "WebSocket连接超时" ;;
       update_connection k close ;;
       set_websocket None ;;
       showError (ErrText "WebSocket连接超时，请刷新页面重试") ;;
       showProcessingStatus false ;;
       set_activeQueryId VNull) s
    end
  | None => s
  end.

(** Lines 160 to 163, for the socket [k]. *)
Definition ws_onopen (k : nat) : action :=
  console_log "WebSocket连接已建立" ;;
  update_connection k clearTimeout.

(** Lines 194 to 199. *)
Definition ws_onerror : action :=
  console_log "WebSocket错误:" ;;
  showError (ErrText "WebSocket连接错误") ;;
  showProcessingStatus false ;;
  set_activeQueryId VNull.

(** Lines 201 to 203. *)
Definition ws_onclose : action := console_log "WebSocket连接已关闭".

(** ** The asynchronous functions, up to their first [await] *)

Definition finish (f : action) : async := fun s => (None, f s).

(** [await fetch(r)] and [await response.json()]. *)
Definition await_fetch (r : request) (p : fetch_point) : async :=
  fun s => (Some (AwaitFetch p), send r s).

Definition await_json (p : json_point) : async :=
  fun s => (Some (AwaitJson p), s).

(** A call that is not awaited: it runs to its first [await] and is left
    with the event loop. *)
Definition call (a : async) : action := fun s =>
  match a s with
  | (Some p, s') => set_suspensions (suspensions s' ++ [p])%list s'
  | (None, s') => s'
  end.

(** Line 207. *)
Definition fetchQueryResult (q : value) : async :=
  await_fetch (GET (QueryStatus q)) (Result_status q).

(** Line 267. *)
Definition fetchMemory : async := await_fetch (GET Memory) Memory_get.

(** Lines 66 to 86. *)
Definition sendMessage : async := fun s =>
  let query := trim (messageInput (page s)) in
  if negb (truthy (VStr query)) || truthy (activeQueryId s) then (None, s)
  else (closeWebSocketConnection ;;
        addMessage (UserMessage query) ;;
        set_messageInput "" ;;
        showProcessingStatus true ;;
        await_fetch (POST Query (Some query)) Send_query) s.

(** Lines 281 to 289; [confirmed] is what [confirm] returns. *)
Definition resetMemory (confirmed : bool) : async :=
  if confirmed then await_fetch (POST MemoryReset None) Reset_post
  else finish skip.

(** Line 306. *)
Definition viewFullMemory : async := await_fetch (GET Memory) View_get.

(** Lines 21 to 24. *)
Definition startup : async := await_fetch (GET Health) Startup_health.

(** Lines 165 to 192, for a socket opened for [q]. *)
Definition ws_onmessage (q : value) (d : payload) : action :=
  match d with
  | Unparsable => skip
  | Parsed data =>
    if truthy (ws_error data) then
      showError (ErrFromChannel (ws_error data)) ;;
      showProcessingStatus false ;;
      set_activeQueryId VNull
    else fun s =>
      if negb (strict_eq (ws_query_id data) (activeQueryId s)) then
        console_log "收到非当前查询的WebSocket消息" s
      else
        (updateProcessingText (ws_status data) ;;
         (if strict_eq (ws_status data) (VStr "completed") && truthy (ws_result data)
          then call (fetchQueryResult q)
          else if strict_eq (ws_status data) (VStr "failed")
          then showError (ErrText "查询处理失败") ;;
               showProcessingStatus false ;;
               set_activeQueryId VNull
          else skip)) s
  end.

(** ** The asynchronous functions, after each [await] *)

Section Script.

(** [marked.parse] and the browser's reading of [innerHTML]: what the
    content div of a message holds.  The library is not part of the
    script. *)
Variable marked : message -> rendering.

(** What [.user-message .message-content] selects in one message, in
    document order.  The div of a user message has the class
    [user-message], so its content div is selected and with it every
    element of class [message-content] the content brings.  The div of
    any other message has not, and no element around [chatContainer]
    has it in the page; so there the selector finds only what the
    content brings under a [user-message] of its own. *)
Definition selected (m : message) : list string :=
  match role_of m with
  | user => textContent (marked m) :: message_contents (marked m)
  | _ => user_message_contents (marked m)
  end.

(** Line 257: the [textContent]s of the elements of [userMessages]. *)
Definition userMessages (s : state) : list string :=
  flat_map selected (chatContainer (page s)).

(** Lines 256 to 264: the trimmed text of the last element selected, or
    [null]. *)
Definition getLastUserMessage (s : state) : value :=
  match rev (userMessages s) with
  | lastMessage :: _ => VStr (trim lastMessage)
  | [] => VNull
  end.

(** [catch] and [finally] of [fetchQueryResult], lines 246 to 252. *)
Definition fetchQueryResult_catch : action :=
  console_log "获取结果错误:" ;; showError (ErrText "获取结果时出错").

Definition fetchQueryResult_finally : action :=
  showProcessingStatus false ;; set_activeQueryId VNull.

(** [catch] of [sendMessage], lines 106 to 110. *)
Definition sendMessage_catch : action :=
  console_log "发送消息错误:" ;;
  showError (ErrText "无法连接到服务器，请检查服务是否正常运行") ;;
  showProcessingStatus false.

(** The inner [catch] of the start-up handler, lines 40 to 43. *)
Definition startup_memory_catch : action :=
  console_log "记忆服务不可用:" ;;
  handleLimitedMode "记忆服务不可用，部分功能受限".

Definition resetMemory_catch : action :=
  console_log "重置记忆错误:" ;; showError (ErrText "重置记忆时出错").

Definition viewFullMemory_catch : action :=
  console_log "获取完整记忆错误:" ;; showError (ErrText "获取完整记忆时出错").

Definition fetchMemory_catch : action := console_log "获取记忆状态错误:".

(** A call goes on when the [fetch] it awaits settles. *)
Definition resume_fetch (p : fetch_point) (o : outcome response) : async :=
  match p, o with
  (* line 24 *)
  | Startup_health, Rejected =>
    finish (console_log "连接错误:" ;; showError (ErrText "无法连接到服务器") ;;
            addEventListeners)
  | Startup_health, Fulfilled response =>
    if ok response
    then console_log "API服务运行正常" ;; await_fetch (GET Memory) Startup_memory
    else finish (showError (ErrText "API服务不可用") ;; addEventListeners)
  (* line 31 *)
  | Startup_memory, Rejected => finish (startup_memory_catch ;; addEventListeners)
  | Startup_memory, Fulfilled memoryResponse =>
    if (status memoryResponse =? 500) || (status memoryResponse =? 503)
    then finish (handleLimitedMode "MCP客户端未初始化，部分功能可能不可用" ;;
                 addEventListeners)
    else if ok memoryResponse then await_json Startup_memory_json
    else finish addEventListeners
  (* line 82 *)
  | Send_query, Rejected => finish sendMessage_catch
  | Send_query, Fulfilled response =>
    if ok response then await_json Send_json
    else if status response =? 503
    then finish (handleLimitedMode "服务未完全初始化，请重启服务器后再试" ;;
                 showProcessingStatus false)
    else await_json Send_error_json
  (* line 210 *)
  | Result_status q, Rejected =>
    finish (fetchQueryResult_catch ;; fetchQueryResult_finally)
  | Result_status q, Fulfilled statusResponse =>
    if ok statusResponse then await_json (Result_status_json q)
    else finish (showError (ErrText "无法验证查询状态") ;; fetchQueryResult_finally)
  (* line 227 *)
  | Result_result, Rejected =>
    finish (fetchQueryResult_catch ;; fetchQueryResult_finally)
  | Result_result, Fulfilled response =>
    if ok response then await_json Result_json else await_json Result_error_json
  (* line 269 *)
  | Memory_get, Rejected => finish fetchMemory_catch
  | Memory_get, Fulfilled response =>
    if ok response then await_json Memory_json else finish skip
  (* line 287 *)
  | Reset_post, Rejected => finish resetMemory_catch
  | Reset_post, Fulfilled response =>
    if ok response
    then finish (set_memoryPanel PanelReset ;; addMessage (SystemText "系统记忆已重置"))
    else await_json Reset_error_json
  (* line 308 *)
  | View_get, Rejected => finish viewFullMemory_catch
  | View_get, Fulfilled response =>
    if ok response then await_json View_json else finish skip
  end.

(** A call goes on when the [json()] it awaits settles: with [Rejected]
    for a body that is no JSON, with [Fulfilled None] for the body
    [null], on which the first property read throws, and with
    [Fulfilled (Some data)] for any other body. *)
Definition resume_json (p : json_point) (o : outcome (option body)) : async :=
  match p, o with
  (* line 37 *)
  | Startup_memory_json, Fulfilled (Some data) => fun s =>
    match updateMemoryPanel (body_memory data) s with
    | (true, s') => finish (startup_memory_catch ;; addEventListeners) s'
    | (false, s') => finish addEventListeners s'
    end
  | Startup_memory_json, _ =>
    finish (startup_memory_catch ;; addEventListeners)
  (* line 89 *)
  | Send_json, Fulfilled (Some data) =>
    set_activeQueryId (query_id data) ;;
    (fun s =>
       match connectWebSocket (activeQueryId s) s with
       | (true, s') => finish sendMessage_catch s'
       | (false, s') => (None, s')
       end)
  | Send_json, _ => finish sendMessage_catch
  (* line 101 *)
  | Send_error_json, Fulfilled (Some errorData) =>
    finish (showError (ErrQueryFailed (or_else (detail errorData) (VStr "未知错误"))) ;;
            showProcessingStatus false)
  | Send_error_json, _ => finish sendMessage_catch
  (* line 212 *)
  | Result_status_json q, Fulfilled (Some statusData) => fun s =>
    let lastUserMessage := getLastUserMessage s in
    if truthy lastUserMessage
       && negb (strict_eq (query statusData) lastUserMessage)
    then finish (console_log "查询与最后发送的消息不匹配" ;;
                 console_log "查询:" ;;
                 console_log "最后消息:" ;;
                 showError (ErrText "查询与最后发送的消息不匹配，可能存在混淆。请重试您的问题。") ;;
                 showProcessingStatus false ;;
                 set_activeQueryId VNull ;;
                 fetchQueryResult_finally) s
    else await_fetch (GET (QueryResult q)) Result_result s
  | Result_status_json q, Fulfilled None => fun s =>
    (* [statusData.query] is read, and throws, only after a truthy
       [lastUserMessage] *)
    if truthy (getLastUserMessage s)
    then finish (fetchQueryResult_catch ;; fetchQueryResult_finally) s
    else await_fetch (GET (QueryResult q)) Result_result s
  | Result_status_json q, Rejected =>
    finish (fetchQueryResult_catch ;; fetchQueryResult_finally)
  (* line 230 *)
  | Result_json, Fulfilled (Some data) =>
    if truthy (final_answer data)
    then
      match final_answer data with
      | VStr _ =>
        finish (addMessage (AssistantMessage (final_answer data)) ;;
                call fetchMemory ;;
                fetchQueryResult_finally)
      | _ =>
        (* [marked.parse] throws on what is no string, before the
           message is appended *)
        finish (fetchQueryResult_catch ;; fetchQueryResult_finally)
      end
    else finish fetchQueryResult_finally
  | Result_json, _ =>
    finish (fetchQueryResult_catch ;; fetchQueryResult_finally)
  (* line 240 *)
  | Result_error_json, Fulfilled (Some error) =>
    finish (showError (ErrResultFailed (detail error)) ;; fetchQueryResult_finally)
  | Result_error_json, _ =>
    finish (fetchQueryResult_catch ;; fetchQueryResult_finally)
  (* line 272 *)
  | Memory_json, Fulfilled (Some data) => fun s =>
    match updateMemoryPanel (body_memory data) s with
    | (true, s') => finish fetchMemory_catch s'
    | (false, s') => (None, s')
    end
  | Memory_json, _ => finish fetchMemory_catch
  (* line 296 *)
  | Reset_error_json, Fulfilled (Some error) =>
    finish (showError (ErrResetFailed (detail error)))
  | Reset_error_json, _ => finish resetMemory_catch
  (* line 311 *)
  | View_json, Fulfilled (Some data) => finish (show_memoryModal (body_memory data))
  | View_json, _ => finish viewFullMemory_catch
  end.

(** ** The event loop *)

(** What the browser hands to the script. *)
Inductive event :=
| DOMContentLoaded
| Input (text : string)
| Keydown (enter shiftKey : bool)
| ClickSend
| ClickReset (confirmed : bool)
| ClickView
| Opened (k : nat)
| Received (k : nat) (d : payload)
| Failed (k : nat)
| Closed (k : nat)
| TimedOut (k : nat)
| FetchSettled (i : nat) (o : outcome response)
| JsonSettled (i : nat) (o : outcome (option body)).

Definition remove_nth {A : Type} (i : nat) (l : list A) : list A :=
  (firstn i l ++ skipn (S i) l)%list.

Definition take_suspension (i : nat) : action := fun s =>
  set_suspensions (remove_nth i (suspensions s)) s.

(** One task of the event loop.  An event the browser cannot deliver in
    the state (a message on a socket that is not open, a timer that has
    been cleared, a click before the listeners are there) changes
    nothing. *)
Definition handle (e : event) : action := fun s =>
  match e with
  | DOMContentLoaded => call startup s
  | Input text => set_messageInput text s
  | Keydown enter shiftKey =>
    if listeners (page s) && enter && negb shiftKey then call sendMessage s else s
  | ClickSend => if listeners (page s) then call sendMessage s else s
  | ClickReset confirmed =>
    if listeners (page s) then call (resetMemory confirmed) s else s
  | ClickView => if listeners (page s) then call viewFullMemory s else s
  | Opened k =>
    match ready_of s k with
    | Some CONNECTING => (update_connection k (set_ready OPEN) ;; ws_onopen k) s
    | _ => s
    end
  | Received k d =>
    match nth_error (connections s) k with
    | Some c => match ready c with
                | OPEN => ws_onmessage (queryId c) d s
                | _ => s
                end
    | None => s
    end
  | Failed k =>
    match nth_error (connections s) k with
    | Some c =>
      match ready c with
      | CLOSED => s
      | _ => (update_connection k (set_ready CLOSED) ;;
              ws_onerror ;;
              (if onclose c then ws_onclose else skip)) s
      end
    | None => s
    end
  | Closed k =>
    match nth_error (connections s) k with
    | Some c =>
      match ready c with
      | OPEN | CLOSING =>
        (update_connection k (set_ready CLOSED) ;;
         (if onclose c then ws_onclose else skip)) s
      | _ => s
      end
    | None => s
    end
  | TimedOut k =>
    match nth_error (connections s) k with
    | Some c =>
      match connectionTimeout c with
      | Pending => (update_connection k (set_timer Fired) ;;
                    connectionTimeout_callback) s
      | _ => s
      end
    | None => s
    end
  | FetchSettled i o =>
    match nth_error (suspensions s) i with
    | Some (AwaitFetch p) => (take_suspension i ;; call (resume_fetch p o)) s
    | _ => s
    end
  | JsonSettled i o =>
    match nth_error (suspensions s) i with
    | Some (AwaitJson p) => (take_suspension i ;; call (resume_json p o)) s
    | _ => s
    end
  end.

Definition run (es : list event) : action := fun s => fold_left (fun s e => handle e s) es s.

End Script.

(** The page as the script finds it; the document itself is not part of
    the script. *)
Definition initial (d : dom) : state :=
  {| activeQueryId := VNull; websocket := None; serverLimitedMode := false;
     connections := []; suspensions := []; requests := []; console := [];
     page := d |}.

Definition blank_page : dom :=
  {| messageInput := ""; chatContainer := []; processingHidden := true;
     processingText := "正在处理您的问题..."; statusPanel := StatusInitial;
     memoryPanel := PanelInitial; resetMemoryBtn_disabled := false;
     viewMemoryBtn_disabled := false; memoryContent := None;
     memoryModal_shown := false; listeners := false |}.

(** ** Runs of one asynchronous call *)

Section Calls.

Variable marked : message -> rendering.

(** [ends c s']: the call that handed back [c] runs to its end and leaves
    [s'].  Between the moment it stops at an [await] and the moment the
    promise settles other tasks run, so it goes on in a state [s1] that
    need not be the one it stopped in, with whatever the promise settled
    with. *)
Inductive ends : option suspended * state -> state -> Prop :=
| ends_returned (s : state) : ends (None, s) s
| ends_after_fetch (p : fetch_point) (o : outcome response) (s s1 s' : state) :
    ends (resume_fetch p o s1) s' -> ends (Some (AwaitFetch p), s) s'
| ends_after_json (p : json_point) (o : outcome (option body)) (s s1 s' : state) :
    ends (resume_json marked p o s1) s' -> ends (Some (AwaitJson p), s) s'.

(** [awaits_at_most n c]: whatever the promises settle with and whatever
    runs in between, the call that handed back [c] stops at no more than
    [n] further [await]s. *)
Fixpoint awaits_at_most (n : nat) (c : option suspended * state) : Prop :=
  match fst c with
  | None => True
  | Some p =>
    match n with
    | O => False
    | S n' =>
      match p with
      | AwaitFetch p => forall o s1, awaits_at_most n' (resume_fetch p o s1)
      | AwaitJson p => forall o s1, awaits_at_most n' (resume_json marked p o s1)
      end
    end
  end.

End Calls.

(** ** Properties that tasks keep *)

(** [f] keeps [P]: when [P] holds before [f] it holds after. *)
Definition keeps (P : state -> Prop) (f : action) : Prop :=
  forall s, P s -> P (f s).

Definition keeps_async (P : state -> Prop) (a : async) : Prop :=
  forall s, P s -> P (snd (a s)).


(** ** Live sockets *)

(** A socket that is connecting or open. *)
Definition live (c : connection) : bool :=
  match ready c with
  | CONNECTING | OPEN => true
  | CLOSING | CLOSED => false
  end.

(** No socket is live but the one in [websocket]; so no two are. *)
Definition one_live_socket (s : state) : Prop :=
  forall k c, nth_error (connections s) k = Some c -> live c = true ->
              websocket s = Some k.

Definition no_live_socket (s : state) : Prop :=
  forall k c, nth_error (connections s) k = Some c -> live c = false.

(** ** Numeric fields *)

(** A field of a plan that is numeric: a string of one decimal digit or
    more; and the natural number it writes. *)
Definition numeric (s : string) : bool :=
  match codes s with
  | [] => false
  | l => forallb Num.is_digit l
  end.

Definition numeric_value (s : string) : Z := Num.digits_value (codes s).

(** ** Rounding *)

(** Where a quotient lies between two neighbours: [located l r n] reads
    the location [l] for a remainder [r] of a division by [n]. *)
Definition located (l : location) (r Dn : Z) : Prop :=
  match l with
  | loc_Exact => r = 0
  | loc_Inexact Lt => 0 < 2 * r < Dn
  | loc_Inexact Eq => 2 * r = Dn
  | loc_Inexact Gt => Dn < 2 * r
  end.

(** ** Sample data *)

(** How [marked] shows plain text: a paragraph, whose text ends in a line
    feed, with no element of class [message-content] inside.  The text
    of a message that is not the user's is never read and is left out. *)
Definition plain_text (m : message) : rendering :=
  {| textContent := match m with
                    | UserMessage content => content ++ String (ascii_of_nat 10) ""
                    | _ => ""
                    end;
     message_contents := [];
     user_message_contents := [] |}.

Definition status_body (q : string) : body :=
  {| query_id := VUndefined; detail := VUndefined; query := VStr q;
     final_answer := VUndefined; body_memory := None |}.

Definition query_body (id : value) : body :=
  {| query_id := id; detail := VUndefined; query := VUndefined;
     final_answer := VUndefined; body_memory := None |}.

Definition empty_memory : memory :=
  {| query_count := VNum (S754_zero false); current_locations := [];
     current_pois := []; current_plans := [] |}.

Definition memory_body (m : memory) : body :=
  {| query_id := VUndefined; detail := VUndefined; query := VUndefined;
     final_answer := VUndefined; body_memory := Some m |}.

Definition http (code : Z) : outcome response := Fulfilled {| status := code |}.

(** A session with the query [id] active and [text] the last thing the
    user sent. *)
Definition asking (text : string) (id : value) : state :=
  {| activeQueryId := id; websocket := Some 0%nat; serverLimitedMode := false;
     connections := [{| queryId := id; ready := OPEN; onclose := true;
                        close_calls := 0; connectionTimeout := Cleared |}];
     suspensions := []; requests := []; console := [];
     page := {| messageInput := ""; chatContainer := [UserMessage text];
                processingHidden := false;
                processingText := "正在处理您的问题...";
                statusPanel := StatusInitial; memoryPanel := PanelInitial;
                resetMemoryBtn_disabled := false; viewMemoryBtn_disabled := false;
                memoryContent := None; memoryModal_shown := false;
                listeners := true |} |}.

(** Start-up with a healthy backend, then a query whose socket fails to
    connect, then a second query sent before the first socket's timer
    has run out. *)
Definition second_query_before_timeout : list event :=
  [DOMContentLoaded; FetchSettled 0 (http 200); FetchSettled 0 (http 200);
   JsonSettled 0 (Fulfilled (Some (memory_body empty_memory)));
   Input "深圳到珠海怎么走"; ClickSend;
   FetchSettled 0 (http 200); JsonSettled 0 (Fulfilled (Some (query_body (VStr "q1"))));
   Failed 0;
   Input "杭州景点"; ClickSend].

(** Messages of the backend on the socket. *)
Definition error_for (id : string) (text : string) : wsdata :=
  {| ws_error := VStr text; ws_query_id := VStr id;
     ws_status := VUndefined; ws_result := VUndefined |}.

Definition progress (id : string) (st : string) (result : value) : wsdata :=
  {| ws_error := VUndefined; ws_query_id := VStr id;
     ws_status := VStr st; ws_result := result |}.

(** Start-up with a healthy backend, then a query that the backend
    acknowledges with an empty [query_id], then a second text typed in. *)
Definition empty_id_acknowledged : list event :=
  [DOMContentLoaded; FetchSettled 0 (http 200); FetchSettled 0 (http 200);
   JsonSettled 0 (Fulfilled (Some (memory_body empty_memory)));
   Input "深圳到珠海怎么走"; ClickSend;
   FetchSettled 0 (http 200); JsonSettled 0 (Fulfilled (Some (query_body (VStr ""))));
   Input "杭州景点"].

(** A page whose start-up waits for the answer of GET /memory. *)
Definition starting_up : state :=
  Eval vm_compute in
    run plain_text [DOMContentLoaded; FetchSettled 0 (http 200)] (initial blank_page).

(** A page with one socket that is still connecting. *)
Definition connecting : state :=
  Eval vm_compute in
    run plain_text
      [DOMContentLoaded; FetchSettled 0 (http 200); FetchSettled 0 (http 200);
       JsonSettled 0 (Fulfilled (Some (memory_body empty_memory)));
       Input "深圳到珠海怎么走"; ClickSend;
       FetchSettled 0 (http 200); JsonSettled 0 (Fulfilled (Some (query_body (VStr "q1"))))]
      (initial blank_page).

(** The page after [empty_id_acknowledged]. *)
Definition acknowledged_empty : state :=
  Eval vm_compute in run plain_text empty_id_acknowledged (initial blank_page).

(** The page after [second_query_before_timeout]. *)
Definition replaced : state :=
  Eval vm_compute in run plain_text second_query_before_timeout (initial blank_page).

(** A memory with no query counted and yet a location, a point of
    interest and a plan. *)
Definition uncounted_memory : memory :=
  {| query_count := VNum (S754_zero false);
     current_locations := [("深圳", {| address := VStr "广东省深圳市" |})];
     current_pois := [{| poi_name := VStr "西湖"; poi_address := VStr "杭州市" |}];
     current_plans := [("深圳-珠海", {| distance := "12345"; duration := "905" |})] |}.

(** The round trip of the specification: the query is sent and
    acknowledged, the socket opens and reports [completed] with a result,
    the status check answers with the text that was sent, the result
    arrives, and the memory is read again. *)
Definition answer_body (text : string) : body :=
  {| query_id := VUndefined; detail := VUndefined; query := VUndefined;
     final_answer := VStr text; body_memory := None |}.

Definition round_trip : list event :=
  [DOMContentLoaded; FetchSettled 0 (http 200); FetchSettled 0 (http 200);
   JsonSettled 0 (Fulfilled (Some (memory_body empty_memory)));
   Input "深圳到珠海怎么走"; Keydown true false;
   FetchSettled 0 (http 200); JsonSettled 0 (Fulfilled (Some (query_body (VStr "q1"))));
   Opened 0;
   Received 0 (Parsed (progress "q1" "processing" VUndefined));
   Received 0 (Parsed (progress "q1" "completed" VObject));
   FetchSettled 0 (http 200);
   JsonSettled 0 (Fulfilled (Some (status_body "深圳到珠海怎么走")));
   FetchSettled 0 (http 200);
   JsonSettled 0 (Fulfilled (Some (answer_body "乘船约70分钟")));
   FetchSettled 0 (http 200);
   JsonSettled 0 (Fulfilled (Some (memory_body uncounted_memory)))].

(** A first query whose socket fails to connect, then a second query
    that is answered over a socket of its own, which opens and is closed
    by the backend; then the timer of the first socket runs out. *)
Definition timer_of_first_query_runs_out : list event :=
  [DOMContentLoaded; FetchSettled 0 (http 200); FetchSettled 0 (http 200);
   JsonSettled 0 (Fulfilled (Some (memory_body empty_memory)));
   Input "深圳到珠海怎么走"; ClickSend;
   FetchSettled 0 (http 200); JsonSettled 0 (Fulfilled (Some (query_body (VStr "q1"))));
   Failed 0;
   Input "杭州景点"; ClickSend;
   FetchSettled 0 (http 200); JsonSettled 0 (Fulfilled (Some (query_body (VStr "q2"))));
   Opened 1;
   Received 1 (Parsed (progress "q2" "completed" VObject));
   FetchSettled 0 (http 200); JsonSettled 0 (Fulfilled (Some (status_body "杭州景点")));
   FetchSettled 0 (http 200); JsonSettled 0 (Fulfilled (Some (answer_body "西湖、灵隐寺")));
   Closed 1;
   TimedOut 0].

(** ** The query in flight *)

(** What belongs to the query in flight: the two variables and the
    sockets. *)
Definition same_query (s s' : state) : Prop :=
  activeQueryId s' = activeQueryId s
  /\ websocket s' = websocket s
  /\ connections s' = connections s.

(** [websocket] holds a socket the script made, and a truthy active query
    id is the id that socket was opened for; or it is an id for which
    the constructor threw, and [websocket] is [null]. *)
Definition socket_of_active_query (s : state) : Prop :=
  (forall k, websocket s = Some k -> (k < List.length (connections s))%nat)
  /\ (truthy (activeQueryId s) = true ->
      (exists k c, websocket s = Some k
                   /\ nth_error (connections s) k = Some c
                   /\ queryId c = activeQueryId s)
      \/ (websocket s = None /\ has_fragment (activeQueryId s) = true)).

(** ** The transcript and the limited mode *)

(** [l'] is [l] with more at its end. *)
Definition extends {A : Type} (l l' : list A) : Prop :=
  exists t, l' = (l ++ t)%list.

(** The flag [serverLimitedMode] and what the page shows of it. *)
Definition limited_mode_shown (s : state) : Prop :=
  if serverLimitedMode s
  then resetMemoryBtn_disabled (page s) = true
       /\ viewMemoryBtn_disabled (page s) = true
       /\ (exists m, statusPanel (page s) = StatusWarning m)
       /\ (exists m, In (SystemWarning m) (chatContainer (page s)))
  else resetMemoryBtn_disabled (page s) = false
       /\ viewMemoryBtn_disabled (page s) = false.

(** ** Fields that are no numbers *)

(** After its leading white space the string is over, or goes on with a
    byte that starts no number: no digit, sign or point, and no [I]. *)
Definition starts_no_number (s : string) : bool :=
  match dropStart (codes s) with
  | [] => true
  | c :: _ =>
    negb (Num.is_digit c || (c =? 43)%nat || (c =? 45)%nat || (c =? 46)%nat
          || (c =? 73)%nat)
  end.

(** ** More sample data *)

(** A socket that is open, for the query [id]. *)
Definition open_socket (id : value) : connection :=
  {| queryId := id; ready := OPEN; onclose := true; close_calls := 0;
     connectionTimeout := Cleared |}.

(** A page that has started up, with a text typed in. *)
Definition typed (text : string) : state :=
  Eval vm_compute in
    run plain_text
      [DOMContentLoaded; FetchSettled 0 (http 200); FetchSettled 0 (http 200);
       JsonSettled 0 (Fulfilled (Some (memory_body empty_memory))); Input text]
      (initial blank_page).

(** A memory with five points of interest. *)
Definition five_pois : memory :=
  {| query_count := VNum (Num.of_Z 4);
     current_locations := [("深圳", {| address := VStr "广东省深圳市" |})];
     current_pois :=
       [{| poi_name := VStr "西湖"; poi_address := VStr "杭州市" |};
        {| poi_name := VStr "灵隐寺"; poi_address := VStr "杭州市" |};
        {| poi_name := VStr "雷峰塔"; poi_address := VStr "杭州市" |};
        {| poi_name := VStr "断桥"; poi_address := VStr "杭州市" |};
        {| poi_name := VStr "宋城"; poi_address := VStr "杭州市" |}];
     current_plans := [] |}.

(** A body with a [detail], as the backend sends with an error. *)
Definition detail_body (text : value) : body :=
  {| query_id := VUndefined; detail := text; query := VUndefined;
     final_answer := VUndefined; body_memory := None |}.

(** The page after [second_query_before_timeout] once the second query
    is acknowledged: the socket of the first query is closed with its
    timer still pending, the socket of the second is connecting. *)
Definition second_socket_connecting : state :=
  Eval vm_compute in
    run plain_text
      [FetchSettled 0 (http 200); JsonSettled 0 (Fulfilled (Some (query_body (VStr "q2"))))]
      replaced.

(** Start-up, a query, its acknowledgement, and the socket opening. *)
Definition query_opened : list event :=
  [DOMContentLoaded; FetchSettled 0 (http 200); FetchSettled 0 (http 200);
   JsonSettled 0 (Fulfilled (Some (memory_body empty_memory)));
   Input "深圳到珠海怎么走"; ClickSend;
   FetchSettled 0 (http 200); JsonSettled 0 (Fulfilled (Some (query_body (VStr "q1"))));
   Opened 0].

(** A start-up whose [/memory] request answers 503. *)
Definition memory_not_ready : list event :=
  [DOMContentLoaded; FetchSettled 0 (http 200); FetchSettled 0 (http 503)].

(** ** Texts that are not plain *)

(** The markup of a user message, as a backend can send it in a text. *)
Definition user_markup : string :=
  "<div class='user-message'><div class='message-content'>x</div></div>".

(** How [marked] shows two texts that are not plain, and plain text as
    [plain_text] does.  A line of three dashes is a rule, an [hr], and
    the content div holds no text but a line feed.  HTML is let through:
    in the error that [resetMemory] shows for a [detail] that is
    [user_markup], the inner div of the markup is an element of class
    [message-content] under one of class [user-message], with the text
    [x]. *)
Definition marked_sample (m : message) : rendering :=
  match m with
  | UserMessage content =>
    if String.eqb content "---"
    then {| textContent := String (ascii_of_nat 10) "";
            message_contents := []; user_message_contents := [] |}
    else plain_text m
  | SystemError (ErrResetFailed (VStr d)) =>
    if String.eqb d user_markup
    then {| textContent := ""; message_contents := ["x"];
            user_message_contents := ["x"] |}
    else plain_text m
  | _ => plain_text m
  end.


(** A page on which a query has been asked and acknowledged, and then a
    reset of the memory has failed with [user_markup] as the [detail]. *)
Definition asked_then_reset_failed : state :=
  Eval vm_compute in
    run marked_sample
      [DOMContentLoaded; FetchSettled 0 (http 200); FetchSettled 0 (http 200);
       JsonSettled 0 (Fulfilled (Some (memory_body empty_memory)));
       Input "深圳到珠海怎么走"; ClickSend;
       FetchSettled 0 (http 200); JsonSettled 0 (Fulfilled (Some (query_body (VStr "q1"))));
       Opened 0;
       ClickReset true; FetchSettled 0 (http 500);
       JsonSettled 0 (Fulfilled (Some (detail_body (VStr user_markup))))]
      (initial blank_page).

(** Start-up, a query that the backend acknowledges with an id that
    holds a [#], then a second text typed in. *)
Definition fragment_acknowledged : list event :=
  [DOMContentLoaded; FetchSettled 0 (http 200); FetchSettled 0 (http 200);
   JsonSettled 0 (Fulfilled (Some (memory_body empty_memory)));
   Input "深圳到珠海怎么走"; ClickSend;
   FetchSettled 0 (http 200); JsonSettled 0 (Fulfilled (Some (query_body (VStr "q#1"))));
   Input "杭州景点"].

(** Two texts sent one after the other, both acknowledged, the second
    first. *)
Definition two_queries : list event :=
  [DOMContentLoaded; FetchSettled 0 (http 200); FetchSettled 0 (http 200);
   JsonSettled 0 (Fulfilled (Some (memory_body empty_memory)));
   Input "深圳到珠海怎么走"; ClickSend;
   Input "杭州景点"; ClickSend;
   FetchSettled 0 (http 200); FetchSettled 0 (http 200);
   JsonSettled 1 (Fulfilled (Some (query_body (VStr "q2"))));
   JsonSettled 0 (Fulfilled (Some (query_body (VStr "q1"))))].

(** A memory with one plan whose duration is written with an exponent:
    1000 seconds. *)
Definition exponent_memory : memory :=
  {| query_count := VNum (Num.of_Z 1); current_locations := [];
     current_pois := [];
     current_plans := [("深圳-珠海", {| distance := "12345"; duration := "1e3" |})] |}.

(** A memory with the plan of the specification. *)
Definition plan_memory : memory :=
  {| query_count := VNum (Num.of_Z 1); current_locations := [];
     current_pois := [];
     current_plans := [("深圳-珠海", {| distance := "12345"; duration := "905" |})] |}.

(** * Properties *)

(** ** Strings *)

(** A string of white space only trims to the empty string. *)
Lemma trim_white_space (s : string) : dropStart (codes s) = [] -> trim s = "".
Proof. unfold trim. intros ->. reflexivity. Qed.

(** Space, tab, U+3000 and line feed. *)
Example trim_white_space_sample : trim (of_codes [32; 9; 227; 128; 128; 10]%nat) = "".
Proof. apply trim_white_space. vm_compute. reflexivity. Qed.

Example trim_sample :
  trim (of_codes [32; 227; 128; 128]%nat ++ "杭州 景点" ++ of_codes [10]%nat) = "杭州 景点".
Proof. vm_compute. reflexivity. Qed.

Section Properties.

Variable marked : message -> rendering.

(** ** The message handler (lines 165 to 192) *)

(** C1, as amended.  A message that carries no truthy [error] and whose
    [query_id] is not [===] the active query id is dropped: the handler
    writes one line to the console and leaves every variable, every
    socket, every suspended call, the requests sent and the whole page as
    they were; text that does not parse is dropped without the line.  A
    message that carries a truthy [error] is handled at lines 168 to
    173, before its [query_id] is looked at: whatever its [query_id] and
    whatever the active query id, the error is put in the transcript,
    the processing indicator gets the class that hides it and the active
    query id is set to [null]. *)
Theorem onmessage_discards_other_query (q : value) (data : wsdata) (s : state) :
  truthy (ws_error data) = false ->
  strict_eq (ws_query_id data) (activeQueryId s) = false ->
  ws_onmessage q (Parsed data) s = console_log "收到非当前查询的WebSocket消息" s
  /\ activeQueryId (ws_onmessage q (Parsed data) s) = activeQueryId s
  /\ page (ws_onmessage q (Parsed data) s) = page s
  /\ requests (ws_onmessage q (Parsed data) s) = requests s
  /\ suspensions (ws_onmessage q (Parsed data) s) = suspensions s
  /\ ws_onmessage q Unparsable s = s
  /\ (forall (e : wsdata) (s0 : state),
        truthy (ws_error e) = true ->
        let s' := ws_onmessage q (Parsed e) s0 in
        s' = (showError (ErrFromChannel (ws_error e)) ;;
              showProcessingStatus false ;;
              set_activeQueryId VNull) s0
        /\ chatContainer (page s')
           = (chatContainer (page s0) ++ [SystemError (ErrFromChannel (ws_error e))])%list
        /\ processingHidden (page s') = true
        /\ activeQueryId s' = VNull
        /\ requests s' = requests s0
        /\ suspensions s' = suspensions s0).
Proof.
  intros Herr Hid.
  assert (E : ws_onmessage q (Parsed data) s
              = console_log "收到非当前查询的WebSocket消息" s).
  { unfold ws_onmessage. rewrite Herr, Hid. reflexivity. }
  rewrite E. repeat split; try reflexivity.
  all: unfold ws_onmessage; rewrite H; reflexivity.
Qed.

(** C6, as amended.  A message with no truthy [error] whose [query_id] is
    the active one and whose [status] is ["completed"] starts
    [fetchQueryResult] for the query the socket was opened for when it
    also carries a truthy [result]: the status request leaves and the
    call is left suspended at its first [await].  With the [status]
    ["failed"], any message with the active [query_id] puts one error in
    the transcript, hides the processing indicator and sets the active
    query id to [null]. *)
Theorem onmessage_completed_and_failed (q : value) (data : wsdata) (s : state) :
  strict_eq (ws_query_id data) (activeQueryId s) = true ->
  (truthy (ws_error data) = false ->
   ws_status data = VStr "completed" ->
   truthy (ws_result data) = true ->
   let s' := ws_onmessage q (Parsed data) s in
   requests s' = (requests s ++ [GET (QueryStatus q)])%list
   /\ suspensions s' = (suspensions s ++ [AwaitFetch (Result_status q)])%list
   /\ chatContainer (page s') = chatContainer (page s)
   /\ activeQueryId s' = activeQueryId s)
  /\ (ws_status data = VStr "failed" ->
      let s' := ws_onmessage q (Parsed data) s in
      (exists m, chatContainer (page s') = (chatContainer (page s) ++ [SystemError m])%list)
      /\ processingHidden (page s') = true
      /\ activeQueryId s' = VNull
      /\ requests s' = requests s).
Proof.
  intros Hid. split.
  - intros Herr Hst Hres. unfold ws_onmessage.
    rewrite Herr, Hid, Hst, Hres. cbn. repeat split; reflexivity.
  - intros Hst. unfold ws_onmessage.
    destruct (truthy (ws_error data)) eqn:Herr.
    + cbn. repeat split. eexists. reflexivity.
    + rewrite Hid, Hst. cbn. repeat split. eexists. reflexivity.
Qed.

(** ** [updateMemoryPanel] (lines 376 to 458) *)

(** C8.  For a memory whose [query_count] is [=== 0] the panel is the
    empty-state paragraph, whatever the locations, the points of
    interest and the plans are: no group is built. *)
Theorem updateMemoryPanel_empty (m : memory) (s : state) :
  strict_eq (query_count m) (VNum (S754_zero false)) = true ->
  memory_view m = PanelEmpty
  /\ updateMemoryPanel (Some m) s = (false, set_memoryPanel PanelEmpty s)
  /\ memoryPanel (page (snd (updateMemoryPanel (Some m) s))) = PanelEmpty.
Proof.
  intros H. unfold updateMemoryPanel, memory_view. rewrite H.
  repeat split; reflexivity.
Qed.

(** ** [getLastUserMessage] (lines 256 to 264) *)

Lemma selected_nothing (l : list message) :
  (forall m, In m l -> selected marked m = []) -> flat_map (selected marked) l = [].
Proof.
  induction l as [| a l IH]; intros H; [reflexivity |].
  cbn [flat_map]. rewrite (H a) by now left. apply IH.
  intros m Hm. apply H. now right.
Qed.

Lemma getLastUserMessage_last_selected (l : list string) (t : string) (s : state) :
  userMessages marked s = (l ++ [t])%list ->
  getLastUserMessage marked s = VStr (trim t).
Proof.
  intros E. unfold getLastUserMessage. now rewrite E, rev_app_distr.
Qed.


(** The last user message of the transcript is the one read when its
    content brings no element of class [message-content] and no message
    after it brings the markup of a user message. *)
Lemma userMessages_last_user (before after : list message) (content : string) (s : state) :
  chatContainer (page s) = (before ++ UserMessage content :: after)%list ->
  message_contents (marked (UserMessage content)) = [] ->
  (forall x, In x after -> selected marked x = []) ->
  userMessages marked s
  = (flat_map (selected marked) before
     ++ [textContent (marked (UserMessage content))])%list.
Proof.
  intros E Hc Ha. unfold userMessages. rewrite E, flat_map_app.
  cbn [flat_map]. rewrite (selected_nothing after Ha), app_nil_r.
  unfold selected at 2. cbn [role_of]. now rewrite Hc.
Qed.

(** ** [fetchQueryResult] (lines 207 to 253) *)

(** C3, as amended.  The text line 216 compares with is the trimmed text
    of the last element that [.user-message .message-content] selects in
    the transcript.  When that text is not empty and the query of the
    status answer is not [===] it, [fetchQueryResult] ends there: it puts
    the mismatch error in the transcript, which is not the error of a
    failed request, sends no request for the result, adds no answer,
    hides the processing indicator and sets the active query id to
    [null].  When that text is empty the check is passed over and the
    result is requested.  In a transcript where the last user message
    brings no element of class [message-content] and no message after it
    brings the markup of a user message, the last element selected is
    the content div of that user message: the text compared is marked's
    rendering of what the user sent, not the text that was sent. *)
Theorem fetchQueryResult_mismatch (q : value) (statusData : body) (s : state) :
  let r := resume_json marked (Result_status_json q) (Fulfilled (Some statusData)) s in
  let mismatch := ErrText "查询与最后发送的消息不匹配，可能存在混淆。请重试您的问题。" in
  (forall l t,
     userMessages marked s = (l ++ [t])%list ->
     getLastUserMessage marked s = VStr (trim t)
     /\ (trim t <> "" ->
         strict_eq (query statusData) (VStr (trim t)) = false ->
         fst r = None
         /\ chatContainer (page (snd r))
            = (chatContainer (page s) ++ [SystemError mismatch])%list
         /\ (forall s0, chatContainer (page (fetchQueryResult_catch s0))
                        <> (chatContainer (page s0) ++ [SystemError mismatch])%list)
         /\ requests (snd r) = requests s
         /\ suspensions (snd r) = suspensions s
         /\ activeQueryId (snd r) = VNull
         /\ processingHidden (page (snd r)) = true)
     /\ (trim t = "" ->
         r = (Some (AwaitFetch Result_result), send (GET (QueryResult q)) s)))
  /\ (forall before after content,
        chatContainer (page s) = (before ++ UserMessage content :: after)%list ->
        message_contents (marked (UserMessage content)) = [] ->
        (forall x, In x after -> selected marked x = []) ->
        userMessages marked s
        = (flat_map (selected marked) before
           ++ [textContent (marked (UserMessage content))])%list).
Proof.
  cbv zeta. split.
  - intros l t U.
    assert (Hlast : getLastUserMessage marked s = VStr (trim t)).
    { now apply (getLastUserMessage_last_selected l). }
    split; [exact Hlast |]. split.
    + intros Hm Hneq.
      assert (T : truthy (VStr (trim t)) = true).
      { simpl. destruct (String.eqb_spec (trim t) ""); [contradiction | reflexivity]. }
      unfold resume_json. rewrite Hlast, T, Hneq. cbn.
      repeat split.
      intros s0 E0. apply app_inv_head in E0. discriminate E0.
    + intros Hm. unfold resume_json. rewrite Hlast, Hm. reflexivity.
  - intros before after content E Hc Ha.
    now apply (userMessages_last_user before after).
Qed.




(** One step of a run: open the call where it stands. *)
Ltac run_on :=
  match goal with
  | H : ends _ (None, _) _ |- _ => inversion H; subst; clear H
  | H : ends _ (Some _, _) _ |- _ => inversion H; subst; clear H
  | H : ends _ (resume_fetch _ ?o _) _ |- _ =>
    destruct o; cbv beta iota delta [resume_fetch finish await_json await_fetch] in H
  | H : ends _ (resume_json _ _ ?o _) _ |- _ =>
    destruct o as [[? |] |];
    cbv beta iota zeta delta [resume_json finish await_json await_fetch] in H
  | H : ends _ ((if ?b then _ else _) _) _ |- _ => destruct b
  | H : ends _ (if ?b then _ else _) _ |- _ => destruct b
  | H : ends _ (seq _ _ _) _ |- _ => unfold seq at 1 in H
  | H : ends _ ((match ?v with VStr _ => _ | _ => _ end) _) _ |- _ => destruct v
  | H : ends _ (match ?v with VStr _ => _ | _ => _ end) _ |- _ => destruct v
  end.

(** The last [await]s of [fetchQueryResult]: the result and its body. *)
Lemma result_awaits (o : outcome response) (s : state) :
  awaits_at_most marked 1 (resume_fetch Result_result o s).
Proof.
  destruct o as [r |]; cbn [resume_fetch]; [destruct (ok r) |]; cbn; trivial.
  - intros [[d |] |] s1; cbn; trivial.
    destruct (truthy (final_answer d)); [destruct (final_answer d) |]; cbn; trivial.
  - intros [[d |] |] s1; cbn; trivial.
Qed.

(** C4.  Every run of [fetchQueryResult] comes to its end, after four
    [await]s at most, and whichever way it goes (the answer is shown, the
    query does not match, a response is not ok, a promise rejects) and
    whatever ran while it waited, it leaves the active query id [null]
    and the processing indicator hidden. *)
Theorem fetchQueryResult_always_idle (q : value) (s s' : state) :
  ends marked (fetchQueryResult q s) s' ->
  awaits_at_most marked 4 (fetchQueryResult q s)
  /\ activeQueryId s' = VNull
  /\ processingHidden (page s') = true.
Proof.
  intros H. split.
  - pose proof result_awaits as R.
    cbn. intros [r |] s1; [destruct (ok r) eqn:Hok |]; cbn; rewrite ?Hok; cbn; trivial.
    intros [[d |] |] s2; cbn; trivial.
    + destruct (truthy (getLastUserMessage marked s2)
                && negb (strict_eq (query d) (getLastUserMessage marked s2)));
        cbn; trivial.
    + destruct (truthy (getLastUserMessage marked s2)); cbn; trivial.
  - unfold fetchQueryResult, await_fetch in H.
    repeat run_on; split; reflexivity.
Qed.

(** ** What every task of the event loop keeps *)

Create HintDb stable.

(** How [keeps] goes through the ways the script puts functions
    together. *)
Section Keeps.

Variable P : state -> Prop.

Lemma stable_skip : keeps P skip.
Proof. intros s H. exact H. Qed.

Lemma stable_seq (f g : action) : keeps P f -> keeps P g -> keeps P (f ;; g).
Proof. intros Hf Hg s H. apply Hg, Hf, H. Qed.

Lemma stable_then (f : action) (a : async) :
  keeps P f -> keeps_async P a -> keeps_async P (f ;; a).
Proof. intros Hf Ha s H. apply Ha, Hf, H. Qed.

Lemma stable_finish (f : action) : keeps P f -> keeps_async P (finish f).
Proof. intros Hf s H. apply Hf, H. Qed.

Lemma stable_if (b : bool) (f g : action) : keeps P f -> keeps P g -> keeps P (if b then f else g).
Proof. now destruct b. Qed.

Lemma stable_async_if (b : bool) (f g : async) :
  keeps_async P f -> keeps_async P g -> keeps_async P (if b then f else g).
Proof. now destruct b. Qed.

End Keeps.

#[local] Hint Resolve stable_skip stable_seq stable_then stable_finish
  stable_if stable_async_if : stable.

(** Read a goal about one state as a goal about the function. *)
Ltac as_stable P :=
  match goal with
  | |- forall s, P s -> P (snd (?a s)) => change (keeps_async P a)
  | |- forall s, P s -> P (?f s) => change (keeps P f)
  end.

(** A property that every assignment to the variables and to the sockets
    keeps is kept by the three functions that manage the socket. *)
Section Assignments.

Variable P : state -> Prop.

Hypothesis P_activeQueryId : forall v, keeps P (set_activeQueryId v).
Hypothesis P_websocket : forall w, keeps P (set_websocket w).
Hypothesis P_console : forall l, keeps P (set_console l).
Hypothesis P_page : forall d, keeps P (set_page d).
Hypothesis P_close : forall k, keeps P (update_connection k close).
Hypothesis P_onclose : forall k b, keeps P (update_connection k (set_onclose b)).
Hypothesis P_new : forall q s, P s -> P (snd (new_WebSocket q s)).

Lemma assigned_console_log (m : string) : keeps P (console_log m).
Proof. intros s H. apply P_console, H. Qed.

Lemma assigned_showError (m : error_message) : keeps P (showError m).
Proof. intros s H. apply P_page, H. Qed.

Lemma assigned_showProcessingStatus (b : bool) : keeps P (showProcessingStatus b).
Proof. intros s H. apply P_page, H. Qed.

#[local] Hint Resolve assigned_console_log assigned_showError
  assigned_showProcessingStatus P_activeQueryId P_websocket P_close P_onclose
  P_new : stable.

Lemma assigned_closeWebSocketConnection : keeps P closeWebSocketConnection.
Proof.
  intros s H. unfold closeWebSocketConnection.
  set (s1 := match websocket s with Some _ => _ | None => _ end).
  assert (H1 : P s1).
  { subst s1. destruct (websocket s); [| exact H].
    revert s H. fold (keeps P (console_log "关闭现有WebSocket连接" ;;
      update_connection n (set_onclose false) ;; update_connection n close ;;
      set_websocket None)).
    auto 10 with stable. }
  destruct (truthy (activeQueryId s1)); [| exact H1].
  revert H1. generalize s1. fold (keeps P (console_log "重置活动查询ID:" ;; set_activeQueryId VNull)).
  auto with stable.
Qed.

Lemma assigned_connectWebSocket (q : value) (s : state) :
  P s -> P (snd (connectWebSocket q s)).
Proof.
  intros H. unfold connectWebSocket, seq. apply P_new.
  apply assigned_console_log, P_activeQueryId, assigned_console_log.
  now apply assigned_closeWebSocketConnection.
Qed.

Lemma assigned_connectionTimeout_callback : keeps P connectionTimeout_callback.
Proof.
  intros s H. unfold connectionTimeout_callback.
  destruct (websocket s); [| exact H].
  assert (G : keeps P (console_log "WebSocket连接超时" ;;
     update_connection n close ;; set_websocket None ;;
     showError (ErrText "WebSocket连接超时，请刷新页面重试") ;;
     showProcessingStatus false ;; set_activeQueryId VNull))
    by auto 10 with stable.
  destruct (ready_of s n) as [[] |]; try exact H; apply G, H.
Qed.

End Assignments.

(** A property kept by the assignments that are not about sockets, and by
    what the script and the browser do with sockets, is kept by every
    function of the script and by every task. *)
Section Stable.

Variable P : state -> Prop.

Hypothesis P_activeQueryId : forall v, keeps P (set_activeQueryId v).
Hypothesis P_limited : keeps P (set_serverLimitedMode true).
Hypothesis P_suspensions : forall l, keeps P (set_suspensions l).
Hypothesis P_requests : forall l, keeps P (set_requests l).
Hypothesis P_console : forall l, keeps P (set_console l).
Hypothesis P_page : forall d, keeps P (set_page d).
Hypothesis stable_closeWebSocketConnection : keeps P closeWebSocketConnection.
Hypothesis stable_connectWebSocket : forall q s, P s -> P (snd (connectWebSocket q s)).
Hypothesis stable_connectionTimeout_callback : keeps P connectionTimeout_callback.
Hypothesis P_clearTimeout : forall k, keeps P (update_connection k clearTimeout).
Hypothesis P_opened :
  forall k s, ready_of s k = Some CONNECTING -> P s ->
              P (update_connection k (set_ready OPEN) s).
Hypothesis P_closed : forall k, keeps P (update_connection k (set_ready CLOSED)).
Hypothesis P_fired : forall k, keeps P (update_connection k (set_timer Fired)).

Lemma stable_call (a : async) : keeps_async P a -> keeps P (call a).
Proof.
  intros Ha s H. unfold call. specialize (Ha s H).
  destruct (a s) as [[p |] s1]; cbn in Ha; [apply P_suspensions |]; exact Ha.
Qed.

Lemma stable_console_log (m : string) : keeps P (console_log m).
Proof. intros s H. apply P_console, H. Qed.

Lemma stable_send (r : request) : keeps P (send r).
Proof. intros s H. apply P_requests, H. Qed.

Lemma stable_addMessage (m : message) : keeps P (addMessage m).
Proof. intros s H. apply P_page, H. Qed.

Lemma stable_showError (m : error_message) : keeps P (showError m).
Proof. apply stable_addMessage. Qed.

Lemma stable_showProcessingStatus (b : bool) : keeps P (showProcessingStatus b).
Proof. intros s H. apply P_page, H. Qed.

Lemma stable_updateProcessingText (v : value) : keeps P (updateProcessingText v).
Proof. intros s H. apply P_page, H. Qed.

Lemma stable_set_messageInput (v : string) : keeps P (set_messageInput v).
Proof. intros s H. apply P_page, H. Qed.

Lemma stable_set_memoryPanel (p : memory_panel) : keeps P (set_memoryPanel p).
Proof. intros s H. apply P_page, H. Qed.

Lemma stable_show_memoryModal (c : option memory) : keeps P (show_memoryModal c).
Proof. intros s H. apply P_page, H. Qed.

Lemma stable_addEventListeners : keeps P addEventListeners.
Proof. intros s H. apply P_page, H. Qed.

Lemma stable_await_fetch (r : request) (p : fetch_point) : keeps_async P (await_fetch r p).
Proof. intros s H. apply P_requests, H. Qed.

Lemma stable_await_json (p : json_point) : keeps_async P (await_json p).
Proof. intros s H. exact H. Qed.

#[local] Hint Resolve stable_call stable_console_log stable_send stable_addMessage
  stable_showError stable_showProcessingStatus stable_updateProcessingText
  stable_set_messageInput stable_set_memoryPanel stable_show_memoryModal
  stable_addEventListeners stable_await_fetch stable_await_json
  P_activeQueryId P_limited P_clearTimeout P_closed P_fired
  stable_closeWebSocketConnection stable_connectWebSocket
  stable_connectionTimeout_callback : stable.

Lemma stable_handleLimitedMode (m : string) : keeps P (handleLimitedMode m).
Proof.
  unfold handleLimitedMode. repeat apply stable_seq; auto with stable.
  all: intros s H; apply P_page, H.
Qed.

Lemma stable_updateMemoryPanel (m : option memory) (s : state) :
  P s -> P (snd (updateMemoryPanel m s)).
Proof. intros H. destruct m; cbn; apply P_page, H. Qed.

Lemma stable_ws_onopen (k : nat) : keeps P (ws_onopen k).
Proof. unfold ws_onopen. auto with stable. Qed.

Lemma stable_ws_onerror : keeps P ws_onerror.
Proof. unfold ws_onerror. auto 10 with stable. Qed.

Lemma stable_ws_onclose : keeps P ws_onclose.
Proof. unfold ws_onclose. auto with stable. Qed.

Lemma stable_fetchQueryResult (q : value) : keeps_async P (fetchQueryResult q).
Proof. unfold fetchQueryResult. auto with stable. Qed.

Lemma stable_fetchMemory : keeps_async P fetchMemory.
Proof. unfold fetchMemory. auto with stable. Qed.

Lemma stable_ws_onmessage (q : value) (d : payload) : keeps P (ws_onmessage q d).
Proof.
  pose proof (stable_fetchQueryResult q).
  destruct d as [| data]; cbn [ws_onmessage]; [auto with stable |].
  destruct (truthy (ws_error data)); [auto 10 with stable |].
  intros s Hs. destruct (negb (strict_eq (ws_query_id data) (activeQueryId s))).
  - now apply stable_console_log.
  - revert s Hs. apply stable_seq; [auto with stable |].
    destruct (strict_eq (ws_status data) (VStr "completed") && truthy (ws_result data));
      [auto with stable |].
    destruct (strict_eq (ws_status data) (VStr "failed")); auto 10 with stable.
Qed.

Lemma stable_sendMessage : keeps_async P sendMessage.
Proof.
  intros s H. unfold sendMessage.
  destruct (negb (truthy (VStr (trim (messageInput (page s))))) || truthy (activeQueryId s));
    [exact H |].
  generalize (trim (messageInput (page s))). intros query. revert s H. as_stable P.
  apply stable_then; [apply stable_closeWebSocketConnection |].
  auto 10 with stable.
Qed.

Lemma stable_resetMemory (c : bool) : keeps_async P (resetMemory c).
Proof. unfold resetMemory. destruct c; auto with stable. Qed.

Lemma stable_viewFullMemory : keeps_async P viewFullMemory.
Proof. unfold viewFullMemory. auto with stable. Qed.

Lemma stable_startup : keeps_async P startup.
Proof. unfold startup. auto with stable. Qed.

Lemma stable_catches :
  keeps P fetchQueryResult_catch /\ keeps P fetchQueryResult_finally
  /\ keeps P sendMessage_catch /\ keeps P startup_memory_catch
  /\ keeps P resetMemory_catch /\ keeps P viewFullMemory_catch
  /\ keeps P fetchMemory_catch.
Proof.
  pose proof stable_handleLimitedMode.
  unfold fetchQueryResult_catch, fetchQueryResult_finally, sendMessage_catch,
    startup_memory_catch, resetMemory_catch, viewFullMemory_catch, fetchMemory_catch.
  repeat split; auto 10 with stable.
Qed.

Lemma stable_resume_fetch (p : fetch_point) (o : outcome response) :
  keeps_async P (resume_fetch p o).
Proof.
  destruct stable_catches as (? & ? & ? & ? & ? & ? & ?).
  pose proof stable_handleLimitedMode.
  destruct p, o as [r |]; cbn [resume_fetch];
    repeat match goal with
           | |- keeps_async P (if ?b then _ else _) => destruct b
           end;
    auto 10 with stable.
Qed.

Lemma stable_resume_json (p : json_point) (o : outcome (option body)) :
  keeps_async P (resume_json marked p o).
Proof.
  destruct stable_catches as (? & ? & ? & ? & ? & ? & ?).
  pose proof stable_handleLimitedMode.
  pose proof stable_fetchMemory.
  destruct p, o as [[d |] |]; cbn [resume_json];
    repeat match goal with
           | |- keeps_async P (if ?b then _ else _) => destruct b
           | |- keeps_async P (match ?v with VStr _ => _ | _ => _ end) => destruct v
           end;
    auto 10 with stable.
  - intros s Hs. pose proof (stable_updateMemoryPanel (body_memory d) s Hs) as G.
    destruct (updateMemoryPanel (body_memory d) s) as [[] s1]; cbn [snd] in G;
      revert s1 G; as_stable P; auto with stable.
  - intros s Hs. unfold seq.
    pose proof (stable_connectWebSocket (activeQueryId (set_activeQueryId (query_id d) s))
                  _ (P_activeQueryId (query_id d) s Hs)) as G.
    destruct (connectWebSocket (activeQueryId (set_activeQueryId (query_id d) s))
                (set_activeQueryId (query_id d) s)) as [[] s1]; cbn [snd] in G |- *;
      [now apply H1 | exact G].
  - intros s Hs. cbv zeta.
    destruct (truthy (getLastUserMessage marked s)
              && negb (strict_eq (query d) (getLastUserMessage marked s)));
      revert s Hs; as_stable P; auto 10 with stable.
  - intros s Hs.
    destruct (truthy (getLastUserMessage marked s));
      revert s Hs; as_stable P; auto 10 with stable.
  - intros s Hs. pose proof (stable_updateMemoryPanel (body_memory d) s Hs) as G.
    destruct (updateMemoryPanel (body_memory d) s) as [[] s1]; cbn [snd] in G.
    + revert s1 G. as_stable P. auto with stable.
    + exact G.
Qed.

(** Every task keeps [P]. *)
Lemma stable_handle (e : event) : keeps P (handle marked e).
Proof.
  pose proof stable_startup. pose proof stable_sendMessage.
  pose proof stable_resetMemory. pose proof stable_viewFullMemory.
  pose proof stable_ws_onopen. pose proof stable_ws_onmessage.
  pose proof stable_ws_onerror. pose proof stable_ws_onclose.
  pose proof stable_connectionTimeout_callback.
  pose proof stable_resume_fetch. pose proof (stable_resume_json).
  intros s Hs. destruct e; cbn [handle].
  - now apply stable_call.
  - now apply stable_set_messageInput.
  - destruct (listeners (page s) && enter && negb shiftKey); [now apply stable_call | exact Hs].
  - destruct (listeners (page s)); [now apply stable_call | exact Hs].
  - destruct (listeners (page s)); [now apply stable_call | exact Hs].
  - destruct (listeners (page s)); [now apply stable_call | exact Hs].
  - destruct (ready_of s k) as [[] |] eqn:E; try exact Hs.
    unfold seq. apply stable_ws_onopen. now apply P_opened.
  - destruct (nth_error (connections s) k) as [c |]; [| exact Hs].
    destruct (ready c); try exact Hs. now apply stable_ws_onmessage.
  - destruct (nth_error (connections s) k) as [c |]; [| exact Hs].
    destruct (ready c); try exact Hs; revert s Hs;
      (apply stable_seq; [auto with stable |]); apply stable_seq; auto with stable.
  - destruct (nth_error (connections s) k) as [c |]; [| exact Hs].
    destruct (ready c); try exact Hs; revert s Hs;
      (apply stable_seq; [auto with stable |]); auto with stable.
  - destruct (nth_error (connections s) k) as [c |]; [| exact Hs].
    destruct (connectionTimeout c); try exact Hs. revert s Hs.
    apply stable_seq; auto with stable.
  - destruct (nth_error (suspensions s) i) as [[p | p] |]; try exact Hs.
    revert s Hs. apply stable_seq; [| now apply stable_call].
    intros s Hs. now apply P_suspensions.
  - destruct (nth_error (suspensions s) i) as [[p | p] |]; try exact Hs.
    revert s Hs. apply stable_seq; [| now apply stable_call].
    intros s Hs. now apply P_suspensions.
Qed.

Lemma stable_run (es : list event) : keeps P (run marked es).
Proof.
  induction es as [| e es IH]; intros s Hs; [exact Hs |].
  cbn [run fold_left]. apply IH. now apply stable_handle.
Qed.

End Stable.

(** So a property that every assignment keeps is kept by every task. *)
Lemma kept_by_assignments (P : state -> Prop) :
  (forall v, keeps P (set_activeQueryId v)) ->
  (forall w, keeps P (set_websocket w)) ->
  keeps P (set_serverLimitedMode true) ->
  (forall l, keeps P (set_suspensions l)) ->
  (forall l, keeps P (set_requests l)) ->
  (forall l, keeps P (set_console l)) ->
  (forall d, keeps P (set_page d)) ->
  (forall k, keeps P (update_connection k close)) ->
  (forall k b, keeps P (update_connection k (set_onclose b))) ->
  (forall k, keeps P (update_connection k clearTimeout)) ->
  (forall k r, keeps P (update_connection k (set_ready r))) ->
  (forall k, keeps P (update_connection k (set_timer Fired))) ->
  (forall q s, P s -> P (snd (new_WebSocket q s))) ->
  forall es, keeps P (run marked es).
Proof.
  intros H1 H2 H3 H4 H5 H6 H7 H8 H9 H10 H11 H12 H13 es.
  apply stable_run; trivial.
  - now apply assigned_closeWebSocketConnection.
  - intros q s. now apply assigned_connectWebSocket.
  - now apply assigned_connectionTimeout_callback.
  - intros k s _ H. apply H11, H.
Qed.

(** ** One socket at a time *)

Lemma nth_error_update_connection (j : nat) (f : connection -> connection) (s : state) (k : nat) :
  nth_error (connections (update_connection j f s)) k
  = if (k =? j)%nat then option_map f (nth_error (connections s) k)
    else nth_error (connections s) k.
Proof.
  unfold update_connection.
  destruct (nth_error (connections s) j) as [c |] eqn:E.
  - cbn [connections set_connections].
    assert (Hj : (j < List.length (connections s))%nat).
    { apply nth_error_Some. now rewrite E. }
    assert (Hl : List.length (firstn j (connections s)) = j).
    { rewrite length_firstn. lia. }
    destruct (Nat.eqb_spec k j) as [-> | Hkj].
    + rewrite nth_error_app2 by lia. rewrite Hl, Nat.sub_diag, E. reflexivity.
    + destruct (Nat.lt_ge_cases k j) as [Hlt | Hge].
      * rewrite nth_error_app1 by lia. rewrite nth_error_firstn.
        destruct (Nat.ltb_spec k j); [reflexivity | lia].
      * rewrite nth_error_app2 by lia. rewrite Hl.
        destruct (k - j)%nat as [| d] eqn:D; [lia |].
        cbn [nth_error]. rewrite nth_error_skipn. f_equal. lia.
  - destruct (Nat.eqb_spec k j) as [-> | Hkj]; [| reflexivity].
    now rewrite E.
Qed.

(** [update_connection] writes to [connections] only. *)
Lemma update_connection_frame (k : nat) (f : connection -> connection) (s : state) :
  update_connection k f s = set_connections (connections (update_connection k f s)) s.
Proof.
  unfold update_connection. destruct (nth_error (connections s) k); [reflexivity |].
  now destruct s.
Qed.

Lemma nth_error_updated (k : nat) (f : connection -> connection) (s : state) (c : connection) :
  nth_error (connections s) k = Some c ->
  nth_error (connections (update_connection k f s)) k = Some (f c).
Proof.
  intros H. now rewrite nth_error_update_connection, Nat.eqb_refl, H.
Qed.

Lemma websocket_update_connection (k : nat) (f : connection -> connection) (s : state) :
  websocket (update_connection k f s) = websocket s.
Proof. now rewrite update_connection_frame. Qed.

Lemma one_live_update (k : nat) (f : connection -> connection) (s : state) :
  (forall c, nth_error (connections s) k = Some c -> live (f c) = true -> live c = true) ->
  one_live_socket s -> one_live_socket (update_connection k f s).
Proof.
  intros Hf H j c Hj Hl. rewrite websocket_update_connection.
  rewrite nth_error_update_connection in Hj.
  destruct (Nat.eqb_spec j k) as [-> | Hjk].
  - destruct (nth_error (connections s) k) as [c0 |] eqn:E; [| discriminate].
    injection Hj as <-. apply (H k c0 E). now apply Hf.
  - now apply (H j c).
Qed.

Lemma closed_is_not_live (c : connection) : live (close c) = false.
Proof. unfold live, close. cbn. now destruct (ready c). Qed.

(** After [closeWebSocketConnection] no socket is live. *)
Lemma closeWebSocketConnection_no_live (s : state) :
  one_live_socket s ->
  no_live_socket (closeWebSocketConnection s)
  /\ websocket (closeWebSocketConnection s) = None.
Proof.
  intros H. unfold closeWebSocketConnection.
  set (s1 := match websocket s with Some _ => _ | None => _ end).
  assert (H1 : no_live_socket s1 /\ websocket s1 = None).
  { subst s1. destruct (websocket s) as [k |] eqn:W.
    - split; [| reflexivity].
      intros j c Hj. unfold seq in Hj. cbn [connections set_websocket] in Hj.
      rewrite !nth_error_update_connection in Hj.
      cbn [connections console_log set_console] in Hj.
      destruct (Nat.eqb_spec j k) as [-> | Hjk].
      + destruct (nth_error (connections s) k) as [c0 |]; [| discriminate].
        injection Hj as <-. apply closed_is_not_live.
      + destruct (live c) eqn:L; [| reflexivity].
        specialize (H j c Hj L). congruence.
    - split; [| exact W].
      intros j c Hj. destruct (live c) eqn:L; [| reflexivity].
      specialize (H j c Hj L). congruence. }
  destruct (truthy (activeQueryId s1)); exact H1.
Qed.

Lemma one_live_closeWebSocketConnection : keeps one_live_socket closeWebSocketConnection.
Proof.
  intros s H j c Hj L.
  destruct (closeWebSocketConnection_no_live s H) as [N _].
  rewrite (N j c Hj) in L. discriminate.
Qed.

Lemma one_live_connectWebSocket (q : value) (s : state) :
  one_live_socket s -> one_live_socket (snd (connectWebSocket q s)).
Proof.
  intros H. destruct (closeWebSocketConnection_no_live s H) as [N W].
  unfold connectWebSocket, seq. set (s1 := closeWebSocketConnection s) in *.
  unfold new_WebSocket. destruct (has_fragment q); cbn [snd].
  { intros j c Hj L.
    cbn [connections set_activeQueryId console_log set_console] in Hj.
    rewrite (N j c Hj) in L. discriminate. }
  intros j c Hj L. unfold seq in *.
  cbn [connections websocket set_connections set_websocket set_activeQueryId
       console_log set_console] in *.
  destruct (Nat.lt_ge_cases j (List.length (connections s1))) as [Hlt | Hge].
  - rewrite nth_error_app1 in Hj by exact Hlt.
    rewrite (N j c Hj) in L. discriminate.
  - rewrite nth_error_app2 in Hj by exact Hge.
    destruct (j - List.length (connections s1))%nat as [| d] eqn:D.
    + f_equal. lia.
    + cbn in Hj. now destruct d.
Qed.

Lemma one_live_connectionTimeout_callback : keeps one_live_socket connectionTimeout_callback.
Proof.
  intros s H. unfold connectionTimeout_callback.
  destruct (websocket s) as [k |] eqn:W; [| exact H].
  assert (G : one_live_socket
                ((console_log "WebSocket连接超时" ;;
                  update_connection k close ;;
                  set_websocket None ;;
                  showError (ErrText "WebSocket连接超时，请刷新页面重试") ;;
                  showProcessingStatus false ;;
                  set_activeQueryId VNull) s)).
  { intros j c Hj L. exfalso. unfold seq in Hj.
    cbn [connections set_websocket set_activeQueryId showProcessingStatus
         set_processingHidden showError addMessage set_chatContainer set_page] in Hj.
    rewrite nth_error_update_connection in Hj.
    cbn [connections console_log set_console] in Hj.
    destruct (Nat.eqb_spec j k) as [-> | Hjk].
    - destruct (nth_error (connections s) k) as [c0 |]; [| discriminate].
      injection Hj as <-. rewrite closed_is_not_live in L. discriminate.
    - specialize (H j c Hj L). congruence. }
  destruct (ready_of s k) as [[] |]; try exact G. exact H.
Qed.

(** The sockets of the page are never two at a time: whatever the user,
    the backend and the timers do, no socket is connecting or open but
    the one in [websocket]. *)
Lemma one_live_socket_always (d : dom) (es : list event) :
  one_live_socket (run marked es (initial d)).
Proof.
  apply (stable_run one_live_socket);
    try (intros; intros s0 H0; exact H0).
  - exact one_live_closeWebSocketConnection.
  - exact one_live_connectWebSocket.
  - exact one_live_connectionTimeout_callback.
  - intros k s0 H0. apply one_live_update; [| exact H0].
    intros c _. unfold clearTimeout. now destruct (connectionTimeout c).
  - intros k s0 R H0. apply one_live_update; [| exact H0].
    intros c Hc _. unfold ready_of in R. rewrite Hc in R. cbn in R.
    injection R as R. unfold live. now rewrite R.
  - intros k s0 H0. apply one_live_update; [| exact H0].
    intros c _ L. discriminate L.
  - intros k s0 H0. apply one_live_update; [| exact H0]. intros c _ L. exact L.
  - intros k c Hk. now destruct k.
Qed.

(** ** [sendMessage] (lines 66 to 111) *)

(** C2, as amended.  When the input is empty or white space only, or the
    active query id is truthy, [sendMessage] returns at line 68 and the
    state is the one it was called in: the active query id, the sockets,
    the transcript and the requests sent are what they were; so the click
    on the send button and the Enter key change nothing either, however
    often they come.  The values that are not truthy are [null],
    [undefined], [false], the two zeros, [NaN] and the empty string.
    Every other call adds the text to the transcript and posts it,
    whatever requests are still under way.  And at no time does the page
    have two sockets connecting or open: the only one that can be is the
    one in [websocket]. *)
Theorem sendMessage_guard (s : state) :
  (trim (messageInput (page s)) = "" \/ truthy (activeQueryId s) = true ->
   sendMessage s = (None, s)
   /\ handle marked ClickSend s = s
   /\ (forall shiftKey, handle marked (Keydown true shiftKey) s = s)
   /\ (forall n, run marked (repeat ClickSend n) s = s))
  /\ (forall v, truthy v = false
                <-> v = VNull \/ v = VUndefined \/ v = VBool false
                    \/ (exists sign, v = VNum (S754_zero sign))
                    \/ v = VNum S754_nan \/ v = VStr "")
  /\ (trim (messageInput (page s)) <> "" -> truthy (activeQueryId s) = false ->
      let query := trim (messageInput (page s)) in
      fst (sendMessage s) = Some (AwaitFetch Send_query)
      /\ requests (snd (sendMessage s)) = (requests s ++ [POST Query (Some query)])%list
      /\ chatContainer (page (snd (sendMessage s)))
         = (chatContainer (page s) ++ [UserMessage query])%list)
  /\ (forall d es, one_live_socket (run marked es (initial d))).
Proof.
  split; [| split; [| split; [| exact one_live_socket_always]]].
  - intros H.
    assert (E : sendMessage s = (None, s)).
    { unfold sendMessage. destruct H as [H | H]; rewrite H.
      - reflexivity.
      - now rewrite orb_true_r. }
    assert (C : handle marked ClickSend s = s).
    { unfold handle, call. rewrite E. now destruct (listeners (page s)). }
    repeat split; trivial.
    + intros shiftKey. unfold handle, call. rewrite E.
      now destruct (listeners (page s)), shiftKey.
    + intros n. induction n as [| n IH]; [reflexivity |].
      cbn [repeat run fold_left]. rewrite C. exact IH.
  - intros v. split.
    + destruct v as [| | [] | [sign | | | sign m e] | a |]; cbn; intros H;
        try discriminate H; auto 6.
      * right; right; right; left. now exists sign.
      * destruct (String.eqb_spec a ""); [subst; auto 6 | discriminate H].
    + intros [-> | [-> | [-> | [[sign ->] | [-> | ->]]]]]; reflexivity.
  - intros Hq Ha. cbv zeta. unfold sendMessage. rewrite Ha. cbn [truthy].
    destruct (String.eqb_spec (trim (messageInput (page s))) ""); [contradiction |].
    assert (U : forall k f s0,
               activeQueryId (update_connection k f s0) = activeQueryId s0
               /\ requests (update_connection k f s0) = requests s0
               /\ page (update_connection k f s0) = page s0).
    { intros k f s0. unfold update_connection.
      now destruct (nth_error (connections s0) k). }
    unfold closeWebSocketConnection, seq, await_fetch.
    destruct (websocket s) as [k |]; cbn.
    + destruct (U k close (update_connection k (set_onclose false)
                             (console_log "关闭现有WebSocket连接" s))) as (A1 & R1 & P1).
      destruct (U k (set_onclose false) (console_log "关闭现有WebSocket连接" s))
        as (A2 & R2 & P2).
      rewrite A1, A2. cbn. rewrite Ha. cbn. rewrite R1, R2, P1, P2. repeat split.
    + rewrite Ha. cbn. repeat split.
Qed.

(** ** Limited mode (lines 29 to 43 and 461 to 481) *)

Lemma limited_update_connection (k : nat) (f : connection -> connection) (s : state) :
  serverLimitedMode (update_connection k f s) = serverLimitedMode s.
Proof.
  unfold update_connection. now destruct (nth_error (connections s) k).
Qed.

(** No task sets [serverLimitedMode] back to [false]. *)
Lemma limited_forever (es : list event) (s : state) :
  serverLimitedMode s = true -> serverLimitedMode (run marked es s) = true.
Proof.
  apply (kept_by_assignments (fun s => serverLimitedMode s = true));
    try (intros; intros s0 H0; exact H0);
    try (intros; intros s0 H0; now rewrite limited_update_connection).
  - intros s0 H0. reflexivity.
  - intros q s0 H0. unfold new_WebSocket. now destruct (has_fragment q).
Qed.

(** C7.  When the [/memory] request of the start-up answers 500 or 503,
    [serverLimitedMode] becomes [true], the reset and view buttons get
    the class [disabled], and one warning is added to the transcript;
    from then on no task of the page sets the flag back. *)
Theorem startup_limited_mode (i : nat) (r : response) (s : state) :
  nth_error (suspensions s) i = Some (AwaitFetch Startup_memory) ->
  status r = 500 \/ status r = 503 ->
  let s' := handle marked (FetchSettled i (Fulfilled r)) s in
  serverLimitedMode s' = true
  /\ resetMemoryBtn_disabled (page s') = true
  /\ viewMemoryBtn_disabled (page s') = true
  /\ chatContainer (page s')
     = (chatContainer (page s) ++ [SystemWarning "MCP客户端未初始化，部分功能可能不可用"])%list
  /\ (forall es, serverLimitedMode (run marked es s') = true).
Proof.
  intros Hi Hr. cbn zeta.
  assert (E : (status r =? 500) || (status r =? 503) = true).
  { destruct Hr as [-> | ->]; reflexivity. }
  assert (L : serverLimitedMode (handle marked (FetchSettled i (Fulfilled r)) s) = true).
  { unfold handle. rewrite Hi. unfold seq, call, resume_fetch. rewrite E. reflexivity. }
  repeat split; trivial.
  - unfold handle. rewrite Hi. unfold seq, call, resume_fetch. rewrite E. reflexivity.
  - unfold handle. rewrite Hi. unfold seq, call, resume_fetch. rewrite E. reflexivity.
  - unfold handle. rewrite Hi. unfold seq, call, resume_fetch. rewrite E. reflexivity.
  - intros es. now apply limited_forever.
Qed.

(** ** The connect timeout (lines 148 to 163) *)





End Properties.

(** ** Numbers (lines 443 to 445) *)

Lemma digits2_pos_size (p : positive) : digits2_pos p = Pos.size p.
Proof. induction p; cbn; now rewrite ?IHp. Qed.

Lemma Zdigits2_pos_bounds (p : positive) :
  2 ^ (Zdigits2 (Zpos p) - 1) <= Zpos p < 2 ^ Zdigits2 (Zpos p).
Proof.
  cbn [Zdigits2]. rewrite digits2_pos_size.
  pose proof (Pos.size_gt p) as G. pose proof (Pos.size_le p) as L.
  assert (P : Zpos (2 ^ Pos.size p) = 2 ^ Zpos (Pos.size p)) by apply Pos2Z.inj_pow.
  split.
  - assert (2 ^ Zpos (Pos.size p) = 2 * 2 ^ (Zpos (Pos.size p) - 1)).
    { rewrite <- Z.pow_succ_r by lia. f_equal. lia. }
    lia.
  - lia.
Qed.

Lemma Zdigits2_eq (p : positive) (k : Z) :
  2 ^ (k - 1) <= Zpos p < 2 ^ k -> 0 < k -> Zdigits2 (Zpos p) = k.
Proof.
  intros [L U] Hk. pose proof (Zdigits2_pos_bounds p) as [L' U'].
  set (d := Zdigits2 (Zpos p)) in *.
  assert (0 < d) by (subst d; cbn; lia).
  destruct (Z.lt_trichotomy d k) as [H1 | [H1 | H1]]; [| exact H1 |].
  - assert (2 ^ d <= 2 ^ (k - 1)) by (apply Z.pow_le_mono_r; lia). lia.
  - assert (2 ^ k <= 2 ^ (d - 1)) by (apply Z.pow_le_mono_r; lia). lia.
Qed.

Lemma fexp_normal (e : Z) : -1021 <= e -> fexp 53 1024 e = e - 53.
Proof. intros H. unfold fexp, emin. change IntDef.Z.max with Z.max. lia. Qed.

Lemma loc_of_record_of_loc m l : loc_of_shr_record (shr_record_of_loc m l) = l.
Proof. destruct l as [| []]; reflexivity. Qed.

Lemma shr_m_record_of_loc m l : shr_m (shr_record_of_loc m l) = m.
Proof. destruct l as [| []]; reflexivity. Qed.

(** The second normalisation of [binary_round_aux], for a mantissa of
    53 digits or for 2^53. *)
Lemma renormalize (m1 e : Z) :
  2 ^ 52 <= m1 <= 2 ^ 53 -> -1074 <= e <= 960 ->
  exists (m : positive) (d : Z),
    (let '(mrs, e'') := shr_fexp 53 1024 m1 e loc_Exact in
     match shr_m mrs with
     | 0 => S754_zero false
     | Z.pos m => if e'' <=? 1024 - 53 then S754_finite false m e'' else S754_infinity false
     | Z.neg _ => S754_nan
     end) = S754_finite false m (e + d)
    /\ 0 <= d <= 1 /\ 2 ^ 52 <= Zpos m < 2 ^ 53 /\ Zpos m * 2 ^ d = m1.
Proof.
  intros Hm He.
  destruct (Z.eq_dec m1 (2 ^ 53)) as [-> | Hne].
  - exists (Z.to_pos (2 ^ 52)), 1. split; [| split; [lia | split; [vm_compute; split; congruence | reflexivity]]].
    unfold shr_fexp.
    replace (Zdigits2 (2 ^ 53)) with 54 by reflexivity.
    rewrite fexp_normal by lia.
    replace (54 + e - 53 - e) with 1 by lia.
    cbn.
    destruct (Z.leb_spec (e + 1) 971); [reflexivity | lia].
  - destruct m1 as [| p |]; try lia.
    exists p, 0. split; [| split; [lia | split; [lia | lia]]].
    unfold shr_fexp.
    rewrite (Zdigits2_eq p 53) by lia.
    rewrite fexp_normal by lia.
    replace (53 + e - 53 - e) with 0 by lia.
    cbn. rewrite Z.add_0_r.
    destruct (Z.leb_spec e 971); [reflexivity | lia].
Qed.

Lemma round_aux_nearest (q e' : Z) (l : location) (N Dn r : Z) :
  2 ^ 52 <= q < 2 ^ 54 -> -1074 <= e' <= 950 ->
  N = q * Dn + r -> 0 <= r < Dn -> located l r Dn ->
  exists (m : positive) (d : Z),
    binary_round_aux 53 1024 false q e' l = S754_finite false m (e' + d)
    /\ 0 <= d <= 2 /\ 2 ^ 52 <= Zpos m < 2 ^ 53
    /\ Z.abs (2 * (Zpos m * 2 ^ d) * Dn - 2 * N) <= 2 ^ d * Dn.
Proof.
  intros Hq He HN Hr Hl.
  destruct (Z_lt_le_dec q (2 ^ 53)) as [Hlt | Hge].
  - (* 53 digits: no shift before rounding *)
    destruct q as [| p |]; try lia.
    set (m1 := round_nearest_even (Zpos p) l).
    assert (Hm1 : (m1 = Zpos p \/ m1 = Zpos p + 1)
                  /\ Z.abs (2 * m1 * Dn - 2 * N) <= Dn).
    { subst m1. destruct l as [| []]; cbn [round_nearest_even located] in *.
      - split; [now left | nia].
      - destruct (Z.even (Zpos p)); split; auto; nia.
      - split; [now left | nia].
      - split; [now right | nia]. }
    destruct Hm1 as [Hm1 Hb].
    destruct (renormalize m1 e') as (m & d & E & Hd & Hm & Hmd); [lia | lia |].
    exists m, d. split; [| split; [lia | split; [exact Hm |]]].
    + unfold binary_round_aux. unfold shr_fexp at 1.
      rewrite (Zdigits2_eq p 53) by lia.
      rewrite fexp_normal by lia.
      replace (53 + e' - 53 - e') with 0 by lia.
      cbn [shr]. rewrite loc_of_record_of_loc, shr_m_record_of_loc.
      fold m1. exact E.
    + rewrite Hmd. assert (0 < 2 ^ d) by (apply Z.pow_pos_nonneg; lia).
      nia.
  - (* 54 digits: one bit is shifted out before rounding *)
    destruct q as [| p |]; try lia.
    assert (Hsh : exists (h : positive) (b : bool),
               Zpos p = 2 * Zpos h + (if b then 1 else 0)
               /\ shr (shr_record_of_loc (Zpos p) l) e' 1
                  = ({| shr_m := Zpos h; shr_r := b;
                        shr_s := match l with loc_Exact => false | _ => true end |}, e' + 1)).
    { destruct p as [h | h |]; [exists h, true | exists h, false | lia];
        (split; [lia | destruct l as [| []]; reflexivity]). }
    destruct Hsh as (h & b & Hp & Hsh).
    set (l1 := loc_of_shr_record {| shr_m := Zpos h; shr_r := b;
                  shr_s := match l with loc_Exact => false | _ => true end |}).
    set (m1 := round_nearest_even (Zpos h) l1).
    assert (Hm1 : (m1 = Zpos h \/ m1 = Zpos h + 1)
                  /\ Z.abs (2 * (m1 * 2) * Dn - 2 * N) <= 2 * Dn).
    { subst m1 l1. destruct b, l as [| []];
        cbn [round_nearest_even located loc_of_shr_record] in *;
        try (destruct (Z.even (Zpos h))); split; auto; nia. }
    destruct Hm1 as [Hm1 Hb].
    destruct (renormalize m1 (e' + 1)) as (m & d & E & Hd & Hm & Hmd);
      [destruct b; lia | lia |].
    exists m, (1 + d). split; [| split; [lia | split; [exact Hm |]]].
    + unfold binary_round_aux. unfold shr_fexp at 1.
      rewrite (Zdigits2_eq p 54) by lia.
      rewrite fexp_normal by lia.
      replace (54 + e' - 53 - e') with 1 by lia.
      rewrite Hsh. cbn [shr_m]. fold l1. fold m1.
      replace (e' + (1 + d)) with (e' + 1 + d) by lia. exact E.
    + replace (2 ^ (1 + d)) with (2 * 2 ^ d) by (rewrite Z.pow_add_r by lia; reflexivity).
      assert (0 < 2 ^ d) by (apply Z.pow_pos_nonneg; lia).
      rewrite <- Hmd in Hb. nia.
Qed.

Lemma round_exact (p : positive) (e : Z) :
  2 ^ 52 <= Zpos p < 2 ^ 53 -> -1074 <= e <= 950 ->
  binary_round_aux 53 1024 false (Zpos p) e loc_Exact = S754_finite false p e.
Proof.
  intros Hp He.
  destruct (renormalize (Zpos p) e) as (m & d & E & Hd & Hm & Hmd); [lia | lia |].
  assert (d = 0).
  { destruct (Z.eq_dec d 0) as [| Hn]; [assumption |].
    assert (d = 1) by lia. subst d. change (2 ^ 1) with 2 in Hmd. lia. }
  subst d. rewrite Z.pow_0_r, Z.mul_1_r in Hmd. injection Hmd as ->.
  unfold binary_round_aux. unfold shr_fexp at 1.
  rewrite (Zdigits2_eq p 53) by lia.
  rewrite fexp_normal by lia.
  replace (53 + e - 53 - e) with 0 by lia.
  cbn [shr shr_record_of_loc loc_of_shr_record shr_m round_nearest_even].
  rewrite E. f_equal. lia.
Qed.

Lemma iter_xO (p k : positive) : Zpos (Pos.iter xO p k) = Zpos p * 2 ^ Zpos k.
Proof.
  induction k using Pos.peano_ind.
  - cbn [Pos.iter]. change (2 ^ 1) with 2. lia.
  - rewrite Pos.iter_succ, Pos2Z.inj_xO, IHk, Pos2Z.inj_succ, Z.pow_succ_r by lia. lia.
Qed.

(** The Number of a positive integer below 2^53 is that integer. *)
Lemma binary_round_integer (p : positive) :
  Zpos p < 2 ^ 53 ->
  exists (m : positive) (e : Z),
    binary_round 53 1024 false p 0 = S754_finite false m e
    /\ -52 <= e <= 0 /\ Zpos m = Zpos p * 2 ^ (- e) /\ 2 ^ 52 <= Zpos m < 2 ^ 53.
Proof.
  intros Hp.
  pose proof (Zdigits2_pos_bounds p) as [L U].
  set (k := Zdigits2 (Zpos p)) in *.
  assert (Hk : 1 <= k <= 53).
  { split; [subst k; cbn; lia |].
    destruct (Z_le_gt_dec k 53) as [| G]; [assumption |].
    assert (2 ^ 53 <= 2 ^ (k - 1)) by (apply Z.pow_le_mono_r; lia). lia. }
  unfold binary_round.
  change (Zpos (digits2_pos p)) with k.
  rewrite fexp_normal by lia.
  unfold shl_align.
  replace (k + 0 - 53 - 0) with (k - 53) by lia.
  destruct (Z.eq_dec k 53) as [E | NE].
  - replace (k - 53) with 0 by lia. cbv iota.
    rewrite E in L. change (2 ^ (53 - 1)) with (2 ^ 52) in L.
    exists p, 0. rewrite round_exact by lia.
    repeat split; try lia.
  - destruct (k - 53) as [| j | j] eqn:Ej; try lia.
    exists (Pos.iter xO p j), (k + 0 - 53).
    assert (V : Zpos (Pos.iter xO p j) = Zpos p * 2 ^ (53 - k)).
    { rewrite iter_xO. f_equal. f_equal. lia. }
    assert (B : 2 ^ 52 <= Zpos p * 2 ^ (53 - k) < 2 ^ 53).
    { assert (P52 : 2 ^ 52 = 2 ^ (k - 1) * 2 ^ (53 - k))
        by (rewrite <- Z.pow_add_r by lia; f_equal; lia).
      assert (P53 : 2 ^ 53 = 2 ^ k * 2 ^ (53 - k))
        by (rewrite <- Z.pow_add_r by lia; f_equal; lia).
      assert (0 < 2 ^ (53 - k)) by (apply Z.pow_pos_nonneg; lia).
      set (X := 2 ^ (53 - k)) in *. rewrite P52, P53. split; nia. }
    rewrite round_exact by lia.
    repeat split; try lia.
    rewrite V. f_equal. f_equal. lia.
Qed.

Lemma SFdiv_nearest (mx my : positive) (ex ey : Z) :
  2 ^ 52 <= Zpos mx < 2 ^ 53 -> 2 ^ 52 <= Zpos my < 2 ^ 53 ->
  Z.even (Zpos my) = true ->
  -100 <= ex - ey <= 100 ->
  exists (m : positive) (d : Z),
    SFdiv 53 1024 (S754_finite false mx ex) (S754_finite false my ey)
    = S754_finite false m (ex - ey - 53 + d)
    /\ 0 <= d <= 2 /\ 2 ^ 52 <= Zpos m < 2 ^ 53
    /\ Z.abs (2 * (Zpos m * 2 ^ d) * Zpos my - 2 * (Zpos mx * 2 ^ 53)) <= 2 ^ d * Zpos my.
Proof.
  intros Hx Hy Hev He.
  unfold SFdiv, SFdiv_core_binary. cbn [xorb].
  rewrite (Zdigits2_eq mx 53), (Zdigits2_eq my 53) by lia.
  cbv zeta.
  replace (IntDef.Z.min (fexp 53 1024 (53 + ex - (53 + ey))) (ex - ey)) with (ex - ey - 53)
    by (rewrite fexp_normal by lia; change IntDef.Z.min with Z.min; lia).
  replace (ex - ey - (ex - ey - 53)) with 53 by lia.
  cbv iota.
  change (IntDef.Z.shiftl (Zpos mx) 53) with (Z.shiftl (Zpos mx) 53).
  rewrite Z.shiftl_mul_pow2 by lia.
  change IntDef.Z.div_eucl with Z.div_eucl.
  pose proof (Z_div_mod (Zpos mx * 2 ^ 53) (Zpos my) ltac:(lia)) as Hdiv.
  destruct (Z.div_eucl (Zpos mx * 2 ^ 53) (Zpos my)) as [q r].
  destruct Hdiv as [HN Hr].
  assert (Hq : 2 ^ 52 <= q < 2 ^ 54) by nia.
  assert (Hl : located (new_location (Zpos my) r) r (Zpos my)).
  { unfold new_location. change IntDef.Z.even with Z.even. rewrite Hev.
    unfold new_location_even. change IntDef.Z.eqb with Z.eqb.
    destruct (Z.eqb_spec r 0) as [-> | Hr0]; [reflexivity |].
    change IntDef.Z.compare with Z.compare.
    destruct (Z.compare_spec (2 * r) (Zpos my)); cbn [located]; lia. }
  apply (round_aux_nearest q (ex - ey - 53) _ (Zpos mx * 2 ^ 53) (Zpos my) r);
    try assumption; lia.
Qed.

(** The two divisors of the script. *)
Lemma of_Z_1000 : Num.of_Z 1000 = S754_finite false (Z.to_pos (1000 * 2 ^ 43)) (-43).
Proof. vm_compute. reflexivity. Qed.
Lemma of_Z_60 : Num.of_Z 60 = S754_finite false (Z.to_pos (60 * 2 ^ 47)) (-47).
Proof. vm_compute. reflexivity. Qed.

Lemma of_Z_pos (a : Z) :
  0 < a < 2 ^ 53 ->
  exists (m : positive) (u : Z),
    Num.of_Z a = S754_finite false m (- u)
    /\ 0 <= u <= 52 /\ Zpos m = a * 2 ^ u /\ 2 ^ 52 <= Zpos m < 2 ^ 53.
Proof.
  intros Ha. destruct a as [| p |]; try lia.
  destruct (binary_round_integer p) as (m & e & E & He & Hm & Hb); [lia |].
  exists m, (- e). rewrite Z.opp_involutive. repeat split; try lia. exact E.
Qed.

(** [a / c] for an integer [a] below 2^53 and a divisor [c] whose Number
    is [my * 2 ^ (- v)]: the quotient is within half a unit of its last
    place. *)
Lemma div_integer (a c : Z) (my : positive) (v : Z) :
  0 < a < 2 ^ 53 -> 0 < c ->
  Num.of_Z c = S754_finite false my (- v) ->
  Zpos my = c * 2 ^ v -> 0 <= v <= 50 -> 2 ^ 52 <= Zpos my < 2 ^ 53 ->
  Z.even (Zpos my) = true ->
  exists (m : positive) (E : Z),
    Num.div (Num.of_Z a) (Num.of_Z c) = S754_finite false m (- E)
    /\ 1 <= E /\ 2 ^ 52 <= Zpos m < 2 ^ 53
    /\ Z.abs (2 * Zpos m * c - 2 * a * 2 ^ E) <= c.
Proof.
  intros Ha Hc Ec Hmy Hv Hby Hev.
  destruct (of_Z_pos a Ha) as (mx & u & Ea & Hu & Hmx & Hbx).
  destruct (SFdiv_nearest mx my (- u) (- v)) as (m & d & Ed & Hd & Hbm & Hbound);
    try assumption; try lia.
  unfold Num.div. rewrite Ea, Ec. change prec with 53. change emax with 1024.
  rewrite Ed. set (E := 53 + u - v - d).
  exists m, E. split; [f_equal; subst E; lia |].
  split; [subst E; lia |]. split; [assumption |].
  rewrite Hmx, Hmy in Hbound.
  assert (P : 0 < 2 ^ (d + v)) by (apply Z.pow_pos_nonneg; lia).
  assert (X1 : 2 ^ d * (c * 2 ^ v) = 2 ^ (d + v) * c)
    by (rewrite Z.pow_add_r by lia; ring).
  assert (X2 : 2 * (Zpos m * 2 ^ d) * (c * 2 ^ v) - 2 * (a * 2 ^ u * 2 ^ 53)
               = 2 ^ (d + v) * (2 * Zpos m * c - 2 * a * 2 ^ E)).
  { replace (a * 2 ^ u * 2 ^ 53) with (a * (2 ^ (d + v) * 2 ^ E)).
    - rewrite (Z.pow_add_r 2 d v) by lia. ring.
    - rewrite <- !Z.pow_add_r by (subst E; lia). rewrite <- Z.mul_assoc.
      rewrite <- Z.pow_add_r by lia. f_equal. f_equal. subst E. lia. }
  rewrite X1, X2, Z.abs_mul, (Z.abs_eq (2 ^ (d + v))) in Hbound by lia.
  apply Z.mul_le_mono_pos_l in Hbound; assumption.
Qed.

(** [D] metres, shown in kilometres. *)
Lemma kilometres (D : Z) :
  0 < D < 2 ^ 53 ->
  exists n,
    Num.toFixed1 (Num.div (Num.of_Z D) (Num.of_Z 1000))
    = Digits (Num.decimal (n / 10) ++ "." ++ Num.decimal (n mod 10))
    /\ 0 <= n /\ Z.abs (100 * n - D) <= 50.
Proof.
  intros HD.
  destruct (div_integer D 1000 (Z.to_pos (1000 * 2 ^ 43)) 43)
    as (m & E & Ediv & HE & Hm & Hb);
    [exact HD | lia | exact of_Z_1000 | vm_compute; reflexivity | lia
    | vm_compute; split; congruence | vm_compute; reflexivity |].
  rewrite Ediv.
  assert (P : 0 < 2 ^ E) by (apply Z.pow_pos_nonneg; lia).
  assert (HE9 : 512 <= 2 ^ E).
  { destruct (Z_le_gt_dec 9 E) as [H9 | H9].
    - change 512 with (2 ^ 9). apply Z.pow_le_mono_r; lia.
    - exfalso. assert (2 ^ E <= 2 ^ 8) by (apply Z.pow_le_mono_r; lia).
      change (2 ^ 8) with 256 in *. change (2 ^ 52) with 4503599627370496 in *.
      change (2 ^ 53) with 9007199254740992 in *. nia. }
  unfold Num.toFixed1.
  destruct (Z.leb_spec 0 (- E)); [lia |].
  rewrite Z.opp_involutive.
  replace (1 - - E) with (E + 1) by lia.
  assert (Hbig : (10 ^ 21 * 2 ^ E <=? Zpos m) = false).
  { apply Z.leb_gt. change (10 ^ 21) with 1000000000000000000000.
    change (2 ^ 53) with 9007199254740992 in *. nia. }
  rewrite Hbig.
  set (n := (20 * Zpos m + 2 ^ E) / 2 ^ (E + 1)).
  exists n. split; [reflexivity |].
  assert (P2 : 2 ^ (E + 1) = 2 * 2 ^ E) by (rewrite Z.pow_add_r by lia; change (2 ^ 1) with 2; ring).
  assert (Hn : 2 ^ (E + 1) * n <= 20 * Zpos m + 2 ^ E < 2 ^ (E + 1) * (n + 1)).
  { subst n. split.
    - apply Z.mul_div_le. lia.
    - rewrite Z.mul_add_distr_l, Z.mul_1_r.
      pose proof (Z.mod_pos_bound (20 * Zpos m + 2 ^ E) (2 ^ (E + 1)) ltac:(lia)).
      pose proof (Z.div_mod (20 * Zpos m + 2 ^ E) (2 ^ (E + 1)) ltac:(lia)).
      lia. }
  rewrite P2 in Hn.
  apply Z.abs_le in Hb.
  split; [subst n; apply Z.div_pos; lia |].
  apply Z.abs_le. set (Q := 2 ^ E) in *. split; nia.
Qed.

(** [T] seconds, shown in minutes. *)
Lemma minutes (T : Z) :
  0 < T < 2 ^ 53 ->
  Num.to_text (Num.floor (Num.div (Num.of_Z T) (Num.of_Z 60)))
  = Digits (Num.decimal (T / 60)).
Proof.
  intros HT.
  destruct (div_integer T 60 (Z.to_pos (60 * 2 ^ 47)) 47)
    as (m & E & Ediv & HE & Hm & Hb);
    [exact HT | lia | exact of_Z_60 | vm_compute; reflexivity | lia
    | vm_compute; split; congruence | vm_compute; reflexivity |].
  rewrite Ediv.
  assert (P : 0 < 2 ^ E) by (apply Z.pow_pos_nonneg; lia).
  assert (HE5 : 32 <= 2 ^ E).
  { destruct (Z_le_gt_dec 5 E) as [H5 | H5].
    - change 32 with (2 ^ 5). apply Z.pow_le_mono_r; lia.
    - exfalso. assert (2 ^ E <= 2 ^ 4) by (apply Z.pow_le_mono_r; lia).
      change (2 ^ 4) with 16 in *. change (2 ^ 52) with 4503599627370496 in *.
      change (2 ^ 53) with 9007199254740992 in *. nia. }
  unfold Num.floor.
  destruct (Z.leb_spec 0 (- E)); [lia |].
  rewrite Z.opp_involutive.
  assert (Hq : Zpos m / 2 ^ E = T / 60).
  { apply Z.abs_le in Hb.
    pose proof (Z.div_mod T 60 ltac:(lia)) as HT60.
    pose proof (Z.mod_pos_bound T 60 ltac:(lia)) as Ht.
    set (K := T / 60) in *. set (t := T mod 60) in *. set (Q := 2 ^ E) in *.
    symmetry. apply (Z.div_unique_pos (Zpos m) Q K (Zpos m - Q * K)); [| lia].
    split; nia. }
  rewrite Hq.
  assert (HK : 0 <= T / 60 < 2 ^ 53).
  { split; [apply Z.div_pos; lia |].
    apply Z.div_lt_upper_bound; lia. }
  destruct (Z.eq_dec (T / 60) 0) as [-> | HK0]; [reflexivity |].
  destruct (of_Z_pos (T / 60)) as (mk & u & Ek & Hu & Hmk & Hbk); [lia |].
  rewrite Ek. unfold Num.to_text.
  destruct (Z.leb_spec (- u) 0); [| lia].
  rewrite Z.opp_involutive, Hmk.
  assert (0 < 2 ^ u) by (apply Z.pow_pos_nonneg; lia).
  rewrite Z.mod_mul, Z.eqb_refl, Z.div_mul by lia.
  reflexivity.
Qed.

Lemma digit_cases (c : nat) :
  Num.is_digit c = true ->
  (c = 48 \/ c = 49 \/ c = 50 \/ c = 51 \/ c = 52 \/ c = 53 \/ c = 54
   \/ c = 55 \/ c = 56 \/ c = 57)%nat.
Proof.
  unfold Num.is_digit. intros H. apply andb_prop in H as [L U].
  apply Nat.leb_le in L, U. lia.
Qed.

Ltac each_digit c H :=
  apply digit_cases in H;
  destruct H as [H | [H | [H | [H | [H | [H | [H | [H | [H | H]]]]]]]]];
  subst c.

Lemma span_all_digits (l : list nat) :
  forallb Num.is_digit l = true -> Num.span_digits l = (l, []).
Proof.
  induction l as [| c l IH]; intros H; [reflexivity |].
  cbn [forallb] in H. apply andb_prop in H as [Hc Hl].
  cbn [Num.span_digits]. rewrite Hc, (IH Hl). reflexivity.
Qed.

Lemma digits_value_nonneg (l : list nat) (acc : Z) :
  forallb Num.is_digit l = true -> 0 <= acc ->
  0 <= fold_left (fun acc c => 10 * acc + (Z.of_nat c - 48)) l acc.
Proof.
  revert acc. induction l as [| c l IH]; intros acc H Ha; [exact Ha |].
  cbn [forallb] in H. apply andb_prop in H as [Hc Hl].
  cbn [fold_left]. apply IH; [exact Hl |].
  unfold Num.is_digit in Hc. apply andb_prop in Hc as [L U].
  apply Nat.leb_le in L, U. lia.
Qed.

(** A digit at the head: no white space, no sign, no [Infinity], no [0x]. *)
Lemma digit_head (c : nat) (r : list nat) :
  Num.is_digit c = true -> forallb Num.is_digit r = true ->
  dropStart (c :: r) = c :: r
  /\ Num.sign_of (c :: r) = (false, c :: r)
  /\ Num.starts_with (codes "Infinity") (c :: r) = false
  /\ Num.after_0x (c :: r) = None.
Proof.
  intros Hc Hr.
  assert (Hx : Num.after_0x (c :: r) = None).
  { destruct r as [| b r']; [reflexivity |].
    cbn [forallb] in Hr. apply andb_prop in Hr as [Hb _].
    unfold Num.after_0x. each_digit b Hb; cbn; now rewrite andb_false_r. }
  each_digit c Hc; (repeat split; [destruct r as [| b [| d r']]; reflexivity | assumption ]).
Qed.

Lemma parseFloat_numeric (s : string) :
  numeric s = true ->
  Num.parseFloat s
  = match numeric_value s with
    | 0 => S754_zero false
    | v => Num.of_Z v
    end
  /\ Num.parseInt s
     = match numeric_value s with
       | 0 => S754_zero false
       | v => Num.of_Z v
       end
  /\ 0 <= numeric_value s.
Proof.
  unfold numeric, numeric_value, Num.parseFloat, Num.parseInt.
  destruct (codes s) as [| c r] eqn:E; [discriminate |].
  intros H. pose proof H as H'. cbn [forallb] in H'. apply andb_prop in H' as [Hc Hr].
  destruct (digit_head c r Hc Hr) as (D1 & D2 & D3 & D4).
  pose proof (digits_value_nonneg (c :: r) 0 H ltac:(lia)) as Hv.
  fold (Num.digits_value (c :: r)) in Hv.
  rewrite D1, D2. unfold Num.unsigned_literal, Num.unsigned_integer, Num.unsigned_decimal.
  rewrite D3, D4, (span_all_digits _ H). cbn [Num.after_point fst Num.exponent_part].
  set (v := Num.digits_value (c :: r)) in *.
  repeat split; [| | exact Hv].
  - unfold Num.of_decimal. destruct v as [| p |]; [reflexivity | | lia].
    cbn [Z.leb Z.compare]. unfold Num.of_Z, binary_normalize.
    change (10 ^ 0) with 1. rewrite Z.mul_1_r. reflexivity.
  - unfold Num.signed, Num.of_Z. destruct v; reflexivity.
Qed.

(** The plans of a memory that counts a query are shown one
    [plan_item] each, in their order. *)
Lemma plans_are_plan_items (m : memory) :
  strict_eq (query_count m) (VNum (S754_zero false)) = false ->
  current_plans m <> [] ->
  exists groups,
    memory_view m = PanelGroups groups
    /\ In (Plans (map (fun e => plan_item (fst e) (snd e)) (current_plans m))) groups.
Proof.
  intros Hq Hp. unfold memory_view. rewrite Hq. eexists. split; [reflexivity |].
  apply in_or_app. right. apply in_or_app. right. apply in_or_app. left.
  unfold plan_group. destruct (current_plans m); [now elim Hp | now left].
Qed.

(** The item of one plan whose [distance] and [duration] are strings of
    decimal digits, below 2^53. *)
Lemma plan_item_numeric (route : string) (info : plan) :
  numeric (distance info) = true ->
  numeric (duration info) = true ->
  numeric_value (distance info) < 2 ^ 53 ->
  numeric_value (duration info) < 2 ^ 53 ->
  exists n,
    0 <= n
    /\ Z.abs (100 * n - numeric_value (distance info)) <= 50
    /\ plan_item route info
       = PlanItem route
           (Digits (Num.decimal (n / 10) ++ "." ++ Num.decimal (n mod 10)))
           (Digits (Num.decimal (numeric_value (duration info) / 60))).
Proof.
  intros Hd Ht HD HT.
  destruct (parseFloat_numeric (distance info) Hd) as (PF & _ & Dnn).
  destruct (parseFloat_numeric (duration info) Ht) as (_ & PI & Tnn).
  unfold plan_item. rewrite PF, PI.
  assert (M : Num.to_text
                (Num.floor
                   (Num.div
                      match numeric_value (duration info) with
                      | 0 => S754_zero false
                      | v => Num.of_Z v
                      end (Num.of_Z 60)))
              = Digits (Num.decimal (numeric_value (duration info) / 60))).
  { destruct (numeric_value (duration info)) as [| t |] eqn:E; [vm_compute; reflexivity | | lia].
    apply minutes. lia. }
  rewrite M.
  destruct (numeric_value (distance info)) as [| d |] eqn:E; [| | lia].
  - exists 0. repeat split; try lia. 
  - destruct (kilometres (Zpos d)) as (n & K & Hn & Hb); [lia |].
    exists n. rewrite K. repeat split; assumption.
Qed.

(** The groups of a panel hold the plans once at most. *)
Lemma one_plan_group (m : memory) (g : list memory_item) :
  In (Plans g)
     (location_group m ++ poi_group m ++ plan_group m ++ [QueryCount (query_count m)])%list ->
  g = map (fun e => plan_item (fst e) (snd e)) (current_plans m).
Proof.
  unfold location_group, poi_group, plan_group. intros H.
  apply in_app_or in H. destruct H as [H | H].
  { destruct (current_locations m); [destruct H |].
    destruct H as [H | []]. discriminate H. }
  apply in_app_or in H. destruct H as [H | H].
  { destruct (current_pois m); [destruct H |].
    destruct H as [H | []]. discriminate H. }
  apply in_app_or in H. destruct H as [H | H].
  - destruct (current_plans m); [destruct H |].
    destruct H as [H | []]. now injection H as <-.
  - destruct H as [H | []]. discriminate H.
Qed.

(** C9, as amended.  [updateMemoryPanel], called with a memory that
    counts a query and holds a plan, leaves in the memory panel one group
    of plans, with one item for each plan, in their order.  The item of a
    plan whose [distance] and [duration] are strings of decimal digits,
    below 2^53, shows the distance divided by 1000 to one decimal place,
    [n / 10] for an integer [n] with [n / 10] nearest to it, and the
    whole minutes of the duration, its quotient by 60 rounded down; the
    item of a plan with 12345 and 905 shows 12.3 and 15. *)
Theorem plan_item_conversion (m : memory) (s : state) :
  strict_eq (query_count m) (VNum (S754_zero false)) = false ->
  current_plans m <> [] ->
  exists groups items,
    updateMemoryPanel (Some m) s = (false, set_memoryPanel (PanelGroups groups) s)
    /\ memoryPanel (page (snd (updateMemoryPanel (Some m) s))) = PanelGroups groups
    /\ In (Plans items) groups
    /\ (forall g, In (Plans g) groups -> g = items)
    /\ List.length items = List.length (current_plans m)
    /\ (forall i route info,
          nth_error (current_plans m) i = Some (route, info) ->
          numeric (distance info) = true ->
          numeric (duration info) = true ->
          numeric_value (distance info) < 2 ^ 53 ->
          numeric_value (duration info) < 2 ^ 53 ->
          exists n,
            0 <= n
            /\ Z.abs (100 * n - numeric_value (distance info)) <= 50
            /\ nth_error items i
               = Some (PlanItem route
                         (Digits (Num.decimal (n / 10) ++ "." ++ Num.decimal (n mod 10)))
                         (Digits (Num.decimal (numeric_value (duration info) / 60)))))
    /\ (forall i route,
          nth_error (current_plans m) i
          = Some (route, {| distance := "12345"; duration := "905" |}) ->
          nth_error items i = Some (PlanItem route (Digits "12.3") (Digits "15"))).
Proof.
  intros Hq Hp.
  destruct (plans_are_plan_items m Hq Hp) as (groups & V & I).
  exists groups, (map (fun e => plan_item (fst e) (snd e)) (current_plans m)).
  assert (G : groups = (location_group m ++ poi_group m ++ plan_group m
                        ++ [QueryCount (query_count m)])%list).
  { unfold memory_view in V. rewrite Hq in V. now injection V as <-. }
  split; [unfold updateMemoryPanel; now rewrite V |].
  split; [unfold updateMemoryPanel; rewrite V; reflexivity |].
  split; [exact I |].
  split; [intros g Hg; rewrite G in Hg; now apply one_plan_group |].
  split; [apply length_map |].
  split.
  - intros i route info Hi Hd Ht HD HT.
    destruct (plan_item_numeric route info Hd Ht HD HT) as (n & Hn & Hb & E).
    exists n. split; [exact Hn | split; [exact Hb |]].
    rewrite nth_error_map, Hi. cbn [option_map fst snd]. now rewrite E.
  - intros i route Hi. rewrite nth_error_map, Hi. reflexivity.
Qed.

(** ** The theorems at work *)

(** C1 at a message for another query that carries no error. *)
Lemma onmessage_discards_other_query_witness :
  let q := VStr "q2" in
  let s := asking "深圳到珠海怎么走" q in
  let data := progress "q1" "completed" VObject in
  ws_onmessage q (Parsed data) s = console_log "收到非当前查询的WebSocket消息" s
  /\ activeQueryId (ws_onmessage q (Parsed data) s) = activeQueryId s
  /\ page (ws_onmessage q (Parsed data) s) = page s
  /\ requests (ws_onmessage q (Parsed data) s) = requests s
  /\ suspensions (ws_onmessage q (Parsed data) s) = suspensions s
  /\ ws_onmessage q Unparsable s = s
  /\ activeQueryId (ws_onmessage q (Parsed (error_for "q1" "Query not found")) s) = VNull.
Proof.
  destruct (onmessage_discards_other_query (VStr "q2") (progress "q1" "completed" VObject)
              (asking "深圳到珠海怎么走" (VStr "q2")))
    as (A & B & C & D & E & F & G); [reflexivity | reflexivity |].
  destruct (G (error_for "q1" "Query not found") (asking "深圳到珠海怎么走" (VStr "q2")))
    as (_ & _ & _ & H & _); [reflexivity |].
  cbv zeta.
  split; [exact A | split; [exact B | split; [exact C | split; [exact D |
    split; [exact E | split; [exact F | exact H]]]]]].
Defined.

(** C1 as the claim has it fails: a message for another query that
    carries an [error] is not dropped.  It puts the error in the
    transcript, hides the processing indicator and sets the active query
    id to [null]. *)
Lemma stale_error_message_resets_session :
  let s := asking "深圳到珠海怎么走" (VStr "q2") in
  let data := error_for "q1" "Query not found" in
  let s' := handle plain_text (Received 0 (Parsed data)) s in
  strict_eq (ws_query_id data) (activeQueryId s) = false
  /\ activeQueryId s = VStr "q2" /\ activeQueryId s' = VNull
  /\ processingHidden (page s) = false /\ processingHidden (page s') = true
  /\ chatContainer (page s')
     = (chatContainer (page s) ++ [SystemError (ErrFromChannel (VStr "Query not found"))])%list.
Proof. vm_compute. repeat split. Qed.

(** C6 at a [completed] message with a result, and at a [failed] one. *)
Lemma onmessage_completed_and_failed_witness :
  let q := VStr "q1" in
  let s := asking "深圳到珠海怎么走" q in
  (let s' := ws_onmessage q (Parsed (progress "q1" "completed" VObject)) s in
   requests s' = (requests s ++ [GET (QueryStatus q)])%list
   /\ suspensions s' = (suspensions s ++ [AwaitFetch (Result_status q)])%list
   /\ chatContainer (page s') = chatContainer (page s)
   /\ activeQueryId s' = activeQueryId s)
  /\ (let s' := ws_onmessage q (Parsed (progress "q1" "failed" VUndefined)) s in
      (exists m, chatContainer (page s') = (chatContainer (page s) ++ [SystemError m])%list)
      /\ processingHidden (page s') = true
      /\ activeQueryId s' = VNull
      /\ requests s' = requests s).
Proof.
  split.
  - apply (proj1 (onmessage_completed_and_failed (VStr "q1")
                    (progress "q1" "completed" VObject)
                    (asking "深圳到珠海怎么走" (VStr "q1")) eq_refl)); reflexivity.
  - apply (proj2 (onmessage_completed_and_failed (VStr "q1")
                    (progress "q1" "failed" VUndefined)
                    (asking "深圳到珠海怎么走" (VStr "q1")) eq_refl)); reflexivity.
Defined.

(** C6 as the claim has it fails: a [completed] message for the active
    query that carries no result starts no fetch, and the session stays
    as it is. *)
Lemma completed_without_result_starts_no_fetch :
  let s := asking "深圳到珠海怎么走" (VStr "q1") in
  let data := progress "q1" "completed" VUndefined in
  let s' := handle plain_text (Received 0 (Parsed data)) s in
  strict_eq (ws_query_id data) (activeQueryId s) = true
  /\ ws_status data = VStr "completed"
  /\ requests s' = [] /\ suspensions s' = []
  /\ activeQueryId s' = VStr "q1"
  /\ processingHidden (page s') = false
  /\ chatContainer (page s') = chatContainer (page s).
Proof. vm_compute. repeat split. Qed.

(** C2 at a blank input, and at a second text while a query is active. *)
Lemma sendMessage_guard_witness :
  let blank := set_messageInput "  " (asking "深圳到珠海怎么走" VNull) in
  let busy := set_messageInput "杭州景点" (asking "深圳到珠海怎么走" (VStr "q1")) in
  (sendMessage blank = (None, blank) /\ handle plain_text ClickSend blank = blank)
  /\ (sendMessage busy = (None, busy) /\ handle plain_text ClickSend busy = busy)
  /\ one_live_socket (run plain_text second_query_before_timeout (initial blank_page)).
Proof.
  split; [| split].
  - destruct (proj1 (sendMessage_guard plain_text
                       (set_messageInput "  " (asking "深圳到珠海怎么走" VNull))))
      as (A & B & _); [left; vm_compute; reflexivity | now split].
  - destruct (proj1 (sendMessage_guard plain_text
                       (set_messageInput "杭州景点" (asking "深圳到珠海怎么走" (VStr "q1")))))
      as (A & B & _); [right; vm_compute; reflexivity | now split].
  - apply (proj2 (proj2 (proj2 (sendMessage_guard plain_text (initial blank_page))))).
Defined.

(** The page of the next lemma is one the script gets to. *)
Lemma acknowledged_empty_reached :
  run plain_text empty_id_acknowledged (initial blank_page) = acknowledged_empty.
Proof. vm_compute. reflexivity. Qed.

(** C2 as the claim has it fails, in two ways.  The guard is on the truth
    of the active query id, not on its being [null]: after an
    acknowledgement with the empty string as [query_id] the id is not
    [null], and a second submit goes through: it closes the socket, adds
    the message and sends the request.  And the active query id is
    [null] until the acknowledgement of a query has come: a second text
    sent before then goes through as well, so that two queries are posted
    and both are under way.  When their acknowledgements come in the
    other order, the socket that is left is the one of the first query,
    while the last user message is the text of the second. *)
Lemma second_submit_goes_through :
  (let s := acknowledged_empty in
   let s' := handle plain_text ClickSend s in
   activeQueryId s = VStr "" /\ activeQueryId s <> VNull
   /\ trim (messageInput (page s)) = "杭州景点"
   /\ websocket s = Some 0%nat /\ websocket s' = None
   /\ option_map close_calls (nth_error (connections s') 0) = Some 1%nat
   /\ chatContainer (page s') = (chatContainer (page s) ++ [UserMessage "杭州景点"])%list
   /\ requests s' = (requests s ++ [POST Query (Some "杭州景点")])%list)
  /\ (let sent := run plain_text (firstn 8 two_queries) (initial blank_page) in
      let s := run plain_text two_queries (initial blank_page) in
      activeQueryId sent = VNull
      /\ requests sent
         = [GET Health; GET Memory; POST Query (Some "深圳到珠海怎么走");
            POST Query (Some "杭州景点")]
      /\ suspensions sent = [AwaitFetch Send_query; AwaitFetch Send_query]
      /\ chatContainer (page sent)
         = [UserMessage "深圳到珠海怎么走"; UserMessage "杭州景点"]
      /\ activeQueryId s = VStr "q1"
      /\ websocket s = Some 1%nat
      /\ map (fun c => (queryId c, ready c)) (connections s)
         = [(VStr "q2", CLOSING); (VStr "q1", CONNECTING)]
      /\ getLastUserMessage plain_text s = VStr "杭州景点").
Proof. vm_compute. repeat split. discriminate. Qed.

(** C8 at a memory that counts no query and holds data. *)
Lemma updateMemoryPanel_empty_witness :
  let s := initial blank_page in
  memory_view uncounted_memory = PanelEmpty
  /\ updateMemoryPanel (Some uncounted_memory) s = (false, set_memoryPanel PanelEmpty s)
  /\ memoryPanel (page (snd (updateMemoryPanel (Some uncounted_memory) s))) = PanelEmpty.
Proof.
  apply (updateMemoryPanel_empty uncounted_memory (initial blank_page)). reflexivity.
Defined.

(** C3 at the queries of the specification. *)
Lemma fetchQueryResult_mismatch_witness :
  let s := asking "深圳到珠海怎么走" (VStr "q1") in
  let r := resume_json plain_text (Result_status_json (VStr "q1"))
             (Fulfilled (Some (status_body "杭州景点"))) s in
  getLastUserMessage plain_text s = VStr "深圳到珠海怎么走"
  /\ fst r = None
  /\ chatContainer (page (snd r))
     = (chatContainer (page s)
        ++ [SystemError (ErrText "查询与最后发送的消息不匹配，可能存在混淆。请重试您的问题。")])%list
  /\ requests (snd r) = requests s
  /\ activeQueryId (snd r) = VNull
  /\ processingHidden (page (snd r)) = true.
Proof.
  destruct (fetchQueryResult_mismatch plain_text (VStr "q1") (status_body "杭州景点")
              (asking "深圳到珠海怎么走" (VStr "q1")))
    as (G & U).
  specialize (U [] [] "深圳到珠海怎么走" eq_refl eq_refl (fun x (H : In x []) => match H with end)).
  destruct (G _ _ U) as (L & M & _).
  destruct M as (A & B & _ & C & _ & D & E);
    [vm_compute; discriminate | vm_compute; reflexivity |].
  cbv zeta.
  split; [vm_compute; reflexivity | split; [exact A | split; [exact B |
    split; [exact C | split; [exact D | exact E]]]]].
Defined.

(** C3 as the claim has it fails: the text compared is what the selector
    finds on the page, not what the user sent.  A user who sends three
    dashes sees a rule, which has no text; the status check answers with
    another query than the one sent, and yet no warning is shown: the
    check is passed over and the result is requested.  And after a reset
    that failed with the markup of a user message as its [detail], the
    text compared is the one of that markup: a status answer with that
    text, which is not what the user sent, passes the check as well. *)
Lemma rule_hides_the_mismatch :
  (let s := asking "---" (VStr "q1") in
   let r := resume_json marked_sample (Result_status_json (VStr "q1"))
              (Fulfilled (Some (status_body "杭州景点"))) s in
   chatContainer (page s) = [UserMessage "---"]
   /\ strict_eq (query (status_body "杭州景点")) (VStr "---") = false
   /\ getLastUserMessage marked_sample s = VStr ""
   /\ r = (Some (AwaitFetch Result_result), send (GET (QueryResult (VStr "q1"))) s)
   /\ chatContainer (page (snd r)) = chatContainer (page s)
   /\ activeQueryId (snd r) = VStr "q1")
  /\ (let s := asked_then_reset_failed in
      let r := resume_json marked_sample (Result_status_json (VStr "q1"))
                 (Fulfilled (Some (status_body "x"))) s in
      chatContainer (page s)
      = [UserMessage "深圳到珠海怎么走"; SystemError (ErrResetFailed (VStr user_markup))]
      /\ strict_eq (query (status_body "x")) (VStr "深圳到珠海怎么走") = false
      /\ getLastUserMessage marked_sample s = VStr "x"
      /\ r = (Some (AwaitFetch Result_result), send (GET (QueryResult (VStr "q1"))) s)
      /\ chatContainer (page (snd r)) = chatContainer (page s)
      /\ activeQueryId (snd r) = VStr "q1").
Proof. vm_compute. repeat split. Qed.



(** C4 at a run in which the status request is rejected. *)
Lemma fetchQueryResult_always_idle_witness :
  let s := asking "深圳到珠海怎么走" (VStr "q1") in
  let s' := (fetchQueryResult_catch ;; fetchQueryResult_finally)
              (send (GET (QueryStatus (VStr "q1"))) s) in
  ends plain_text (fetchQueryResult (VStr "q1") s) s'
  /\ activeQueryId s' = VNull
  /\ processingHidden (page s') = true.
Proof.
  assert (H : ends plain_text
                (fetchQueryResult (VStr "q1") (asking "深圳到珠海怎么走" (VStr "q1")))
                ((fetchQueryResult_catch ;; fetchQueryResult_finally)
                   (send (GET (QueryStatus (VStr "q1")))
                      (asking "深圳到珠海怎么走" (VStr "q1"))))).
  { apply (ends_after_fetch plain_text (Result_status (VStr "q1")) Rejected
             (send (GET (QueryStatus (VStr "q1"))) (asking "深圳到珠海怎么走" (VStr "q1")))
             (send (GET (QueryStatus (VStr "q1"))) (asking "深圳到珠海怎么走" (VStr "q1")))).
    apply ends_returned. }
  split; [exact H |].
  exact (proj2 (fetchQueryResult_always_idle plain_text _ _ _ H)).
Defined.

(** C7 at a start-up whose [/memory] request answers 503. *)
Lemma startup_limited_mode_witness :
  let s := starting_up in
  let s' := handle plain_text (FetchSettled 0 (http 503)) s in
  serverLimitedMode s' = true
  /\ resetMemoryBtn_disabled (page s') = true
  /\ viewMemoryBtn_disabled (page s') = true
  /\ chatContainer (page s')
     = (chatContainer (page s) ++ [SystemWarning "MCP客户端未初始化，部分功能可能不可用"])%list
  /\ (forall es, serverLimitedMode (run plain_text es s') = true).
Proof.
  apply (startup_limited_mode plain_text 0 {| status := 503 |} starting_up);
    [reflexivity | right; reflexivity].
Defined.


(** The page of the next lemma is one the script gets to. *)
Lemma replaced_reached :
  run plain_text second_query_before_timeout (initial blank_page) = replaced.
Proof. vm_compute. reflexivity. Qed.


(** The same timer, left pending, can also run out on the socket of the
    next query: here that socket opened in time, answered and was closed
    by the backend, and the timer of the first socket then reports a
    connect timeout for it. *)
Example timer_of_first_query_hits_second_socket :
  let s := run plain_text timer_of_first_query_runs_out (initial blank_page) in
  option_map connectionTimeout (nth_error (connections s) 1) = Some Cleared
  /\ option_map close_calls (nth_error (connections s) 1) = Some 1%nat
  /\ chatContainer (page s)
     = [UserMessage "深圳到珠海怎么走"; SystemError (ErrText "WebSocket连接错误");
        UserMessage "杭州景点"; AssistantMessage (VStr "西湖、灵隐寺");
        SystemError (ErrText "WebSocket连接超时，请刷新页面重试")].
Proof. vm_compute. repeat split. Qed.

(** C9 at the plan of the specification, in the panel of a fresh page. *)
Lemma plan_item_conversion_witness :
  let s := initial blank_page in
  exists groups items,
    updateMemoryPanel (Some plan_memory) s = (false, set_memoryPanel (PanelGroups groups) s)
    /\ In (Plans items) groups
    /\ nth_error items 0 = Some (PlanItem "深圳-珠海" (Digits "12.3") (Digits "15")).
Proof.
  destruct (plan_item_conversion plan_memory (initial blank_page))
    as (groups & items & U & _ & I & _ & _ & _ & E);
    [vm_compute; reflexivity | discriminate |].
  exists groups, items.
  split; [exact U | split; [exact I | apply (E 0%nat); reflexivity]].
Defined.

(** C9 as the claim has it fails for a duration written with an
    exponent: the field [1e3] is the number 1000, 16 minutes and more,
    and [parseInt] reads 1 of it, so that the panel shows 0 minutes. *)
Lemma duration_with_exponent_shows_no_minute :
  let s := initial blank_page in
  Num.parseFloat "1e3" = Num.of_Z 1000
  /\ Num.to_text (Num.floor (Num.div (Num.of_Z 1000) (Num.of_Z 60))) = Digits "16"
  /\ Num.parseInt "1e3" = Num.of_Z 1
  /\ updateMemoryPanel (Some exponent_memory) s
     = (false,
        set_memoryPanel
          (PanelGroups [Plans [PlanItem "深圳-珠海" (Digits "12.3") (Digits "0")];
                        QueryCount (VNum (Num.of_Z 1))]) s).
Proof. vm_compute. repeat split. Qed.

(** At a tie the binary quotient decides which neighbour is printed:
    150 m is shown as 0.1 km, 250 m as 0.3 km. *)
Example plan_item_ties :
  plan_item "a" {| distance := "150"; duration := "59" |}
  = PlanItem "a" (Digits "0.1") (Digits "0")
  /\ plan_item "b" {| distance := "250"; duration := "60" |}
     = PlanItem "b" (Digits "0.3") (Digits "1").
Proof. vm_compute. split; reflexivity. Qed.

(** ** The round trip *)

(** The model run on the round trip of the specification: the answer is
    in the transcript, the three requests of the fetch have left in
    order, the memory panel is drawn again, and the session is idle. *)
Example round_trip_run :
  let s := run plain_text round_trip (initial blank_page) in
  chatContainer (page s)
  = [UserMessage "深圳到珠海怎么走"; AssistantMessage (VStr "乘船约70分钟")]
  /\ requests s
     = [GET Health; GET Memory; POST Query (Some "深圳到珠海怎么走");
        GET (QueryStatus (VStr "q1")); GET (QueryResult (VStr "q1")); GET Memory]
  /\ memoryPanel (page s) = PanelEmpty
  /\ activeQueryId s = VNull
  /\ processingHidden (page s) = true
  /\ suspensions s = [].
Proof. vm_compute. repeat split. Qed.

(** * The rest of the script *)

(** ** What [update_connection] leaves alone *)

Lemma page_update_connection (k : nat) (f : connection -> connection) (s : state) :
  page (update_connection k f s) = page s.
Proof. unfold update_connection. now destruct (nth_error (connections s) k). Qed.

Lemma activeQueryId_update_connection (k : nat) (f : connection -> connection) (s : state) :
  activeQueryId (update_connection k f s) = activeQueryId s.
Proof. unfold update_connection. now destruct (nth_error (connections s) k). Qed.

Lemma requests_update_connection (k : nat) (f : connection -> connection) (s : state) :
  requests (update_connection k f s) = requests s.
Proof. unfold update_connection. now destruct (nth_error (connections s) k). Qed.

Lemma console_update_connection (k : nat) (f : connection -> connection) (s : state) :
  console (update_connection k f s) = console s.
Proof. unfold update_connection. now destruct (nth_error (connections s) k). Qed.

Lemma suspensions_update_connection (k : nat) (f : connection -> connection) (s : state) :
  suspensions (update_connection k f s) = suspensions s.
Proof. unfold update_connection. now destruct (nth_error (connections s) k). Qed.

Lemma length_update_connection (k : nat) (f : connection -> connection) (s : state) :
  List.length (connections (update_connection k f s)) = List.length (connections s).
Proof.
  unfold update_connection. destruct (nth_error (connections s) k) as [c |] eqn:E;
    [| reflexivity].
  assert (Hk : (k < List.length (connections s))%nat).
  { apply nth_error_Some. now rewrite E. }
  cbn [connections set_connections].
  rewrite length_app, length_firstn. cbn [List.length]. rewrite length_skipn. lia.
Qed.

(** Rewrite with all of them. *)
Ltac untouched :=
  rewrite ?page_update_connection, ?activeQueryId_update_connection,
    ?requests_update_connection, ?console_update_connection,
    ?suspensions_update_connection, ?websocket_update_connection,
    ?limited_update_connection, ?length_update_connection.

(** ** [closeWebSocketConnection] (lines 114 to 127) *)

(** With no socket and no active query id there is nothing to close. *)
Lemma closeWebSocketConnection_idle (s : state) :
  websocket s = None -> truthy (activeQueryId s) = false ->
  closeWebSocketConnection s = s.
Proof.
  intros W T. unfold closeWebSocketConnection. rewrite W. cbv zeta. now rewrite T.
Qed.

Lemma closeWebSocketConnection_fields (s : state) :
  websocket (closeWebSocketConnection s) = None
  /\ truthy (activeQueryId (closeWebSocketConnection s)) = false
  /\ (truthy (activeQueryId s) = false ->
      activeQueryId (closeWebSocketConnection s) = activeQueryId s)
  /\ page (closeWebSocketConnection s) = page s
  /\ requests (closeWebSocketConnection s) = requests s
  /\ suspensions (closeWebSocketConnection s) = suspensions s
  /\ serverLimitedMode (closeWebSocketConnection s) = serverLimitedMode s
  /\ List.length (connections (closeWebSocketConnection s)) = List.length (connections s)
  /\ (forall j, nth_error (connections (closeWebSocketConnection s)) j
                = match websocket s with
                  | Some k =>
                    if (j =? k)%nat
                    then option_map (fun c => close (set_onclose false c))
                                    (nth_error (connections s) j)
                    else nth_error (connections s) j
                  | None => nth_error (connections s) j
                  end).
Proof.
  unfold closeWebSocketConnection.
  set (s1 := match websocket s with Some _ => _ | None => _ end).
  assert (H1 : websocket s1 = None /\ activeQueryId s1 = activeQueryId s
               /\ page s1 = page s /\ requests s1 = requests s
               /\ suspensions s1 = suspensions s
               /\ serverLimitedMode s1 = serverLimitedMode s
               /\ List.length (connections s1) = List.length (connections s)
               /\ (forall j, nth_error (connections s1) j
                    = match websocket s with
                      | Some k =>
                        if (j =? k)%nat
                        then option_map (fun c => close (set_onclose false c))
                                        (nth_error (connections s) j)
                        else nth_error (connections s) j
                      | None => nth_error (connections s) j
                      end)).
  { subst s1. destruct (websocket s) as [k |] eqn:W.
    - unfold seq.
      cbn [websocket activeQueryId page requests suspensions serverLimitedMode
           connections set_websocket].
      untouched. repeat split.
      intros j. rewrite !nth_error_update_connection.
      cbn [connections console_log set_console].
      destruct (j =? k)%nat; [| reflexivity].
      now destruct (nth_error (connections s) j).
    - repeat split. exact W. }
  destruct H1 as (W1 & A1 & P1 & R1 & S1 & L1 & N1 & C1).
  destruct (truthy (activeQueryId s1)) eqn:T.
  - unfold seq.
    cbn [websocket activeQueryId page requests suspensions serverLimitedMode
         connections set_activeQueryId console_log set_console truthy].
    repeat split; trivial.
    intros F. rewrite <- A1, T in F. discriminate.
  - repeat split; trivial.
Qed.

(** [connectWebSocket], whether the constructor throws or not. *)
Lemma connectWebSocket_fields (q : value) (s : state) :
  fst (connectWebSocket q s) = has_fragment q
  /\ page (snd (connectWebSocket q s)) = page s
  /\ requests (snd (connectWebSocket q s)) = requests s
  /\ suspensions (snd (connectWebSocket q s)) = suspensions s
  /\ serverLimitedMode (snd (connectWebSocket q s)) = serverLimitedMode s
  /\ activeQueryId (snd (connectWebSocket q s)) = q
  /\ websocket (snd (connectWebSocket q s))
     = (if has_fragment q then None
        else Some (List.length (connections (closeWebSocketConnection s))))
  /\ connections (snd (connectWebSocket q s))
     = (connections (closeWebSocketConnection s)
        ++ if has_fragment q then []
           else [{| queryId := q; ready := CONNECTING; onclose := true;
                    close_calls := 0; connectionTimeout := Pending |}])%list.
Proof.
  destruct (closeWebSocketConnection_fields s) as (W & _ & _ & P & R & S & L & _ & _).
  unfold connectWebSocket, seq, new_WebSocket.
  destruct (has_fragment q); unfold seq;
    cbn [fst snd page requests suspensions serverLimitedMode activeQueryId websocket
         connections set_websocket set_connections set_activeQueryId console_log
         set_console];
    rewrite ?app_nil_r; repeat split; assumption.
Qed.

(** X1.  After [closeWebSocketConnection] the variable [websocket] is
    [null] and the active query id is not truthy; the page, the requests
    sent and the limited-mode flag are what they were and no socket has
    been made or dropped; and a second call right after changes
    nothing. *)
Theorem closeWebSocketConnection_idempotent (s : state) :
  let s' := closeWebSocketConnection s in
  websocket s' = None
  /\ truthy (activeQueryId s') = false
  /\ page s' = page s
  /\ requests s' = requests s
  /\ serverLimitedMode s' = serverLimitedMode s
  /\ List.length (connections s') = List.length (connections s)
  /\ closeWebSocketConnection s' = s'.
Proof.
  cbv zeta.
  destruct (closeWebSocketConnection_fields s) as (W & T & _ & P & R & _ & L & N & _).
  repeat split; trivial. now apply closeWebSocketConnection_idle.
Qed.

Section Rest.

Variable marked : message -> rendering.


(** ** [connectWebSocket] (lines 130 to 147) *)

(** X3.  [connectWebSocket(queryId)] throws when the text of [queryId]
    holds a [#], which the constructor of line 146 refuses, and only
    then; either way it leaves the active query id [queryId] and the
    page and the requests untouched.  On a page with no socket
    connecting or open but the one in [websocket]: when it does not
    throw it has made one socket, which is the one in [websocket], is
    connecting, for [queryId], with its four handlers and its timer
    running, and no other socket of the page is connecting or open; when
    it throws it has made none, [websocket] is [null] and no socket of
    the page is connecting or open. *)
Theorem connectWebSocket_one_socket (q : value) (s : state) :
  one_live_socket s ->
  let r := connectWebSocket q s in
  let n := List.length (connections s) in
  fst r = has_fragment q
  /\ activeQueryId (snd r) = q
  /\ page (snd r) = page s
  /\ requests (snd r) = requests s
  /\ (has_fragment q = false ->
      websocket (snd r) = Some n
      /\ nth_error (connections (snd r)) n
         = Some {| queryId := q; ready := CONNECTING; onclose := true;
                   close_calls := 0; connectionTimeout := Pending |}
      /\ List.length (connections (snd r)) = S n
      /\ (forall k c, nth_error (connections (snd r)) k = Some c -> live c = true ->
                      k = n))
  /\ (has_fragment q = true ->
      websocket (snd r) = None
      /\ List.length (connections (snd r)) = n
      /\ (forall k c, nth_error (connections (snd r)) k = Some c -> live c = false)).
Proof.
  intros H. cbv zeta.
  pose proof (one_live_connectWebSocket q s H) as L.
  destruct (closeWebSocketConnection_no_live s H) as [NL _].
  destruct (closeWebSocketConnection_fields s) as (_ & _ & _ & _ & _ & _ & _ & N & _).
  destruct (connectWebSocket_fields q s) as (F & P & R & _ & _ & A & W & C).
  repeat split; trivial.
  - rewrite W, H0. now rewrite N.
  - rewrite C, H0. rewrite nth_error_app2 by lia. now rewrite N, Nat.sub_diag.
  - rewrite C, H0, length_app, N. cbn [List.length]. lia.
  - intros k c Hk Lc. specialize (L k c Hk Lc). rewrite W, H0, N in L. now injection L.
  - now rewrite W, H0.
  - now rewrite C, H0, app_nil_r.
  - intros k c Hk. rewrite C, H0, app_nil_r in Hk. exact (NL k c Hk).
Qed.

(** ** [sendMessage] (lines 66 to 111) *)

Lemma sendMessage_passes (s : state) :
  trim (messageInput (page s)) <> "" ->
  truthy (activeQueryId s) = false ->
  sendMessage s
  = (closeWebSocketConnection ;;
     addMessage (UserMessage (trim (messageInput (page s)))) ;;
     set_messageInput "" ;;
     showProcessingStatus true ;;
     await_fetch (POST Query (Some (trim (messageInput (page s))))) Send_query) s.
Proof.
  intros Hq Ha. unfold sendMessage. rewrite Ha. cbn [truthy].
  destruct (String.eqb_spec (trim (messageInput (page s))) ""); [contradiction |].
  reflexivity.
Qed.


(** A click on the send button that gets past line 68. *)
Lemma click_send_accepted (s : state) :
  listeners (page s) = true ->
  trim (messageInput (page s)) <> "" ->
  truthy (activeQueryId s) = false ->
  let query := trim (messageInput (page s)) in
  let s' := handle marked ClickSend s in
  requests s' = (requests s ++ [POST Query (Some query)])%list
  /\ suspensions s' = (suspensions s ++ [AwaitFetch Send_query])%list
  /\ chatContainer (page s') = (chatContainer (page s) ++ [UserMessage query])%list
  /\ messageInput (page s') = ""
  /\ listeners (page s') = true
  /\ activeQueryId s' = activeQueryId s.
Proof.
  intros Hl Hq Ha. cbv zeta. unfold handle. rewrite Hl. unfold call.
  rewrite (sendMessage_passes s Hq Ha).
  destruct (closeWebSocketConnection_fields s) as (_ & _ & A & P & R & S & _ & _ & _).
  unfold seq, await_fetch.
  cbn [fst snd requests page chatContainer messageInput processingHidden websocket
       activeQueryId suspensions listeners set_suspensions
       send set_requests showProcessingStatus set_processingHidden
       set_messageInput addMessage set_chatContainer set_page negb].
  rewrite P, R, S, (A Ha), Hl. repeat split.
Qed.

(** X5.  Between the POST of a query and its acknowledgement the active
    query id is still not set, so line 68 does not hold back a second
    text: when the user sends a text, types another and sends it, both
    are posted to [/query], both calls of [sendMessage] wait for their
    answers, and both texts stand in the transcript. *)
Theorem second_query_before_acknowledgement (text : string) (s : state) :
  listeners (page s) = true ->
  trim (messageInput (page s)) <> "" ->
  truthy (activeQueryId s) = false ->
  trim text <> "" ->
  let first := trim (messageInput (page s)) in
  let s' := run marked [ClickSend; Input text; ClickSend] s in
  requests s'
  = (requests s ++ [POST Query (Some first); POST Query (Some (trim text))])%list
  /\ suspensions s'
     = (suspensions s ++ [AwaitFetch Send_query; AwaitFetch Send_query])%list
  /\ chatContainer (page s')
     = (chatContainer (page s) ++ [UserMessage first; UserMessage (trim text)])%list
  /\ activeQueryId s' = activeQueryId s.
Proof.
  intros Hl Hq Ha Ht. cbv zeta.
  destruct (click_send_accepted s Hl Hq Ha) as (R1 & S1 & C1 & _ & L1 & A1).
  set (s1 := handle marked ClickSend s) in *.
  change (run marked [ClickSend; Input text; ClickSend] s)
    with (handle marked ClickSend (set_messageInput text s1)).
  destruct (click_send_accepted (set_messageInput text s1)) as (R2 & S2 & C2 & _ & _ & A2).
  - exact L1.
  - exact Ht.
  - cbn [activeQueryId set_messageInput set_page]. now rewrite A1.
  - cbn [page messageInput set_messageInput set_page] in R2, C2.
    rewrite R2, S2, C2, A2.
    cbn [requests suspensions activeQueryId page chatContainer set_messageInput set_page].
    rewrite R1, S1, C1, A1, <- !app_assoc. repeat split.
Qed.

(** One step of a run: open the call where it stands. *)
Ltac step_call :=
  match goal with
  | H : ends _ (None, _) _ |- _ => inversion H; subst; clear H
  | H : ends _ (Some _, _) _ |- _ => inversion H; subst; clear H
  | H : ends _ (resume_fetch _ ?o _) _ |- _ =>
    destruct o; cbv beta iota delta [resume_fetch finish await_json await_fetch] in H
  | H : ends _ (resume_json _ _ ?o _) _ |- _ =>
    destruct o as [[? |] |];
    cbv beta iota zeta delta [resume_json finish await_json await_fetch] in H
  | H : ends _ ((if ?b then _ else _) _) _ |- _ => destruct b eqn:?
  | H : ends _ (if ?b then _ else _) _ |- _ => destruct b eqn:?
  | H : ends _ (seq _ _ _) _ |- _ => unfold seq at 1 in H
  | H : ends _ (finish _ _) _ |- _ => unfold finish in H
  | H : ends _ (let (_, _) := updateMemoryPanel ?m _ in _) _ |- _ =>
    destruct m; cbv beta iota delta [updateMemoryPanel finish] in H
  | H : ends _ (await_json _ _) _ |- _ => unfold await_json in H
  | H : ends _ (await_fetch _ _ _) _ |- _ => unfold await_fetch in H
  end.

(** X6.  When the POST of [sendMessage] is rejected or is answered with
    a status that is not ok, the call ends after one more [await] at
    most, and whatever ran while it waited it leaves the processing
    indicator hidden and a system message as the last of the transcript.
    Nothing [sendMessage] does after its POST, but for the acknowledged
    query, touches the active query id or a socket. *)
Theorem sendMessage_failure (o : outcome response) (s s' : state) :
  (forall r, o = Fulfilled r -> ok r = false) ->
  ends marked (resume_fetch Send_query o s) s' ->
  awaits_at_most marked 1 (resume_fetch Send_query o s)
  /\ processingHidden (page s') = true
  /\ (exists t m, chatContainer (page s') = (t ++ [m])%list /\ role_of m = system)
  /\ (forall o1 s1, same_query s1 (snd (resume_fetch Send_query o1 s1)))
  /\ (forall o2 s2, same_query s2 (snd (resume_json marked Send_error_json o2 s2)))
  /\ (forall s2, same_query s2 (snd (resume_json marked Send_json Rejected s2)))
  /\ (forall s2, same_query s2 (snd (resume_json marked Send_json (Fulfilled None) s2))).
Proof.
  intros Ho H. repeat split.
  - destruct o as [r |]; [| exact I]. cbn [resume_fetch]. rewrite (Ho r eq_refl).
    destruct (status r =? 503); [exact I |].
    intros [[d |] |] s1; exact I.
  - destruct o as [r |]; cbn [resume_fetch] in H; [rewrite (Ho r eq_refl) in H |];
      repeat step_call; reflexivity.
  - destruct o as [r |]; cbn [resume_fetch] in H; [rewrite (Ho r eq_refl) in H |];
      repeat step_call; eexists _, _; split; reflexivity.
  - destruct o1 as [r |]; cbn [resume_fetch]; [| reflexivity].
    destruct (ok r); [reflexivity |]. destruct (status r =? 503); reflexivity.
  - destruct o1 as [r |]; cbn [resume_fetch]; [| reflexivity].
    destruct (ok r); [reflexivity |]. destruct (status r =? 503); reflexivity.
  - destruct o1 as [r |]; cbn [resume_fetch]; [| reflexivity].
    destruct (ok r); [reflexivity |]. destruct (status r =? 503); reflexivity.
  - now destruct o2 as [[d |] |].
  - now destruct o2 as [[d |] |].
  - now destruct o2 as [[d |] |].
Qed.

(** X7.  What the user is told when the POST of [sendMessage] fails.  A
    503 is no error: the page goes to limited mode, with the warning in
    the status panel and in the transcript and the two memory buttons
    disabled.  Any other status that is not ok shows [detail] of the
    body after the words for a failed query, or the words for an unknown
    error when [detail] is missing or empty, and leaves the limited-mode
    flag alone.  A body that cannot be read, and the body [null], are
    reported as a server that cannot be reached, like a rejected
    request. *)
Theorem sendMessage_failure_messages (r : response) (s : state) :
  ok r = false ->
  (status r = 503 ->
   let c := resume_fetch Send_query (Fulfilled r) s in
   fst c = None
   /\ serverLimitedMode (snd c) = true
   /\ statusPanel (page (snd c)) = StatusWarning "服务未完全初始化，请重启服务器后再试"
   /\ chatContainer (page (snd c))
      = (chatContainer (page s) ++ [SystemWarning "服务未完全初始化，请重启服务器后再试"])%list
   /\ resetMemoryBtn_disabled (page (snd c)) = true
   /\ viewMemoryBtn_disabled (page (snd c)) = true
   /\ memoryPanel (page (snd c)) = PanelUnavailable
   /\ processingHidden (page (snd c)) = true)
  /\ (status r <> 503 ->
      resume_fetch Send_query (Fulfilled r) s = (Some (AwaitJson Send_error_json), s)
      /\ (forall d s1,
           let c := resume_json marked Send_error_json (Fulfilled (Some d)) s1 in
           fst c = None
           /\ chatContainer (page (snd c))
              = (chatContainer (page s1)
                 ++ [SystemError (ErrQueryFailed
                       (if truthy (detail d) then detail d else VStr "未知错误"))])%list
           /\ serverLimitedMode (snd c) = serverLimitedMode s1
           /\ processingHidden (page (snd c)) = true)
      /\ (forall s1,
           snd (resume_json marked Send_error_json Rejected s1)
           = snd (resume_fetch Send_query Rejected s1)
           /\ snd (resume_json marked Send_error_json (Fulfilled None) s1)
              = snd (resume_fetch Send_query Rejected s1)
           /\ chatContainer (page (snd (resume_fetch Send_query Rejected s1)))
              = (chatContainer (page s1)
                 ++ [SystemError (ErrText "无法连接到服务器，请检查服务是否正常运行")])%list)).
Proof.
  intros Hok. split.
  - intros E. cbv zeta. unfold resume_fetch. rewrite Hok, E. repeat split.
  - intros E. unfold resume_fetch. rewrite Hok.
    destruct (Z.eqb_spec (status r) 503); [contradiction |].
    repeat split.
Qed.

(** ** The start-up (lines 21 to 63) *)

(** X8.  The start-up handler always gets to its four
    [addEventListener] calls: it ends after three [await]s at most, and
    whichever way the health check and the memory check go, and whatever
    ran while it waited, the listeners are there when it ends. *)
Theorem startup_attaches_listeners (s s' : state) :
  ends marked (startup s) s' ->
  awaits_at_most marked 3 (startup s)
  /\ listeners (page s') = true.
Proof.
  intros H. split.
  - cbn. intros [r |] s1; [destruct (ok r) eqn:Hok |]; cbn; rewrite ?Hok; cbn; trivial.
    intros [r2 |] s2; cbn; trivial.
    destruct ((status r2 =? 500) || (status r2 =? 503)); cbn; trivial.
    destruct (ok r2); cbn; trivial.
    intros [[d |] |] s3; cbn; trivial.
    now destruct (updateMemoryPanel (body_memory d) s3) as [[] s4].
  - unfold startup, await_fetch in H.
    repeat step_call; reflexivity.
Qed.

(** X9.  When the health check fails, by a rejected request or by a
    status that is not ok, the start-up shows one error, does not ask
    for [/memory], and does not go to limited mode: the flag and the two
    memory buttons stay as they were. *)
Theorem startup_health_failure (o : outcome response) (s : state) :
  (forall r, o = Fulfilled r -> ok r = false) ->
  let c := resume_fetch Startup_health o s in
  fst c = None
  /\ chatContainer (page (snd c))
     = (chatContainer (page s)
        ++ [SystemError (ErrText match o with
                                 | Rejected => "无法连接到服务器"
                                 | Fulfilled _ => "API服务不可用"
                                 end)])%list
  /\ requests (snd c) = requests s
  /\ serverLimitedMode (snd c) = serverLimitedMode s
  /\ resetMemoryBtn_disabled (page (snd c)) = resetMemoryBtn_disabled (page s)
  /\ viewMemoryBtn_disabled (page (snd c)) = viewMemoryBtn_disabled (page s)
  /\ memoryPanel (page (snd c)) = memoryPanel (page s)
  /\ listeners (page (snd c)) = true.
Proof.
  intros Ho. cbv zeta. destruct o as [r |]; cbn [resume_fetch].
  - rewrite (Ho r eq_refl). repeat split.
  - repeat split.
Qed.

(** X10.  The answers to the [/memory] request of the start-up other
    than 500 and 503.  A status that is not ok either (a 404, say) is
    passed over in silence: the listeners are attached and nothing else
    changes.  An ok answer whose body has a [memory] draws it in the
    panel and leaves the flag alone.  A rejected request, a body that
    cannot be read, the body [null] and a body without [memory] all end
    in limited mode, with the warning of the inner [catch]. *)
Theorem startup_memory_answers (r : response) (s : state) :
  (status r =? 500) || (status r =? 503) = false ->
  (ok r = false -> resume_fetch Startup_memory (Fulfilled r) s = (None, addEventListeners s))
  /\ (ok r = true ->
      resume_fetch Startup_memory (Fulfilled r) s = (Some (AwaitJson Startup_memory_json), s)
      /\ (forall d m s1,
           body_memory d = Some m ->
           resume_json marked Startup_memory_json (Fulfilled (Some d)) s1
           = (None, addEventListeners (set_memoryPanel (memory_view m) s1)))
      /\ (forall o s1,
           (forall d, o = Fulfilled (Some d) -> body_memory d = None) ->
           let c := resume_json marked Startup_memory_json o s1 in
           fst c = None
           /\ serverLimitedMode (snd c) = true
           /\ chatContainer (page (snd c))
              = (chatContainer (page s1) ++ [SystemWarning "记忆服务不可用，部分功能受限"])%list
           /\ memoryPanel (page (snd c)) = PanelUnavailable
           /\ resetMemoryBtn_disabled (page (snd c)) = true
           /\ viewMemoryBtn_disabled (page (snd c)) = true
           /\ listeners (page (snd c)) = true))
  /\ (let c := resume_fetch Startup_memory Rejected s in
      fst c = None
      /\ serverLimitedMode (snd c) = true
      /\ chatContainer (page (snd c))
         = (chatContainer (page s) ++ [SystemWarning "记忆服务不可用，部分功能受限"])%list
      /\ listeners (page (snd c)) = true).
Proof.
  intros E. repeat split.
  - intros Hok. unfold resume_fetch. now rewrite E, Hok.
  - unfold resume_fetch. now rewrite E, H.
  - intros d m s1 Hm. unfold resume_json. now rewrite Hm.
  - destruct o as [[d |] |]; cbn [resume_json]; [rewrite (H0 d eq_refl) | |]; reflexivity.
  - destruct o as [[d |] |]; cbn [resume_json]; [rewrite (H0 d eq_refl) | |]; reflexivity.
  - destruct o as [[d |] |]; cbn [resume_json]; [rewrite (H0 d eq_refl) | |]; reflexivity.
  - destruct o as [[d |] |]; cbn [resume_json]; [rewrite (H0 d eq_refl) | |]; reflexivity.
  - destruct o as [[d |] |]; cbn [resume_json]; [rewrite (H0 d eq_refl) | |]; reflexivity.
  - destruct o as [[d |] |]; cbn [resume_json]; [rewrite (H0 d eq_refl) | |]; reflexivity.
  - destruct o as [[d |] |]; cbn [resume_json]; [rewrite (H0 d eq_refl) | |]; reflexivity.
Qed.

(** ** The memory functions (lines 267 to 319) *)

(** X11.  [fetchMemory] fails in silence.  It ends after two [await]s
    at most; a rejected request, a status that is not ok, a body that
    cannot be read and the body [null] leave the whole page as it was,
    a body without [memory] leaves the panel emptied, and a body with
    [memory] draws it.  Whichever it is, nothing is added to the transcript, and the
    active query id, the sockets, the processing indicator and the
    limited-mode flag are not touched. *)
Theorem fetchMemory_is_silent :
  (forall s, awaits_at_most marked 2 (fetchMemory s))
  /\ (forall o s,
      let c := resume_fetch Memory_get o s in
      same_query s (snd c)
      /\ page (snd c) = page s
      /\ serverLimitedMode (snd c) = serverLimitedMode s
      /\ requests (snd c) = requests s)
  /\ (forall o s,
      let c := resume_json marked Memory_json o s in
      fst c = None
      /\ same_query s (snd c)
      /\ chatContainer (page (snd c)) = chatContainer (page s)
      /\ processingHidden (page (snd c)) = processingHidden (page s)
      /\ serverLimitedMode (snd c) = serverLimitedMode s
      /\ requests (snd c) = requests s
      /\ memoryPanel (page (snd c))
         = match o with
           | Fulfilled (Some d) =>
             match body_memory d with
             | Some m => memory_view m
             | None => PanelCleared
             end
           | _ => memoryPanel (page s)
           end).
Proof.
  split; [| split].
  - intros s. cbn. intros [r |] s1; [destruct (ok r) eqn:Hok |]; cbn; rewrite ?Hok; cbn;
      trivial.
    intros [[d |] |] s2; cbn; trivial.
    now destruct (updateMemoryPanel (body_memory d) s2) as [[] s3].
  - intros [r |] s; cbn [resume_fetch]; [destruct (ok r) |]; repeat split.
  - intros [[d |] |] s; cbn [resume_json]; [destruct (body_memory d) | |]; repeat split.
Qed.

(** X12.  [resetMemory] does nothing when the user declines the
    question: no request leaves.  After the POST, an ok answer writes the
    reset notice in the memory panel and adds one system message; any
    other outcome leaves the memory panel as it was and adds one error,
    with [detail] of the body when there is one to read.  No outcome
    removes a message from the transcript, and none touches the active
    query id, the sockets, the processing indicator or the limited-mode
    flag. *)
Theorem resetMemory_outcomes :
  (forall s, resetMemory false s = (None, s))
  /\ (forall confirmed s, awaits_at_most marked 2 (resetMemory confirmed s))
  /\ (forall o s,
      let c := resume_fetch Reset_post o s in
      same_query s (snd c)
      /\ serverLimitedMode (snd c) = serverLimitedMode s
      /\ processingHidden (page (snd c)) = processingHidden (page s)
      /\ requests (snd c) = requests s
      /\ memoryPanel (page (snd c))
         = match o with
           | Fulfilled r => if ok r then PanelReset else memoryPanel (page s)
           | Rejected => memoryPanel (page s)
           end
      /\ chatContainer (page (snd c))
         = (chatContainer (page s)
            ++ match o with
               | Fulfilled r => if ok r then [SystemText "系统记忆已重置"] else []
               | Rejected => [SystemError (ErrText "重置记忆时出错")]
               end)%list)
  /\ (forall o s,
      let c := resume_json marked Reset_error_json o s in
      fst c = None
      /\ same_query s (snd c)
      /\ serverLimitedMode (snd c) = serverLimitedMode s
      /\ processingHidden (page (snd c)) = processingHidden (page s)
      /\ memoryPanel (page (snd c)) = memoryPanel (page s)
      /\ chatContainer (page (snd c))
         = (chatContainer (page s)
            ++ [SystemError match o with
                            | Fulfilled (Some d) => ErrResetFailed (detail d)
                            | _ => ErrText "重置记忆时出错"
                            end])%list).
Proof.
  split; [| split; [| split]].
  - reflexivity.
  - intros [|] s; cbn; trivial.
    intros [r |] s1; [destruct (ok r) eqn:Hok |]; cbn; rewrite ?Hok; cbn; trivial.
    intros [[d |] |] s2; cbn; trivial.
  - intros [r |] s; cbn [resume_fetch]; [destruct (ok r) |]; cbn; rewrite ?app_nil_r;
      repeat split.
  - intros [[d |] |] s; cbn [resume_json]; repeat split.
Qed.

(** X13.  [viewFullMemory] ends after two [await]s at most.  An answer
    that is not ok is passed over in silence; an ok answer with a body
    fills the dialog with [memory] of the body and shows it; only a
    rejected request, a body that cannot be read or the body [null]
    adds an error.  The
    memory panel, the limited-mode flag, the active query id and the
    sockets are never touched. *)
Theorem viewFullMemory_outcomes :
  (forall s, awaits_at_most marked 2 (viewFullMemory s))
  /\ (forall o s,
      let c := resume_fetch View_get o s in
      same_query s (snd c)
      /\ serverLimitedMode (snd c) = serverLimitedMode s
      /\ memoryPanel (page (snd c)) = memoryPanel (page s)
      /\ memoryModal_shown (page (snd c)) = memoryModal_shown (page s)
      /\ memoryContent (page (snd c)) = memoryContent (page s)
      /\ chatContainer (page (snd c))
         = (chatContainer (page s)
            ++ match o with
               | Fulfilled _ => []
               | Rejected => [SystemError (ErrText "获取完整记忆时出错")]
               end)%list)
  /\ (forall o s,
      let c := resume_json marked View_json o s in
      fst c = None
      /\ same_query s (snd c)
      /\ serverLimitedMode (snd c) = serverLimitedMode s
      /\ memoryPanel (page (snd c)) = memoryPanel (page s)
      /\ memoryModal_shown (page (snd c))
         = match o with
           | Fulfilled (Some _) => true
           | _ => memoryModal_shown (page s)
           end
      /\ memoryContent (page (snd c))
         = match o with
           | Fulfilled (Some d) => Some (body_memory d)
           | _ => memoryContent (page s)
           end
      /\ chatContainer (page (snd c))
         = (chatContainer (page s)
            ++ match o with
               | Fulfilled (Some _) => []
               | _ => [SystemError (ErrText "获取完整记忆时出错")]
               end)%list).
Proof.
  split; [| split].
  - intros s. cbn. intros [r |] s1; [destruct (ok r) eqn:Hok |]; cbn; rewrite ?Hok; cbn;
      trivial.
    intros [[d |] |] s2; cbn; trivial.
  - intros [r |] s; cbn [resume_fetch]; [destruct (ok r) |]; cbn; rewrite ?app_nil_r;
      repeat split.
  - intros [[d |] |] s; cbn [resume_json]; cbn; rewrite ?app_nil_r; repeat split.
Qed.

(** ** [getLastUserMessage] (lines 256 to 264) *)

(** X16.  [getLastUserMessage] returns the trimmed text of the last
    element the selector of line 257 finds.  That is the text the page
    shows of the last user message when the content of that message
    brings no element of class [message-content] and no message after
    it brings the markup of a user message: the plain messages of the
    assistant and of the system that follow it, errors and warnings too,
    do not hide it, and what stands before it does not count.  A message
    of the assistant or of the system that brings the markup does hide
    it: once it is added, the text returned is the text of the last
    element of its markup. *)
Theorem getLastUserMessage_last (before after : list message) (content : string)
    (s : state) :
  chatContainer (page s) = (before ++ UserMessage content :: after)%list ->
  message_contents (marked (UserMessage content)) = [] ->
  (forall m, In m after ->
             role_of m <> user /\ user_message_contents (marked m) = []) ->
  getLastUserMessage marked s
  = VStr (trim (textContent (marked (UserMessage content))))
  /\ (forall m l t,
        role_of m <> user ->
        user_message_contents (marked m) = (l ++ [t])%list ->
        getLastUserMessage marked (addMessage m s) = VStr (trim t)).
Proof.
  intros E Hc H. split.
  - apply (getLastUserMessage_last_selected marked (flat_map (selected marked) before)).
    apply (userMessages_last_user marked before after); trivial.
    intros m Hm. destruct (H m Hm) as [R C].
    unfold selected. destruct (role_of m); [now elim R | exact C | exact C].
  - intros m l t R C.
    apply (getLastUserMessage_last_selected marked
             (flat_map (selected marked) (chatContainer (page s)) ++ l)).
    unfold userMessages, addMessage.
    cbn [page chatContainer set_chatContainer set_page].
    rewrite flat_map_app. cbn [flat_map]. rewrite app_nil_r, <- app_assoc. f_equal.
    unfold selected. destruct (role_of m); [now elim R | exact C | exact C].
Qed.

(** ** The message handler: progress (lines 181 to 191) *)

(** X17.  A message for the active query that carries no error, is not
    ["failed"] and is not ["completed"] with a result only changes the
    text of the processing indicator: the text of its status for
    ["queued"], ["processing"] and ["completed"], the default text for
    any other status.  The transcript, the indicator itself, the active
    query id, the requests and the suspended calls stay as they were. *)
Theorem onmessage_progress (q : value) (data : wsdata) (s : state) :
  truthy (ws_error data) = false ->
  strict_eq (ws_query_id data) (activeQueryId s) = true ->
  strict_eq (ws_status data) (VStr "completed") && truthy (ws_result data) = false ->
  strict_eq (ws_status data) (VStr "failed") = false ->
  let s' := ws_onmessage q (Parsed data) s in
  s' = updateProcessingText (ws_status data) s
  /\ processingText (page s')
     = (if strict_eq (ws_status data) (VStr "queued") then "查询已排队，等待处理..."
        else if strict_eq (ws_status data) (VStr "processing")
             then "正在分析并处理您的问题..."
        else if strict_eq (ws_status data) (VStr "completed") then "处理完成，获取结果..."
        else "正在处理您的问题...")
  /\ chatContainer (page s') = chatContainer (page s)
  /\ processingHidden (page s') = processingHidden (page s)
  /\ activeQueryId s' = activeQueryId s
  /\ requests s' = requests s
  /\ suspensions s' = suspensions s.
Proof.
  intros Herr Hid Hc Hf. cbv zeta.
  assert (E : ws_onmessage q (Parsed data) s = updateProcessingText (ws_status data) s).
  { unfold ws_onmessage. rewrite Herr, Hid. cbn [negb]. unfold seq. now rewrite Hc, Hf. }
  rewrite E. unfold updateProcessingText. rewrite Hf. repeat split.
Qed.

(** ** The connect timeout, whichever socket it was set for *)

(** X19.  The callback of a timer looks at the socket in [websocket],
    not at the socket the timer was set for.  When the timer of any
    socket runs out while the socket in [websocket] is not open, that
    socket is closed, [websocket] and the active query id are set to
    [null], the timeout error is shown and the processing indicator is
    hidden; when the socket in [websocket] is open, the page and the
    variables stay as they were. *)
Theorem timeout_acts_on_current_socket (j k : nat) (cj ck : connection) (s : state) :
  nth_error (connections s) j = Some cj ->
  connectionTimeout cj = Pending ->
  websocket s = Some k ->
  nth_error (connections s) k = Some ck ->
  let s' := handle marked (TimedOut j) s in
  (ready ck <> OPEN ->
   chatContainer (page s')
   = (chatContainer (page s) ++ [SystemError (ErrText "WebSocket连接超时，请刷新页面重试")])%list
   /\ option_map close_calls (nth_error (connections s') k) = Some (S (close_calls ck))
   /\ option_map live (nth_error (connections s') k) = Some false
   /\ websocket s' = None
   /\ activeQueryId s' = VNull
   /\ processingHidden (page s') = true)
  /\ (ready ck = OPEN ->
      page s' = page s
      /\ websocket s' = Some k
      /\ activeQueryId s' = activeQueryId s
      /\ option_map ready (nth_error (connections s') k) = Some OPEN
      /\ option_map close_calls (nth_error (connections s') k) = Some (close_calls ck)).
Proof.
  intros Hj Ht Hw Hk. cbv zeta.
  set (s0 := update_connection j (set_timer Fired) s).
  assert (Hk0 : exists c0, nth_error (connections s0) k = Some c0
                           /\ ready c0 = ready ck /\ close_calls c0 = close_calls ck).
  { subst s0. rewrite nth_error_update_connection, Hk.
    destruct (k =? j)%nat; cbn [option_map]; eexists; repeat split. }
  destruct Hk0 as (c0 & Hk0 & R0 & C0).
  assert (W0 : websocket s0 = Some k) by (subst s0; now untouched).
  assert (E : handle marked (TimedOut j) s = connectionTimeout_callback s0).
  { unfold handle. now rewrite Hj, Ht. }
  rewrite E. unfold connectionTimeout_callback, ready_of. rewrite W0, Hk0.
  cbn [option_map]. rewrite R0. split.
  - intros Hr.
    assert (G : (match ready ck with
                 | OPEN => s0
                 | _ => (console_log "WebSocket连接超时" ;;
                         update_connection k close ;;
                         set_websocket None ;;
                         showError (ErrText "WebSocket连接超时，请刷新页面重试") ;;
                         showProcessingStatus false ;;
                         set_activeQueryId VNull) s0
                 end)
                = (console_log "WebSocket连接超时" ;;
                   update_connection k close ;;
                   set_websocket None ;;
                   showError (ErrText "WebSocket连接超时，请刷新页面重试") ;;
                   showProcessingStatus false ;;
                   set_activeQueryId VNull) s0).
    { destruct (ready ck); try reflexivity. now elim Hr. }
    rewrite G. unfold seq.
    cbn [page chatContainer processingHidden websocket activeQueryId connections
         set_activeQueryId showProcessingStatus set_processingHidden showError
         addMessage set_chatContainer set_page set_websocket negb].
    untouched.
    assert (N : nth_error
                  (connections (update_connection k close (console_log "WebSocket连接超时" s0)))
                  k = Some (close c0)) by now apply nth_error_updated.
    rewrite N. cbn [option_map close close_calls].
    rewrite closed_is_not_live, C0. subst s0.
    cbn [page console_log set_console]. untouched. repeat split.
  - intros Hr. rewrite Hr, Hk0. cbn [option_map]. subst s0. untouched.
    rewrite R0, C0, Hr. repeat split. exact Hw.
Qed.

End Rest.

(** ** [updateMemoryPanel]: the groups (lines 385 to 457) *)

(** X14.  For a memory that counts a query the panel holds the groups
    in the order locations, points of interest, plans, and the query
    count as its last child.  A collection that is empty has no group,
    so no group is without an item; a collection with entries has its
    group; the locations and the plans have one item for each entry, and
    the points of interest one for each of the first three: never more
    than three. *)
Theorem memory_view_groups (m : memory) :
  strict_eq (query_count m) (VNum (S754_zero false)) = false ->
  exists groups,
    memory_view m = PanelGroups (groups ++ [QueryCount (query_count m)])%list
    /\ groups = (location_group m ++ poi_group m ++ plan_group m)%list
    /\ (forall g, In g groups ->
         match g with
         | Locations l =>
           l <> [] /\ List.length l = List.length (current_locations m)
         | Pois l =>
           l <> [] /\ List.length l = Nat.min 3 (List.length (current_pois m))
         | Plans l =>
           l <> [] /\ List.length l = List.length (current_plans m)
         | QueryCount _ => False
         end)
    /\ (current_locations m <> [] -> exists l, In (Locations l) groups)
    /\ (current_pois m <> [] -> exists l, In (Pois l) groups)
    /\ (current_plans m <> [] -> exists l, In (Plans l) groups).
Proof.
  intros Hq. exists (location_group m ++ poi_group m ++ plan_group m)%list.
  split; [| split; [reflexivity |]].
  { unfold memory_view. rewrite Hq. now rewrite <- !app_assoc. }
  unfold location_group, poi_group, plan_group. repeat split.
  - intros g Hg. apply in_app_or in Hg as [Hg | Hg]; [| apply in_app_or in Hg as [Hg | Hg]].
    + destruct (current_locations m) as [| e l]; [contradiction |].
      destruct Hg as [<- | []]. split; [discriminate | apply length_map].
    + destruct (current_pois m) as [| e l]; [contradiction |].
      destruct Hg as [<- | []]. split; [discriminate |].
      now rewrite length_map, length_firstn.
    + destruct (current_plans m) as [| e l]; [contradiction |].
      destruct Hg as [<- | []]. split; [discriminate | apply length_map].
  - intros H. destruct (current_locations m) as [| e l]; [now elim H |].
    eexists. apply in_or_app. left. now left.
  - intros H. destruct (current_pois m) as [| e l]; [now elim H |].
    eexists. apply in_or_app. right. apply in_or_app. left. now left.
  - intros H. destruct (current_plans m) as [| e l]; [now elim H |].
    eexists. apply in_or_app. right. apply in_or_app. right. now left.
Qed.

(** ** Plans whose fields are no numbers (lines 443 to 445) *)

Lemma parse_no_number (s : string) :
  starts_no_number s = true ->
  Num.parseFloat s = S754_nan /\ Num.parseInt s = S754_nan.
Proof.
  unfold starts_no_number, Num.parseFloat, Num.parseInt.
  destruct (dropStart (codes s)) as [| c r]; [intros _; split; reflexivity |].
  intros H. apply negb_true_iff in H.
  apply orb_false_elim in H as [H HI]. apply orb_false_elim in H as [H Hp].
  apply orb_false_elim in H as [H Hm]. apply orb_false_elim in H as [Hd Hplus].
  unfold Num.sign_of. rewrite Hplus, Hm.
  unfold Num.unsigned_literal, Num.unsigned_integer, Num.unsigned_decimal.
  cbn [Num.span_digits]. rewrite Hd. cbn [Num.after_point fst]. rewrite Hp.
  assert (S : Num.starts_with (codes "Infinity") (c :: r) = false).
  { change (codes "Infinity") with (73 :: codes "nfinity")%nat.
    cbn [Num.starts_with]. rewrite Nat.eqb_sym, HI. reflexivity. }
  rewrite S.
  assert (X : Num.after_0x (c :: r) = None).
  { unfold Num.after_0x. destruct r as [| b r']; [reflexivity |].
    assert (Z0 : (c =? 48)%nat = false).
    { unfold Num.is_digit in Hd. destruct (Nat.eqb_spec c 48); [subst c; discriminate |].
      reflexivity. }
    now rewrite Z0. }
  rewrite X. split; reflexivity.
Qed.

(** X18.  The fields of a plan are not checked.  When [distance] and
    [duration], after their leading white space, are over or start with
    a byte that starts no number, [parseFloat] and [parseInt] give
    [NaN], and the item is shown with [NaN] for the kilometres and for
    the minutes. *)
Theorem plan_item_not_a_number (route : string) (info : plan) :
  starts_no_number (distance info) = true ->
  starts_no_number (duration info) = true ->
  plan_item route info = PlanItem route (Digits "NaN") (Digits "NaN").
Proof.
  intros Hd Ht. unfold plan_item.
  destruct (parse_no_number _ Hd) as [-> _].
  destruct (parse_no_number _ Ht) as [_ ->].
  reflexivity.
Qed.

(** * What every task keeps, function by function *)

Create HintDb kept.

#[local] Hint Resolve stable_skip stable_seq stable_then stable_finish
  stable_if stable_async_if : kept.

Ltac as_kept P :=
  match goal with
  | |- forall s, P s -> P (snd (?a s)) => change (keeps_async P a)
  | |- forall s, P s -> P (?f s) => change (keeps P f)
  end.

Section Invariants.

Variable marked : message -> rendering.

(** A property kept by the functions that write to the page and to the
    sockets, each taken as a whole, is kept by every task.  The active
    query id is written in two ways only: it is set to [null], or it is
    set to the acknowledged id with [connectWebSocket] called at once
    (lines 90 to 93). *)
Section Kept.

Variable P : state -> Prop.

Hypothesis K_reset : keeps P (set_activeQueryId VNull).
Hypothesis K_acknowledged :
  forall v s, P s -> P (snd (connectWebSocket v (set_activeQueryId v s))).
Hypothesis K_suspensions : forall l, keeps P (set_suspensions l).
Hypothesis K_send : forall r, keeps P (send r).
Hypothesis K_console_log : forall m, keeps P (console_log m).
Hypothesis K_messageInput : forall v, keeps P (set_messageInput v).
Hypothesis K_addMessage : forall m, keeps P (addMessage m).
Hypothesis K_showProcessingStatus : forall b, keeps P (showProcessingStatus b).
Hypothesis K_updateProcessingText : forall v, keeps P (updateProcessingText v).
Hypothesis K_memoryPanel : forall p, keeps P (set_memoryPanel p).
Hypothesis K_memoryModal : forall c, keeps P (show_memoryModal c).
Hypothesis K_addEventListeners : keeps P addEventListeners.
Hypothesis K_handleLimitedMode : forall m, keeps P (handleLimitedMode m).
Hypothesis K_closeWebSocketConnection : keeps P closeWebSocketConnection.
Hypothesis K_connectionTimeout_callback : keeps P connectionTimeout_callback.
Hypothesis K_clearTimeout : forall k, keeps P (update_connection k clearTimeout).
Hypothesis K_opened :
  forall k s, ready_of s k = Some CONNECTING -> P s ->
              P (update_connection k (set_ready OPEN) s).
Hypothesis K_closed : forall k, keeps P (update_connection k (set_ready CLOSED)).
Hypothesis K_fired : forall k, keeps P (update_connection k (set_timer Fired)).

Lemma kept_call (a : async) : keeps_async P a -> keeps P (call a).
Proof.
  intros Ha s H. unfold call. specialize (Ha s H).
  destruct (a s) as [[p |] s1]; cbn in Ha; [apply K_suspensions |]; exact Ha.
Qed.

Lemma kept_showError (m : error_message) : keeps P (showError m).
Proof. apply K_addMessage. Qed.

Lemma kept_await_fetch (r : request) (p : fetch_point) : keeps_async P (await_fetch r p).
Proof. intros s H. now apply K_send. Qed.

Lemma kept_await_json (p : json_point) : keeps_async P (await_json p).
Proof. intros s H. exact H. Qed.

#[local] Hint Resolve kept_call kept_showError kept_await_fetch kept_await_json
  K_reset K_send K_console_log K_messageInput K_addMessage K_showProcessingStatus
  K_updateProcessingText K_memoryPanel K_memoryModal K_addEventListeners
  K_handleLimitedMode K_closeWebSocketConnection K_connectionTimeout_callback
  K_clearTimeout K_closed K_fired : kept.

Lemma kept_updateMemoryPanel (m : option memory) (s : state) :
  P s -> P (snd (updateMemoryPanel m s)).
Proof. intros H. destruct m; cbn; now apply K_memoryPanel. Qed.

Lemma kept_ws_onopen (k : nat) : keeps P (ws_onopen k).
Proof. unfold ws_onopen. auto with kept. Qed.

Lemma kept_ws_onerror : keeps P ws_onerror.
Proof. unfold ws_onerror. auto 10 with kept. Qed.

Lemma kept_ws_onclose : keeps P ws_onclose.
Proof. unfold ws_onclose. auto with kept. Qed.

Lemma kept_fetchQueryResult (q : value) : keeps_async P (fetchQueryResult q).
Proof. unfold fetchQueryResult. auto with kept. Qed.

Lemma kept_fetchMemory : keeps_async P fetchMemory.
Proof. unfold fetchMemory. auto with kept. Qed.

Lemma kept_ws_onmessage (q : value) (d : payload) : keeps P (ws_onmessage q d).
Proof.
  pose proof (kept_fetchQueryResult q).
  destruct d as [| data]; cbn [ws_onmessage]; [auto with kept |].
  destruct (truthy (ws_error data)); [auto 10 with kept |].
  intros s Hs. destruct (negb (strict_eq (ws_query_id data) (activeQueryId s))).
  - now apply K_console_log.
  - revert s Hs. apply stable_seq; [auto with kept |].
    destruct (strict_eq (ws_status data) (VStr "completed") && truthy (ws_result data));
      [auto with kept |].
    destruct (strict_eq (ws_status data) (VStr "failed")); auto 10 with kept.
Qed.

Lemma kept_sendMessage : keeps_async P sendMessage.
Proof.
  intros s H. unfold sendMessage.
  destruct (negb (truthy (VStr (trim (messageInput (page s))))) || truthy (activeQueryId s));
    [exact H |].
  generalize (trim (messageInput (page s))). intros query. revert s H. as_kept P.
  auto 10 with kept.
Qed.

Lemma kept_resetMemory (c : bool) : keeps_async P (resetMemory c).
Proof. unfold resetMemory. destruct c; auto with kept. Qed.

Lemma kept_viewFullMemory : keeps_async P viewFullMemory.
Proof. unfold viewFullMemory. auto with kept. Qed.

Lemma kept_startup : keeps_async P startup.
Proof. unfold startup. auto with kept. Qed.

Lemma kept_catches :
  keeps P fetchQueryResult_catch /\ keeps P fetchQueryResult_finally
  /\ keeps P sendMessage_catch /\ keeps P startup_memory_catch
  /\ keeps P resetMemory_catch /\ keeps P viewFullMemory_catch
  /\ keeps P fetchMemory_catch.
Proof.
  unfold fetchQueryResult_catch, fetchQueryResult_finally, sendMessage_catch,
    startup_memory_catch, resetMemory_catch, viewFullMemory_catch, fetchMemory_catch.
  repeat split; auto 10 with kept.
Qed.

Lemma kept_resume_fetch (p : fetch_point) (o : outcome response) :
  keeps_async P (resume_fetch p o).
Proof.
  destruct kept_catches as (? & ? & ? & ? & ? & ? & ?).
  destruct p, o as [r |]; cbn [resume_fetch];
    repeat match goal with
           | |- keeps_async P (if ?b then _ else _) => destruct b
           end;
    auto 10 with kept.
Qed.

Lemma kept_resume_json (p : json_point) (o : outcome (option body)) :
  keeps_async P (resume_json marked p o).
Proof.
  destruct kept_catches as (? & ? & ? & ? & ? & ? & ?).
  pose proof kept_fetchMemory.
  destruct p, o as [[d |] |]; cbn [resume_json];
    repeat match goal with
           | |- keeps_async P (if ?b then _ else _) => destruct b
           | |- keeps_async P (match ?v with VStr _ => _ | _ => _ end) => destruct v
           end;
    auto 10 with kept.
  - intros s Hs. pose proof (kept_updateMemoryPanel (body_memory d) s Hs) as G.
    destruct (updateMemoryPanel (body_memory d) s) as [[] s1]; cbn [snd] in G;
      revert s1 G; as_kept P; auto with kept.
  - intros s Hs. unfold seq. cbn [activeQueryId set_activeQueryId].
    pose proof (K_acknowledged (query_id d) s Hs) as G.
    destruct (connectWebSocket (query_id d) (set_activeQueryId (query_id d) s))
      as [[] s1]; cbn [snd] in G |- *; [now apply H1 | exact G].
  - intros s Hs. cbv zeta.
    destruct (truthy (getLastUserMessage marked s)
              && negb (strict_eq (query d) (getLastUserMessage marked s)));
      revert s Hs; as_kept P; auto 10 with kept.
  - intros s Hs.
    destruct (truthy (getLastUserMessage marked s));
      revert s Hs; as_kept P; auto 10 with kept.
  - intros s Hs. pose proof (kept_updateMemoryPanel (body_memory d) s Hs) as G.
    destruct (updateMemoryPanel (body_memory d) s) as [[] s1]; cbn [snd] in G.
    + revert s1 G. as_kept P. auto with kept.
    + exact G.
Qed.

Lemma kept_handle (e : event) : keeps P (handle marked e).
Proof.
  pose proof kept_startup. pose proof kept_sendMessage.
  pose proof kept_resetMemory. pose proof kept_viewFullMemory.
  pose proof kept_ws_onopen. pose proof kept_ws_onmessage.
  pose proof kept_ws_onerror. pose proof kept_ws_onclose.
  pose proof kept_resume_fetch. pose proof kept_resume_json.
  intros s Hs. destruct e; cbn [handle].
  - now apply kept_call.
  - now apply K_messageInput.
  - destruct (listeners (page s) && enter && negb shiftKey); [now apply kept_call | exact Hs].
  - destruct (listeners (page s)); [now apply kept_call | exact Hs].
  - destruct (listeners (page s)); [now apply kept_call | exact Hs].
  - destruct (listeners (page s)); [now apply kept_call | exact Hs].
  - destruct (ready_of s k) as [[] |] eqn:E; try exact Hs.
    unfold seq. apply kept_ws_onopen. now apply K_opened.
  - destruct (nth_error (connections s) k) as [c |]; [| exact Hs].
    destruct (ready c); try exact Hs. now apply kept_ws_onmessage.
  - destruct (nth_error (connections s) k) as [c |]; [| exact Hs].
    destruct (ready c); try exact Hs; revert s Hs;
      (apply stable_seq; [auto with kept |]); apply stable_seq; auto with kept.
  - destruct (nth_error (connections s) k) as [c |]; [| exact Hs].
    destruct (ready c); try exact Hs; revert s Hs;
      (apply stable_seq; [auto with kept |]); auto with kept.
  - destruct (nth_error (connections s) k) as [c |]; [| exact Hs].
    destruct (connectionTimeout c); try exact Hs. revert s Hs.
    apply stable_seq; auto with kept.
  - destruct (nth_error (suspensions s) i) as [[p | p] |]; try exact Hs.
    revert s Hs. apply stable_seq; [| now apply kept_call].
    intros s Hs. now apply K_suspensions.
  - destruct (nth_error (suspensions s) i) as [[p | p] |]; try exact Hs.
    revert s Hs. apply stable_seq; [| now apply kept_call].
    intros s Hs. now apply K_suspensions.
Qed.

Lemma kept_run (es : list event) : keeps P (run marked es).
Proof.
  induction es as [| e es IH]; intros s Hs; [exact Hs |].
  cbn [run fold_left]. apply IH. now apply kept_handle.
Qed.

End Kept.

(** ** What the socket functions leave alone *)

(** The callback of the timer does nothing, or does lines 151 to 156. *)
Lemma connectionTimeout_callback_cases (s : state) :
  connectionTimeout_callback s = s
  \/ (websocket (connectionTimeout_callback s) = None
      /\ activeQueryId (connectionTimeout_callback s) = VNull
      /\ serverLimitedMode (connectionTimeout_callback s) = serverLimitedMode s
      /\ page (connectionTimeout_callback s)
         = page ((showError (ErrText "WebSocket连接超时，请刷新页面重试") ;;
                  showProcessingStatus false) s)).
Proof.
  unfold connectionTimeout_callback.
  destruct (websocket s) as [k |]; [| now left].
  assert (G : let s' := (console_log "WebSocket连接超时" ;;
                         update_connection k close ;;
                         set_websocket None ;;
                         showError (ErrText "WebSocket连接超时，请刷新页面重试") ;;
                         showProcessingStatus false ;;
                         set_activeQueryId VNull) s in
              websocket s' = None /\ activeQueryId s' = VNull
              /\ serverLimitedMode s' = serverLimitedMode s
              /\ page s'
                 = page ((showError (ErrText "WebSocket连接超时，请刷新页面重试") ;;
                          showProcessingStatus false) s)).
  { cbv zeta. unfold seq.
    cbn [websocket activeQueryId serverLimitedMode page chatContainer
         set_activeQueryId showProcessingStatus set_processingHidden showError
         addMessage set_chatContainer set_page set_websocket].
    untouched. repeat split. }
  destruct (ready_of s k) as [[] |]; auto.
Qed.

(** ** The socket of the active query *)

Lemma socket_of_active_query_update (k : nat) (f : connection -> connection) (s : state) :
  (forall c, queryId (f c) = queryId c) ->
  socket_of_active_query s -> socket_of_active_query (update_connection k f s).
Proof.
  intros Hf [B A]. split.
  - intros j. untouched. apply B.
  - untouched. intros T. destruct (A T) as [(j & c & W & N & Q) | [W F]].
    + left. exists j, (if (j =? k)%nat then f c else c). untouched.
      rewrite nth_error_update_connection, N.
      destruct (j =? k)%nat; cbn [option_map]; rewrite ?Hf; now repeat split.
    + right. now split.
Qed.

Lemma socket_of_active_query_always (d : dom) (es : list event) :
  socket_of_active_query (run marked es (initial d)).
Proof.
  apply (kept_run socket_of_active_query);
    try (intros; intros s0 H0; exact H0);
    try (intros; intros s0 H0; apply socket_of_active_query_update; [| exact H0];
         intros c; unfold clearTimeout; now destruct (connectionTimeout c)).
  - intros s0 [B _]. split; [exact B | discriminate].
  - intros v s0 _.
    destruct (connectWebSocket_fields v (set_activeQueryId v s0))
      as (_ & _ & _ & _ & _ & A & W & C).
    unfold socket_of_active_query. rewrite A. destruct (has_fragment v) eqn:F; split.
    + intros k Hk. rewrite W in Hk. discriminate.
    + intros _. right. now split.
    + intros k Hk. rewrite W in Hk. injection Hk as <-.
      rewrite C, length_app. cbn [List.length]. lia.
    + intros _. left. eexists _, _. split; [exact W |]. rewrite C.
      rewrite nth_error_app2 by lia. rewrite Nat.sub_diag. now split.
  - intros s0 _.
    destruct (closeWebSocketConnection_fields s0) as (W & T & _).
    split; [intros k Hk | intros F]; congruence.
  - intros s0 H0.
    destruct (connectionTimeout_callback_cases s0) as [-> | (W & A & _)]; [exact H0 |].
    split; [intros k Hk; congruence | intros F].
    rewrite A in F. discriminate.
  - intros k s0 _ H0. now apply socket_of_active_query_update.
  - split; [discriminate | discriminate].
Qed.

(** X20.  Whatever the user, the backend and the timers do, [websocket]
    holds a socket the script has made, and an active query id that is
    truthy is the id the socket in [websocket] was opened for, but for
    one case: an id with a [#] in it, for which the constructor threw,
    stays the active query id with [websocket] [null].  So a socket that
    is open while a truthy id is active was opened for that id, and when
    a message on it passes the filter of the handler with ["completed"]
    and a result, the status request that leaves is the one for the
    active query. *)
Theorem active_query_has_its_socket (d : dom) (es : list event) (k : nat)
    (c : connection) (data : wsdata) :
  let s := run marked es (initial d) in
  socket_of_active_query s
  /\ (truthy (activeQueryId s) = true ->
      has_fragment (activeQueryId s) = false ->
      exists j cj, websocket s = Some j
                   /\ nth_error (connections s) j = Some cj
                   /\ queryId cj = activeQueryId s)
  /\ (nth_error (connections s) k = Some c ->
      ready c = OPEN ->
      truthy (activeQueryId s) = true ->
      websocket s = Some k
      /\ queryId c = activeQueryId s
      /\ (truthy (ws_error data) = false ->
          strict_eq (ws_query_id data) (activeQueryId s) = true ->
          ws_status data = VStr "completed" ->
          truthy (ws_result data) = true ->
          requests (handle marked (Received k (Parsed data)) s)
          = (requests s ++ [GET (QueryStatus (activeQueryId s))])%list)).
Proof.
  cbv zeta. pose proof (socket_of_active_query_always d es) as Q.
  pose proof (one_live_socket_always marked d es) as L.
  set (s := run marked es (initial d)) in *.
  split; [exact Q |]. split.
  { intros T F. destruct Q as [_ A].
    destruct (A T) as [E | [_ F']]; [exact E | congruence]. }
  intros Hc Hr T.
  assert (W : websocket s = Some k).
  { apply (L k c Hc). unfold live. now rewrite Hr. }
  assert (E : queryId c = activeQueryId s).
  { destruct Q as [_ A]. destruct (A T) as [(j & c' & W' & N & E) | [W' _]];
      [| congruence].
    rewrite W in W'. injection W' as <-. rewrite Hc in N. now injection N as <-. }
  repeat split; trivial.
  intros Herr Hid Hst Hres. unfold handle. rewrite Hc, Hr.
  unfold ws_onmessage. rewrite Herr, Hid, Hst, Hres, E. reflexivity.
Qed.

(** ** The transcript *)

Lemma extends_refl {A : Type} (l : list A) : extends l l.
Proof. exists []. now rewrite app_nil_r. Qed.

Lemma extends_app {A : Type} (l l' t : list A) : extends l l' -> extends l (l' ++ t)%list.
Proof. intros [u ->]. exists (u ++ t)%list. now rewrite app_assoc. Qed.

(** X21.  No task takes a message out of the transcript or moves one:
    whatever happens on the page, a successful reset of the memory too,
    the transcript afterwards is the transcript before with more at its
    end. *)
Theorem transcript_only_grows (es : list event) (s : state) :
  extends (chatContainer (page s)) (chatContainer (page (run marked es s))).
Proof.
  apply (kept_run (fun x => extends (chatContainer (page s)) (chatContainer (page x))));
    try (intros; intros s0 H0; exact H0);
    try (intros; intros s0 H0; now untouched).
  - intros v s0 H0.
    destruct (connectWebSocket_fields v (set_activeQueryId v s0)) as (_ & -> & _).
    exact H0.
  - intros m s0 H0. now apply extends_app.
  - intros m s0 H0. now apply extends_app.
  - intros s0 H0.
    destruct (closeWebSocketConnection_fields s0) as (_ & _ & _ & -> & _). exact H0.
  - intros s0 H0.
    destruct (connectionTimeout_callback_cases s0) as [-> | (_ & _ & _ & ->)];
      [exact H0 |].
    now apply extends_app.
  - intros k s0 _ H0. now untouched.
  - apply extends_refl.
Qed.

(** ** Limited mode on the page *)

Lemma limited_mode_shown_frame (s s' : state) :
  serverLimitedMode s' = serverLimitedMode s ->
  resetMemoryBtn_disabled (page s') = resetMemoryBtn_disabled (page s) ->
  viewMemoryBtn_disabled (page s') = viewMemoryBtn_disabled (page s) ->
  statusPanel (page s') = statusPanel (page s) ->
  extends (chatContainer (page s)) (chatContainer (page s')) ->
  limited_mode_shown s -> limited_mode_shown s'.
Proof.
  unfold limited_mode_shown. intros -> -> -> -> [t ->].
  destruct (serverLimitedMode s); [| trivial].
  intros (R & V & S & m & M). repeat split; trivial.
  exists m. apply in_or_app. now left.
Qed.

(** X22.  On a page whose two memory buttons start enabled, the flag
    [serverLimitedMode] and the page go together whatever happens: while
    the flag is not set both buttons are enabled; once it is set both
    are disabled, the status panel holds a warning and the transcript
    holds one. *)
Theorem limited_mode_is_shown (d : dom) (es : list event) :
  resetMemoryBtn_disabled d = false ->
  viewMemoryBtn_disabled d = false ->
  limited_mode_shown (run marked es (initial d)).
Proof.
  intros Hr Hv.
  apply (kept_run limited_mode_shown);
    try (intros; intros s0 H0; exact H0);
    try (intros; intros s0 H0; revert H0; apply limited_mode_shown_frame;
         untouched; trivial; apply extends_refl).
  - intros v s0.
    destruct (connectWebSocket_fields v (set_activeQueryId v s0))
      as (_ & P & _ & _ & L & _).
    apply limited_mode_shown_frame; rewrite ?P, ?L; trivial. apply extends_refl.
  - intros m s0. apply limited_mode_shown_frame; trivial.
    exists [m]. reflexivity.
  - intros m s0 _. unfold limited_mode_shown, handleLimitedMode, seq.
    cbn [serverLimitedMode page resetMemoryBtn_disabled viewMemoryBtn_disabled
         statusPanel chatContainer set_memoryPanel set_buttons_disabled addMessage
         set_chatContainer set_statusPanel set_serverLimitedMode set_page].
    repeat split; [now exists m |].
    exists m. apply in_or_app. right. now left.
  - intros s0.
    destruct (closeWebSocketConnection_fields s0) as (_ & _ & _ & P & _ & _ & L & _).
    apply limited_mode_shown_frame; rewrite ?P, ?L; trivial. apply extends_refl.
  - intros s0.
    destruct (connectionTimeout_callback_cases s0) as [-> | (_ & _ & L & P)]; [trivial |].
    apply limited_mode_shown_frame; rewrite ?P, ?L; trivial.
    eexists. reflexivity.
  - intros k s0 _. apply limited_mode_shown_frame; untouched; trivial. apply extends_refl.
  - unfold limited_mode_shown. cbn. now split.
Qed.

(** ** [handleLimitedMode] (lines 461 to 481) *)

(** Once the status panel has been emptied the processing indicator is
    out of the document for good: no task writes to the panel but
    [handleLimitedMode], which empties it again. *)
Lemma processingStatus_gone_forever (es : list event) (s : state) :
  processingStatus_in_document (page s) = false ->
  processingStatus_in_document (page (run marked es s)) = false.
Proof.
  assert (F : forall s0 s1 : state,
             statusPanel (page s1) = statusPanel (page s0) ->
             processingStatus_in_document (page s0) = false ->
             processingStatus_in_document (page s1) = false).
  { unfold processingStatus_in_document. now intros s0 s1 ->. }
  apply (kept_run (fun s => processingStatus_in_document (page s) = false));
    try (intros; intros s0 H0; exact H0);
    try (intros; intros s0 H0; revert H0; apply F; untouched; reflexivity).
  - intros v s0.
    destruct (connectWebSocket_fields v (set_activeQueryId v s0)) as (_ & P & _).
    apply F. now rewrite P.
  - intros m s0 _. reflexivity.
  - intros s0.
    destruct (closeWebSocketConnection_fields s0) as (_ & _ & _ & P & _).
    apply F. now rewrite P.
  - intros s0.
    destruct (connectionTimeout_callback_cases s0) as [-> | (_ & _ & _ & P)]; [trivial |].
    apply F. now rewrite P.
  - intros k s0 _. apply F. now untouched.
Qed.

(** X15.  [handleLimitedMode] empties the status panel and puts its
    warning there, so the processing indicator, a child of that panel in
    the page, leaves the document: it is not seen any more, whatever
    class it is given and whatever happens on the page later.  Called a
    second time, [handleLimitedMode] puts its warning in the place of the
    first in the status panel and after the first in the transcript: the
    status panel holds the last warning only, the transcript holds both.
    The flag, the two buttons and the memory panel are as after the
    first call, and the query in flight, the class of the indicator and
    the requests are not touched. *)
Theorem handleLimitedMode_again (m1 m2 : string) (s : state) :
  let s1 := handleLimitedMode m1 s in
  let s' := handleLimitedMode m2 s1 in
  statusPanel (page s') = StatusWarning m2
  /\ chatContainer (page s')
     = (chatContainer (page s) ++ [SystemWarning m1; SystemWarning m2])%list
  /\ serverLimitedMode s' = true
  /\ resetMemoryBtn_disabled (page s') = true
  /\ viewMemoryBtn_disabled (page s') = true
  /\ memoryPanel (page s') = PanelUnavailable
  /\ same_query s s'
  /\ processingHidden (page s') = processingHidden (page s)
  /\ requests s' = requests s
  /\ processingStatus_in_document (page s1) = false
  /\ processingStatus_seen (page (showProcessingStatus true s1)) = false
  /\ (forall es, processingStatus_seen (page (run marked es s1)) = false).
Proof.
  cbv zeta.
  assert (G : forall es,
             processingStatus_seen (page (run marked es (handleLimitedMode m1 s))) = false).
  { intros es. unfold processingStatus_seen.
    now rewrite (processingStatus_gone_forever es (handleLimitedMode m1 s)). }
  unfold handleLimitedMode, seq in *.
  cbn [page statusPanel chatContainer serverLimitedMode resetMemoryBtn_disabled
       viewMemoryBtn_disabled memoryPanel processingHidden requests
       set_memoryPanel set_buttons_disabled addMessage set_chatContainer
       set_statusPanel set_serverLimitedMode set_page].
  rewrite <- app_assoc. repeat split. exact G.
Qed.

End Invariants.

(** * Errors of the socket and the answer of a query *)

Section Channel.

Variable marked : message -> rendering.

(** ** [onerror] (lines 194 to 199) *)

(** X23.  [onerror] closes nothing and clears no timer.  When the socket
    in [websocket] fails while its timer is pending, the error is shown
    and the active query id is set to [null], and the socket stays in
    [websocket] with its timer running; when the timer then runs out the
    callback finds that socket not open, calls [close()] on it and shows
    the timeout error as well: the one failure puts two errors in the
    transcript. *)
Theorem failed_socket_times_out_too (k : nat) (c : connection) (s : state) :
  websocket s = Some k ->
  nth_error (connections s) k = Some c ->
  ready c <> CLOSED ->
  connectionTimeout c = Pending ->
  let s1 := handle marked (Failed k) s in
  let s2 := handle marked (TimedOut k) s1 in
  chatContainer (page s1)
  = (chatContainer (page s) ++ [SystemError (ErrText "WebSocket连接错误")])%list
  /\ activeQueryId s1 = VNull
  /\ processingHidden (page s1) = true
  /\ websocket s1 = Some k
  /\ nth_error (connections s1) k = Some (set_ready CLOSED c)
  /\ chatContainer (page s2)
     = (chatContainer (page s)
        ++ [SystemError (ErrText "WebSocket连接错误");
            SystemError (ErrText "WebSocket连接超时，请刷新页面重试")])%list
  /\ option_map close_calls (nth_error (connections s2) k) = Some (S (close_calls c))
  /\ websocket s2 = None.
Proof.
  intros W Hc Hr Ht. cbv zeta.
  set (s0 := update_connection k (set_ready CLOSED) s).
  assert (N0 : nth_error (connections s0) k = Some (set_ready CLOSED c))
    by now apply nth_error_updated.
  assert (E1 : handle marked (Failed k) s
               = (if onclose c then ws_onclose else skip) (ws_onerror s0)).
  { unfold handle. rewrite Hc. destruct (ready c); try reflexivity. now elim Hr. }
  assert (F : forall x, websocket ((if onclose c then ws_onclose else skip) (ws_onerror x))
                        = websocket x
                        /\ connections ((if onclose c then ws_onclose else skip) (ws_onerror x))
                           = connections x
                        /\ activeQueryId ((if onclose c then ws_onclose else skip) (ws_onerror x))
                           = VNull
                        /\ page ((if onclose c then ws_onclose else skip) (ws_onerror x))
                           = page ((showError (ErrText "WebSocket连接错误") ;;
                                    showProcessingStatus false) x)).
  { intros x. destruct (onclose c); repeat split. }
  destruct (F s0) as (W1 & C1 & A1 & P1).
  set (s1 := handle marked (Failed k) s) in *. rewrite <- E1 in W1, C1, A1, P1.
  assert (Ws1 : websocket s1 = Some k) by (rewrite W1; subst s0; now untouched).
  assert (N1 : nth_error (connections s1) k = Some (set_ready CLOSED c)) by now rewrite C1.
  assert (Ch1 : chatContainer (page s1)
                = (chatContainer (page s) ++ [SystemError (ErrText "WebSocket连接错误")])%list).
  { rewrite P1. unfold seq. subst s0.
    cbn [page chatContainer showProcessingStatus set_processingHidden showError addMessage
         set_chatContainer set_page].
    now untouched. }
  split; [exact Ch1 |]. split; [exact A1 |].
  split; [now rewrite P1 |]. split; [exact Ws1 |]. split; [exact N1 |].
  set (t0 := update_connection k (set_timer Fired) s1).
  assert (Nt : nth_error (connections t0) k = Some (set_timer Fired (set_ready CLOSED c)))
    by now apply nth_error_updated.
  assert (Wt : websocket t0 = Some k) by (subst t0; now untouched).
  assert (E2 : handle marked (TimedOut k) s1
               = (console_log "WebSocket连接超时" ;;
                  update_connection k close ;;
                  set_websocket None ;;
                  showError (ErrText "WebSocket连接超时，请刷新页面重试") ;;
                  showProcessingStatus false ;;
                  set_activeQueryId VNull) t0).
  { unfold handle. rewrite N1. cbn [connectionTimeout set_ready]. rewrite Ht.
    unfold seq at 1. fold t0. unfold connectionTimeout_callback, ready_of.
    rewrite Wt, Nt. reflexivity. }
  rewrite E2. unfold seq.
  cbn [page chatContainer websocket connections set_activeQueryId showProcessingStatus
       set_processingHidden showError addMessage set_chatContainer set_page
       set_websocket].
  untouched.
  assert (Nc : nth_error
                 (connections (update_connection k close (console_log "WebSocket连接超时" t0)))
                 k = Some (close (set_timer Fired (set_ready CLOSED c))))
    by now apply nth_error_updated.
  rewrite Nc. subst t0. cbn [page console_log set_console]. untouched.
  rewrite Ch1, <- app_assoc. repeat split.
Qed.

(** X24.  [closeWebSocketConnection] takes [onclose] off the socket it
    closes and leaves [onerror] on it.  When [connectWebSocket] has put
    the socket of a new query in the place of an old one and the old
    socket then reports an error, [onerror] shows the error, hides the
    processing indicator and sets the active query id to [null], though
    the id was the one of the new query; the new socket stays in
    [websocket] (which is [null] when the constructor threw and there is
    no new socket). *)
Theorem error_of_closed_socket_resets_next_query (k : nat) (c : connection) (q : value)
    (s : state) :
  websocket s = Some k ->
  nth_error (connections s) k = Some c ->
  ready c <> CLOSED ->
  let s1 := snd (connectWebSocket q s) in
  let s2 := handle marked (Failed k) s1 in
  let socket := if has_fragment q then None else Some (List.length (connections s)) in
  activeQueryId s1 = q
  /\ websocket s1 = socket
  /\ activeQueryId s2 = VNull
  /\ chatContainer (page s2)
     = (chatContainer (page s) ++ [SystemError (ErrText "WebSocket连接错误")])%list
  /\ processingHidden (page s2) = true
  /\ websocket s2 = socket
  /\ console s2 = (console s1 ++ ["WebSocket错误:"])%list.
Proof.
  intros W Hc Hr. cbv zeta.
  destruct (connectWebSocket_fields q s) as (_ & P1 & _ & _ & _ & A1 & W1 & C1).
  destruct (closeWebSocketConnection_fields s) as (_ & _ & _ & _ & _ & _ & _ & L & N).
  assert (Hk : (k < List.length (connections s))%nat).
  { apply nth_error_Some. now rewrite Hc. }
  assert (N1 : nth_error (connections (snd (connectWebSocket q s))) k
               = Some (close (set_onclose false c))).
  { rewrite C1, nth_error_app1 by lia. rewrite N, W, Nat.eqb_refl, Hc. reflexivity. }
  assert (E : handle marked (Failed k) (snd (connectWebSocket q s))
              = ws_onerror (update_connection k (set_ready CLOSED)
                              (snd (connectWebSocket q s)))).
  { unfold handle. rewrite N1. cbn [ready close set_onclose onclose].
    destruct (ready c); try reflexivity. now elim Hr. }
  rewrite E, W1, L. unfold ws_onerror, seq.
  cbn [activeQueryId page chatContainer processingHidden websocket console
       set_activeQueryId showProcessingStatus set_processingHidden showError addMessage
       set_chatContainer set_page console_log set_console negb].
  untouched. rewrite P1, W1, L. repeat split; trivial.
Qed.

(** ** [fetchQueryResult]: the answer (lines 216 to 245) *)

(** X25.  When the status check answers with the text the page shows of
    the last user message, [fetchQueryResult] asks for the result and
    touches nothing else.  A [final_answer] that is a string and not
    empty is added to the transcript as the assistant's message, and
    [fetchMemory] is started.  A [final_answer] that is truthy and no
    string makes [marked.parse] throw: nothing is added but the error of
    the [catch], and [fetchMemory] is not started.  A [final_answer]
    that is missing or empty adds nothing and starts nothing, no error
    either.  A result that is not ok shows [detail] of its body, and a
    status check that is not ok shows that the query cannot be verified.
    In each of these the call ends with the active query id [null] and
    the processing indicator hidden. *)
Theorem fetchQueryResult_answer (q : value) (before after : list message)
    (content : string) (s : state) :
  chatContainer (page s) = (before ++ UserMessage content :: after)%list ->
  message_contents (marked (UserMessage content)) = [] ->
  (forall x, In x after -> selected marked x = []) ->
  (forall statusData,
     strict_eq (query statusData)
       (VStr (trim (textContent (marked (UserMessage content))))) = true ->
     resume_json marked (Result_status_json q) (Fulfilled (Some statusData)) s
     = (Some (AwaitFetch Result_result), send (GET (QueryResult q)) s))
  /\ (forall data s1,
        let c := resume_json marked Result_json (Fulfilled (Some data)) s1 in
        let answered := match final_answer data with
                        | VStr a => negb (String.eqb a "")
                        | _ => false
                        end in
        let thrown := truthy (final_answer data) && negb answered in
        fst c = None
        /\ chatContainer (page (snd c))
           = (chatContainer (page s1)
              ++ if answered then [AssistantMessage (final_answer data)]
                 else if thrown then [SystemError (ErrText "获取结果时出错")]
                 else [])%list
        /\ requests (snd c)
           = (requests s1 ++ if answered then [GET Memory] else [])%list
        /\ suspensions (snd c)
           = (suspensions s1 ++ if answered then [AwaitFetch Memory_get] else [])%list
        /\ activeQueryId (snd c) = VNull
        /\ processingHidden (page (snd c)) = true)
  /\ (forall error s1,
        let c := resume_json marked Result_error_json (Fulfilled (Some error)) s1 in
        fst c = None
        /\ chatContainer (page (snd c))
           = (chatContainer (page s1) ++ [SystemError (ErrResultFailed (detail error))])%list
        /\ requests (snd c) = requests s1
        /\ activeQueryId (snd c) = VNull
        /\ processingHidden (page (snd c)) = true)
  /\ (forall r s1,
        ok r = false ->
        let c := resume_fetch (Result_status q) (Fulfilled r) s1 in
        fst c = None
        /\ chatContainer (page (snd c))
           = (chatContainer (page s1) ++ [SystemError (ErrText "无法验证查询状态")])%list
        /\ requests (snd c) = requests s1
        /\ activeQueryId (snd c) = VNull
        /\ processingHidden (page (snd c)) = true).
Proof.
  intros E Hc Ha.
  assert (Hlast : getLastUserMessage marked s
                  = VStr (trim (textContent (marked (UserMessage content))))).
  { apply (getLastUserMessage_last_selected marked (flat_map (selected marked) before)).
    now apply (userMessages_last_user marked before after). }
  split; [| split; [| split]].
  - intros statusData Hq. unfold resume_json. rewrite Hlast, Hq.
    now rewrite andb_false_r.
  - intros data s1. cbv zeta. unfold resume_json.
    destruct (final_answer data) as [| | b | x | a |]; cbn [truthy negb andb].
    1-2: cbn; rewrite ?app_nil_r; repeat split.
    + destruct b; cbn; rewrite ?app_nil_r; repeat split.
    + destruct x as [[] | [] | | [] m e]; cbn; rewrite ?app_nil_r; repeat split.
    + destruct (String.eqb a ""); cbn; rewrite ?app_nil_r; repeat split.
    + cbn; rewrite ?app_nil_r; repeat split.
  - intros error s1. repeat split.
  - intros r s1 Hok. cbv zeta. unfold resume_fetch. rewrite Hok. repeat split.
Qed.

End Channel.

(** * The theorems of the rest of the script at work *)


(** X3 at a page whose one socket is open, for an id without a [#] and
    for an id with one. *)
Lemma connectWebSocket_one_socket_witness :
  let s := asking "深圳到珠海怎么走" (VStr "q1") in
  (let r := connectWebSocket (VStr "q2") s in
   fst r = false
   /\ websocket (snd r) = Some (List.length (connections s))
   /\ activeQueryId (snd r) = VStr "q2")
  /\ (let r := connectWebSocket (VStr "q#2") s in
      fst r = true
      /\ websocket (snd r) = None
      /\ activeQueryId (snd r) = VStr "q#2"
      /\ List.length (connections (snd r)) = List.length (connections s)).
Proof.
  assert (L : one_live_socket (asking "深圳到珠海怎么走" (VStr "q1"))).
  { intros [| k] c Hk _; [reflexivity | destruct k; discriminate]. }
  cbv zeta. split.
  - destruct (connectWebSocket_one_socket (VStr "q2")
                (asking "深圳到珠海怎么走" (VStr "q1")) L)
      as (F & A & _ & _ & B & _).
    destruct B as (W & _); [reflexivity |].
    split; [exact F | split; [exact W | exact A]].
  - destruct (connectWebSocket_one_socket (VStr "q#2")
                (asking "深圳到珠海怎么走" (VStr "q1")) L)
      as (F & A & _ & _ & _ & B).
    destruct B as (W & N & _); [reflexivity |].
    split; [exact F | split; [exact W | split; [exact A | exact N]]].
Defined.


(** X5 at two texts sent one after the other. *)
Lemma second_query_before_acknowledgement_witness :
  let s := typed "深圳到珠海怎么走" in
  let s' := run plain_text [ClickSend; Input "杭州景点"; ClickSend] s in
  requests s'
  = (requests s ++ [POST Query (Some (trim (messageInput (page s))));
                    POST Query (Some (trim "杭州景点"))])%list
  /\ suspensions s'
     = (suspensions s ++ [AwaitFetch Send_query; AwaitFetch Send_query])%list.
Proof.
  destruct (second_query_before_acknowledgement plain_text "杭州景点"
              (typed "深圳到珠海怎么走"))
    as (A & B & _);
    [vm_compute; reflexivity | vm_compute; discriminate | vm_compute; reflexivity
     | vm_compute; discriminate |].
  cbv zeta. split; [exact A | exact B].
Defined.

(** X6 at a POST answered with 500 and a body with a [detail]. *)
Lemma sendMessage_failure_witness :
  let s := initial blank_page in
  let s' := (showError (ErrQueryFailed (VStr "服务器内部错误")) ;;
             showProcessingStatus false) s in
  ends plain_text (resume_fetch Send_query (http 500) s) s'
  /\ processingHidden (page s') = true.
Proof.
  assert (H : ends plain_text (resume_fetch Send_query (http 500) (initial blank_page))
                ((showError (ErrQueryFailed (VStr "服务器内部错误")) ;;
                  showProcessingStatus false) (initial blank_page))).
  { apply (ends_after_json plain_text Send_error_json
             (Fulfilled (Some (detail_body (VStr "服务器内部错误"))))
             (initial blank_page) (initial blank_page)).
    apply ends_returned. }
  cbv zeta. split; [exact H |].
  destruct (sendMessage_failure plain_text (http 500) (initial blank_page) _
              ltac:(intros r E; injection E as <-; reflexivity) H)
    as (_ & P & _).
  exact P.
Defined.

(** X7 at a POST answered with 503. *)
Lemma sendMessage_failure_messages_witness :
  let c := resume_fetch Send_query (http 503) (initial blank_page) in
  fst c = None
  /\ serverLimitedMode (snd c) = true
  /\ processingHidden (page (snd c)) = true.
Proof.
  destruct (sendMessage_failure_messages plain_text {| status := 503 |} (initial blank_page))
    as [A _]; [reflexivity |].
  destruct (A eq_refl) as (F & L & _ & _ & _ & _ & _ & H).
  cbv zeta. split; [exact F | split; [exact L | exact H]].
Defined.

(** X8 at a start-up whose health check is rejected. *)
Lemma startup_attaches_listeners_witness :
  let s := initial blank_page in
  let s' := (console_log "连接错误:" ;; showError (ErrText "无法连接到服务器") ;;
             addEventListeners) (send (GET Health) s) in
  ends plain_text (startup s) s' /\ listeners (page s') = true.
Proof.
  assert (H : ends plain_text (startup (initial blank_page))
                ((console_log "连接错误:" ;; showError (ErrText "无法连接到服务器") ;;
                  addEventListeners) (send (GET Health) (initial blank_page)))).
  { apply (ends_after_fetch plain_text Startup_health Rejected
             (send (GET Health) (initial blank_page))
             (send (GET Health) (initial blank_page))).
    apply ends_returned. }
  cbv zeta. split; [exact H |].
  exact (proj2 (startup_attaches_listeners plain_text _ _ H)).
Defined.

(** X9 at a health check answered with 500. *)
Lemma startup_health_failure_witness :
  let c := resume_fetch Startup_health (http 500) (initial blank_page) in
  fst c = None
  /\ chatContainer (page (snd c)) = [SystemError (ErrText "API服务不可用")]
  /\ requests (snd c) = []
  /\ serverLimitedMode (snd c) = false.
Proof.
  destruct (startup_health_failure (http 500) (initial blank_page))
    as (A & B & C & D & _).
  - intros r E. injection E as <-. reflexivity.
  - cbv zeta. split; [exact A | split; [exact B | split; [exact C | exact D]]].
Defined.

(** X10 at a [/memory] request answered with 404. *)
Lemma startup_memory_answers_witness :
  resume_fetch Startup_memory (http 404) starting_up
  = (None, addEventListeners starting_up).
Proof.
  destruct (startup_memory_answers plain_text {| status := 404 |} starting_up)
    as (A & _); [reflexivity |].
  apply A. reflexivity.
Defined.

(** X14 at a memory with five points of interest: three are shown. *)
Lemma memory_view_groups_witness :
  exists groups l,
    memory_view five_pois
    = PanelGroups (groups ++ [QueryCount (query_count five_pois)])%list
    /\ In (Pois l) groups
    /\ List.length l = 3%nat.
Proof.
  destruct (memory_view_groups five_pois) as (groups & E & _ & G & _ & P & _);
    [vm_compute; reflexivity |].
  destruct P as (l & Hl); [discriminate |].
  exists groups, l. cbv zeta. split; [exact E | split; [exact Hl | ]].
  exact (proj2 (G _ Hl)).
Defined.

(** X16 at a transcript that ends with a plain error, and at the same
    transcript once an error that brings the markup of a user message
    is added. *)
Lemma getLastUserMessage_last_witness :
  let s := showError (ErrText "WebSocket连接错误") (asking "深圳到珠海怎么走" (VStr "q1")) in
  getLastUserMessage marked_sample s
  = VStr (trim (textContent (marked_sample (UserMessage "深圳到珠海怎么走"))))
  /\ getLastUserMessage marked_sample
       (addMessage (SystemError (ErrResetFailed (VStr user_markup))) s)
     = VStr (trim "x").
Proof.
  destruct (getLastUserMessage_last marked_sample []
              [SystemError (ErrText "WebSocket连接错误")] "深圳到珠海怎么走"
              (showError (ErrText "WebSocket连接错误")
                 (asking "深圳到珠海怎么走" (VStr "q1"))))
    as (A & B).
  - reflexivity.
  - reflexivity.
  - intros m [<- | []]. split; [discriminate | reflexivity].
  - cbv zeta. split; [exact A |].
    apply (B (SystemError (ErrResetFailed (VStr user_markup))) []); [discriminate |].
    vm_compute. reflexivity.
Defined.

(** X17 at a message that reports the query as being processed. *)
Lemma onmessage_progress_witness :
  let s := asking "深圳到珠海怎么走" (VStr "q1") in
  let s' := ws_onmessage (VStr "q1") (Parsed (progress "q1" "processing" VUndefined)) s in
  processingText (page s') = "正在分析并处理您的问题..."
  /\ chatContainer (page s') = chatContainer (page s)
  /\ activeQueryId s' = activeQueryId s.
Proof.
  destruct (onmessage_progress (VStr "q1") (progress "q1" "processing" VUndefined)
              (asking "深圳到珠海怎么走" (VStr "q1")))
    as (_ & A & B & _ & C & _); try reflexivity.
  cbv zeta. split; [exact A | split; [exact B | exact C]].
Defined.

(** X18 at a distance written in words and a duration left empty. *)
Lemma plan_item_not_a_number_witness :
  plan_item "深圳-珠海" {| distance := "约12公里"; duration := "" |}
  = PlanItem "深圳-珠海" (Digits "NaN") (Digits "NaN").
Proof.
  apply (plan_item_not_a_number "深圳-珠海" {| distance := "约12公里"; duration := "" |});
    vm_compute; reflexivity.
Defined.

(** X19 at the timer of a first socket that runs out while the socket of
    a second query is connecting. *)
Lemma timeout_acts_on_current_socket_witness :
  let s := second_socket_connecting in
  let s' := handle plain_text (TimedOut 0) s in
  websocket s = Some 1%nat
  /\ option_map close_calls (nth_error (connections s') 1) = Some 1%nat
  /\ websocket s' = None
  /\ activeQueryId s' = VNull.
Proof.
  destruct (timeout_acts_on_current_socket plain_text 0 1
              {| queryId := VStr "q1"; ready := CLOSED; onclose := false;
                 close_calls := 1; connectionTimeout := Pending |}
              {| queryId := VStr "q2"; ready := CONNECTING; onclose := true;
                 close_calls := 0; connectionTimeout := Pending |}
              second_socket_connecting)
    as (A & _); try (vm_compute; reflexivity).
  destruct A as (_ & B & _ & C & D & _); [discriminate |].
  cbv zeta. split; [vm_compute; reflexivity | split; [exact B | split; [exact C | exact D]]].
Defined.

(** X20 at the message that reports the query completed. *)
Lemma active_query_has_its_socket_witness :
  let s := run plain_text query_opened (initial blank_page) in
  queryId (open_socket (VStr "q1")) = activeQueryId s
  /\ requests (handle plain_text (Received 0 (Parsed (progress "q1" "completed" VObject))) s)
     = (requests s ++ [GET (QueryStatus (activeQueryId s))])%list.
Proof.
  destruct (active_query_has_its_socket plain_text blank_page query_opened 0
              (open_socket (VStr "q1")) (progress "q1" "completed" VObject))
    as (_ & _ & A).
  destruct A as (_ & B & C); try (vm_compute; reflexivity).
  cbv zeta. split; [exact B |].
  apply C; vm_compute; reflexivity.
Defined.

(** An acknowledgement whose id holds a [#]: the constructor throws, the
    [catch] of [sendMessage] shows its error and hides the indicator, and
    the id stays active with no socket and no timer; the next text is
    not sent. *)
Example fragment_id_blocks_the_page :
  let s := run plain_text fragment_acknowledged (initial blank_page) in
  activeQueryId s = VStr "q#1"
  /\ websocket s = None
  /\ connections s = []
  /\ chatContainer (page s)
     = [UserMessage "深圳到珠海怎么走";
        SystemError (ErrText "无法连接到服务器，请检查服务是否正常运行")]
  /\ processingHidden (page s) = true
  /\ suspensions s = []
  /\ handle plain_text ClickSend s = s.
Proof. vm_compute. repeat split. Qed.

(** X22 at a start-up whose [/memory] request answers 503. *)
Lemma limited_mode_is_shown_witness :
  limited_mode_shown (run plain_text memory_not_ready (initial blank_page)).
Proof.
  apply (limited_mode_is_shown plain_text blank_page memory_not_ready); reflexivity.
Defined.

(** X23 at a socket that fails while it is connecting. *)
Lemma failed_socket_times_out_too_witness :
  let s := connecting in
  let s2 := handle plain_text (TimedOut 0) (handle plain_text (Failed 0) s) in
  chatContainer (page s2)
  = (chatContainer (page s)
     ++ [SystemError (ErrText "WebSocket连接错误");
         SystemError (ErrText "WebSocket连接超时，请刷新页面重试")])%list.
Proof.
  destruct (failed_socket_times_out_too plain_text 0
              {| queryId := VStr "q1"; ready := CONNECTING; onclose := true;
                 close_calls := 0; connectionTimeout := Pending |}
              connecting)
    as (_ & _ & _ & _ & _ & A & _);
    [reflexivity | reflexivity | discriminate | reflexivity |].
  exact A.
Defined.

(** X24 at a socket that is connecting when the next query is
    acknowledged. *)
Lemma error_of_closed_socket_resets_next_query_witness :
  let s := connecting in
  let s1 := snd (connectWebSocket (VStr "q2") s) in
  let s2 := handle plain_text (Failed 0) s1 in
  activeQueryId s1 = VStr "q2"
  /\ activeQueryId s2 = VNull
  /\ processingHidden (page s2) = true.
Proof.
  destruct (error_of_closed_socket_resets_next_query plain_text 0
              {| queryId := VStr "q1"; ready := CONNECTING; onclose := true;
                 close_calls := 0; connectionTimeout := Pending |}
              (VStr "q2") connecting)
    as (A & _ & B & _ & C & _);
    [reflexivity | reflexivity | discriminate |].
  cbv zeta. split; [exact A | split; [exact B | exact C]].
Defined.

(** X25 at the status check of the query that was asked. *)
Lemma fetchQueryResult_answer_witness :
  let s := asking "深圳到珠海怎么走" (VStr "q1") in
  resume_json plain_text (Result_status_json (VStr "q1"))
    (Fulfilled (Some (status_body "深圳到珠海怎么走"))) s
  = (Some (AwaitFetch Result_result), send (GET (QueryResult (VStr "q1"))) s).
Proof.
  destruct (fetchQueryResult_answer plain_text (VStr "q1") [] [] "深圳到珠海怎么走"
              (asking "深圳到珠海怎么走" (VStr "q1")))
    as (A & _); [reflexivity | reflexivity | intros x [] |].
  apply A. vm_compute. reflexivity.
Defined.
